(** * Per-message metrics delta engine (agentcli/core/trace_utils.py)

    A shallow embedding of the module [trace_utils]: the two process-wide
    tables, the delta calculation, the trace slicing, the content
    extraction, the view builder and the entry points, together with the
    text extraction of [response_utils] and the chat and info handlers of
    [container_server] that call them, followed by the properties of the
    engine.

    Python values are embedded as the JSON-like universe [pyval] (None,
    bool, int, str, list, dict with string keys); floating point numbers are
    outside the universe.  Exceptions are explicit: a computation returns
    [Ok v] or [Raise e].  Code that reads or writes the module globals
    runs in the state-and-exception monad [M]; a state change made before an
    exception is raised stays, as in Python.  Console output and the
    wall-clock fields of the records are left out. *)

From Stdlib Require Import ZArith Lia List Ascii String Bool.
From stdpp Require Import gmap strings list fin_maps pretty.

Local Open Scope Z_scope.
Set Warnings "-register-all".

(** ** Values and exceptions *)

Inductive pyval : Type :=
| VNone
| VBool (b : bool)
| VInt (z : Z)
| VStr (s : string)
| VList (l : list pyval)
| VDict (d : list (string * pyval)).

(** The exception classes that the modelled operations raise.  All of them
    derive from Python's [Exception].  [RuntimeError] stands for whatever
    else the agent runtime raises from its own methods. *)
Inductive exn : Type :=
| KeyError (k : string)
| TypeError
| AttributeError
| ValueError
| ZeroDivisionError
| RuntimeError.

Inductive res (A : Type) : Type :=
| Ok (a : A)
| Raise (e : exn).
Arguments Ok {A} a.
Arguments Raise {A} e.

#[global] Instance res_ret : MRet res := fun A a => Ok a.
#[global] Instance res_bind : MBind res := fun A B f m =>
  match m with
  | Ok a => f a
  | Raise e => Raise e
  end.

(** [for x in xs: acc = step acc x], stopping at the first exception. *)
Fixpoint foldM {A B : Type} (step : B -> A -> res B) (xs : list A) (acc : B) : res B :=
  match xs with
  | [] => Ok acc
  | x :: rest =>
      match step acc x with
      | Ok acc' => foldM step rest acc'
      | Raise e => Raise e
      end
  end.

(** ** Primitive operations of the language *)

Module Py.

(** [bool(v)] *)
Definition truthy (v : pyval) : bool :=
  match v with
  | VNone => false
  | VBool b => b
  | VInt z => negb (z =? 0)
  | VStr s => negb (String.eqb s "")
  | VList l => match l with [] => false | _ => true end
  | VDict d => match d with [] => false | _ => true end
  end.

(** The integer behind a number: [bool] is a subclass of [int]. *)
Definition num (v : pyval) : option Z :=
  match v with
  | VInt z => Some z
  | VBool true => Some 1
  | VBool false => Some 0
  | _ => None
  end.

(** Dictionary lookup on the association list, first binding of the key. *)
Fixpoint lookup (k : string) (d : list (string * pyval)) : option pyval :=
  match d with
  | [] => None
  | (k', v) :: rest => if String.eqb k k' then Some v else lookup k rest
  end.

(** [v.get(k, default)]: only dictionaries have the method. *)
Definition get (v : pyval) (k : string) (dflt : pyval) : res pyval :=
  match v with
  | VDict d => Ok (match lookup k d with Some x => x | None => dflt end)
  | _ => Raise AttributeError
  end.

(** [v[k]] with a string key. *)
Definition getitem (v : pyval) (k : string) : res pyval :=
  match v with
  | VDict d => match lookup k d with Some x => Ok x | None => Raise (KeyError k) end
  | _ => Raise TypeError
  end.

(** [isinstance(v, dict) and k in v] *)
Definition is_dict_with (v : pyval) (k : string) : bool :=
  match v with
  | VDict d => match lookup k d with Some _ => true | None => false end
  | _ => false
  end.

(** [a == b]: numbers compare by value, lists pointwise, dictionaries as
    finite maps, values of different kinds are unequal. *)
Fixpoint eq (a b : pyval) {struct a} : bool :=
  match a, b with
  | VNone, VNone => true
  | VStr s, VStr t => String.eqb s t
  | VInt x, VInt y => x =? y
  | VInt x, VBool c => x =? (if c then 1 else 0)
  | VBool c, VInt y => (if c then 1 else 0) =? y
  | VBool c, VBool c' => Bool.eqb c c'
  | VList l, VList m =>
      (fix eq_list (l : list pyval) (m : list pyval) {struct l} : bool :=
         match l, m with
         | [], [] => true
         | x :: l', y :: m' => eq x y && eq_list l' m'
         | _, _ => false
         end) l m
  | VDict d, VDict e =>
      (length d =? length e)%nat &&
      (fix eq_dict (d : list (string * pyval)) : bool :=
         match d with
         | [] => true
         | (k, v) :: d' =>
             match lookup k e with
             | Some w => eq v w && eq_dict d'
             | None => false
             end
         end) d
  | _, _ => false
  end.

(** [needle in hay] for two strings. *)
Fixpoint substring_of (needle hay : string) : bool :=
  String.prefix needle hay ||
  match hay with
  | EmptyString => false
  | String _ rest => substring_of needle rest
  end.

(** [needle in v] for a string [needle]: substring of a string, element
    of a list, key of a dictionary. *)
Definition contains (needle : string) (v : pyval) : res bool :=
  match v with
  | VStr s => Ok (substring_of needle s)
  | VList l => Ok (existsb (eq (VStr needle)) l)
  | VDict d => Ok (match lookup needle d with Some _ => true | None => false end)
  | _ => Raise TypeError
  end.

(** The one-character strings of a string. *)
Fixpoint chars (s : string) : list pyval :=
  match s with
  | EmptyString => []
  | String c rest => VStr (String c EmptyString) :: chars rest
  end.

(** The elements [for x in v] visits. *)
Definition iter (v : pyval) : res (list pyval) :=
  match v with
  | VList l => Ok l
  | VStr s => Ok (chars s)
  | VDict d => Ok (map (fun kv => VStr (fst kv)) d)
  | _ => Raise TypeError
  end.

(** [len(v)] *)
Definition len (v : pyval) : res Z :=
  match v with
  | VList l => Ok (Z.of_nat (length l))
  | VStr s => Ok (Z.of_nat (String.length s))
  | VDict d => Ok (Z.of_nat (length d))
  | _ => Raise TypeError
  end.

(** [a - b] *)
Definition sub (a b : pyval) : res pyval :=
  match num a, num b with
  | Some x, Some y => Ok (VInt (x - y))
  | _, _ => Raise TypeError
  end.

(** [max(n, v)] for an integer literal [n]: the first maximal argument. *)
Definition max_with (n : Z) (v : pyval) : res pyval :=
  match num v with
  | Some x => Ok (if n <? x then v else VInt n)
  | None => Raise TypeError
  end.

(** [a < n] for an integer [n]. *)
Definition lt_int (a : pyval) (n : Z) : res bool :=
  match num a with
  | Some x => Ok (x <? n)
  | None => Raise TypeError
  end.

(** [a // b] *)
Definition floordiv (a b : pyval) : res pyval :=
  match num a, num b with
  | Some x, Some y => if y =? 0 then Raise ZeroDivisionError else Ok (VInt (x / y))
  | _, _ => Raise TypeError
  end.

(** A slice bound: an integer, or [None] for an open end. *)
Definition slice_bound (v : pyval) : res (option Z) :=
  match v with
  | VNone => Ok None
  | _ => match num v with Some x => Ok (Some x) | None => Raise TypeError end
  end.

(** Clamp a slice bound into [0, n]; negative bounds count from the end. *)
Definition clamp_index (n i : Z) : Z :=
  if i <? 0 then Z.max (i + n) 0 else Z.min i n.

(** [l[lo:hi]] on a list, with Python's treatment of negative and
    out-of-range bounds. *)
Definition slice_list {A : Type} (l : list A) (lo : Z) (hi : option Z) : list A :=
  let n := Z.of_nat (length l) in
  let a := clamp_index n lo in
  let b := match hi with Some h => clamp_index n h | None => n end in
  firstn (Z.to_nat (b - a)) (skipn (Z.to_nat a) l).

(** [v[lo:hi]]; a dictionary cannot be sliced, whatever the exception
    class the interpreter picks. *)
Definition slice (v lo hi : pyval) : res pyval :=
  match v with
  | VList l =>
      a ← slice_bound lo;
      b ← slice_bound hi;
      Ok (VList (slice_list l (default 0 a) b))
  | VStr s =>
      a ← slice_bound lo;
      b ← slice_bound hi;
      Ok (VStr (string_of_list_ascii
                  (slice_list (list_ascii_of_string s) (default 0 a) b)))
  | _ => Raise TypeError
  end.

(** *** Text *)

Definition join (sep : string) (parts : list string) : string :=
  match parts with
  | [] => EmptyString
  | p :: rest => fold_left (fun acc q => acc +:+ sep +:+ q) rest p
  end.

Definition hex_digit (n : N) : ascii :=
  match n with
  | 10 => "a" | 11 => "b" | 12 => "c" | 13 => "d" | 14 => "e" | 15 => "f"
  | _ => pretty_N_char n
  end%char%N.

Definition double_quote : ascii := ascii_of_nat 34.
Definition single_quote : ascii := ascii_of_nat 39.
Definition backslash : ascii := ascii_of_nat 92.

Fixpoint has_char (c : ascii) (s : string) : bool :=
  match s with
  | EmptyString => false
  | String c' rest => Ascii.eqb c c' || has_char c rest
  end.

(** The escaped form of one character inside [repr] of a string quoted
    with [q] (text is taken as ASCII). *)
Definition escape_char (q c : ascii) : string :=
  let n := N_of_ascii c in
  if Ascii.eqb c backslash then String backslash (String backslash EmptyString)
  else if Ascii.eqb c q then String backslash (String q EmptyString)
  else if (n =? 9)%N then String backslash "t"
  else if (n =? 10)%N then String backslash "n"
  else if (n =? 13)%N then String backslash "r"
  else if ((n <? 32) || (n =? 127))%N
       then String backslash
              (String "x" (String (hex_digit (n / 16)) (String (hex_digit (n mod 16)) EmptyString)))
  else String c EmptyString.

Fixpoint escape (q : ascii) (s : string) : string :=
  match s with
  | EmptyString => EmptyString
  | String c rest => escape_char q c +:+ escape q rest
  end.

(** [repr(s)] of a string: single quotes, unless the text has a single
    quote and no double quote. *)
Definition repr_str (s : string) : string :=
  let q := if has_char single_quote s && negb (has_char double_quote s)
           then double_quote else single_quote in
  String q (escape q s +:+ String q EmptyString).

(** [repr(v)] *)
Fixpoint repr (v : pyval) : string :=
  match v with
  | VNone => "None"
  | VBool true => "True"
  | VBool false => "False"
  | VInt z => pretty z
  | VStr s => repr_str s
  | VList l => "[" +:+ join ", " (map repr l) +:+ "]"
  | VDict d =>
      "{" +:+ join ", " (map (fun kv => repr_str (fst kv) +:+ ": " +:+ repr (snd kv)) d) +:+ "}"
  end.

(** [str(v)], also what an f-string placeholder renders. *)
Definition str (v : pyval) : string :=
  match v with
  | VStr s => s
  | _ => repr v
  end.

(** [a + " "]: only a string can be concatenated with a string. *)
Definition add_space (a : pyval) : res string :=
  match a with
  | VStr s => Ok (s +:+ " ")
  | _ => Raise TypeError
  end.

(** Characters removed by [str.strip()]. *)
Definition is_space (c : ascii) : bool :=
  let n := N_of_ascii c in
  (((9 <=? n) && (n <=? 13)) || ((28 <=? n) && (n <=? 32)))%N.

Fixpoint lstrip (s : list ascii) : list ascii :=
  match s with
  | c :: rest => if is_space c then lstrip rest else s
  | [] => []
  end.

(** [s.strip()] *)
Definition strip (s : string) : string :=
  string_of_list_ascii
    (rev (lstrip (rev (lstrip (list_ascii_of_string s))))).

Definition is_digit (c : ascii) : bool :=
  let n := N_of_ascii c in ((48 <=? n) && (n <=? 57))%N.

Fixpoint all_digits (s : string) : bool :=
  match s with
  | EmptyString => true
  | String c rest => is_digit c && all_digits rest
  end.

(** Decimal value of a digit string appended to the digits already read. *)
Fixpoint read_digits (s : string) (acc : Z) : Z :=
  match s with
  | EmptyString => acc
  | String c rest => read_digits rest (10 * acc + Z.of_N (N_of_ascii c) - 48)
  end.

(** [int(v * 1000)].  A number is scaled.  A string is repeated a
    thousand times and then parsed, which succeeds exactly for
    non-empty digit strings (interpreters that limit the length of
    integer strings reject the longer ones; the limit is not
    modelled).  A repeated list is not a number, a dictionary cannot be
    multiplied, and [None] cannot either. *)
Definition int_times_1000 (v : pyval) : res Z :=
  match v with
  | VInt z => Ok (z * 1000)
  | VBool b => Ok (if b then 1000 else 0)
  | VStr s =>
      if all_digits s && negb (String.eqb s "")
      then Ok (Nat.iter 1000 (read_digits s) 0)
      else Raise ValueError
  | _ => Raise TypeError
  end.

End Py.

(** ** Objects handed in by the agent runtime *)

(** An object as the view builder probes it: its class name, its truth
    value, the outcome of reading each attribute it has (a property may
    raise), and its instance dictionary if it has one. *)
Record py_object : Type := {
  class_name : string;
  obj_truthy : bool;
  attributes : list (string * res pyval);
  instance_dict : option (list (string * pyval))
}.

Fixpoint find_attr (a : string) (attrs : list (string * res pyval)) : option (res pyval) :=
  match attrs with
  | [] => None
  | (a', r) :: rest => if String.eqb a a' then Some r else find_attr a rest
  end.

(** [o.a] *)
Definition getattr (o : py_object) (a : string) : res pyval :=
  match find_attr a (attributes o) with
  | Some r => r
  | None => Raise AttributeError
  end.

(** [hasattr(o, a)]: false when reading the attribute raises
    [AttributeError]; any other exception passes through. *)
Definition hasattr (o : py_object) (a : string) : res bool :=
  match getattr o a with
  | Ok _ => Ok true
  | Raise AttributeError => Ok false
  | Raise e => Raise e
  end.

(** The agent instance: [id(agent)], its class name, its [model] and
    [name] attributes where it has them.  An agent object is truthy. *)
Record agent : Type := {
  agent_id : Z;
  agent_class : string;
  agent_model : option py_object;
  agent_name : option pyval
}.

(** [hasattr(obj, name)] on the outcome of reading the attribute, where
    the object has it: false when the reading raises [AttributeError];
    any other exception passes through. *)
Definition has_attr {A : Type} (reading : option (res A)) : res bool :=
  match reading with
  | Some (Ok _) => Ok true
  | Some (Raise AttributeError) => Ok false
  | Some (Raise e) => Raise e
  | None => Ok false
  end.

(** [obj.name] *)
Definition read_attr {A : Type} (reading : option (res A)) : res A :=
  match reading with
  | Some r => r
  | None => Raise AttributeError
  end.

(** The metrics object of a turn result: the outcome of its
    [get_summary()]. *)
Record metrics_object : Type := {
  get_summary : res pyval
}.

(** The turn result: its truth value, its printable form, and the
    outcome of reading its [metrics] attribute, where it has one. *)
Record agent_response : Type := {
  response_truthy : bool;
  response_str : string;
  metrics : option (res metrics_object)
}.

(** ** Global state *)

(** One entry of [_agent_snapshots]: the last cumulative counters seen. *)
Record snapshot : Type := {
  inputTokens : pyval;
  outputTokens : pyval;
  totalTokens : pyval;
  cycles : pyval;
  latencyMs : pyval
}.

(** The module globals [_agent_snapshots] (keyed by [id(agent)]) and
    [_session_totals]. *)
Record engine_state : Type := {
  _agent_snapshots : gmap Z snapshot;
  _session_totals : gmap string Z
}.

(** The state when the module is loaded. *)
Definition initial_state : engine_state :=
  {| _agent_snapshots := ∅;
     _session_totals :=
       <["inputTokens" := 0]>
         (<["outputTokens" := 0]>
            (<["totalTokens" := 0]>
               (<["cycles" := 0]> (<["latencyMs" := 0]> ∅)))) |}.

(** ** State and exceptions *)

Definition M (A : Type) : Type := engine_state -> res A * engine_state.

#[global] Instance M_ret : MRet M := fun A a st => (Ok a, st).
#[global] Instance M_bind : MBind M := fun A B f m st =>
  match m st with
  | (Ok a, st') => f a st'
  | (Raise e, st') => (Raise e, st')
  end.

(** A computation that does not touch the globals. *)
Definition lift {A : Type} (r : res A) : M A := fun st => (r, st).

(** [try: body / except Exception: return fallback] *)
Definition try_except {A : Type} (body : M A) (fallback : A) : M A := fun st =>
  match body st with
  | (Ok a, st') => (Ok a, st')
  | (Raise _, st') => (Ok fallback, st')
  end.

(** [try: body / except (handled classes): fallback], without state. *)
Definition catching {A : Type} (handled : exn -> bool) (body : res A) (fallback : A) : res A :=
  match body with
  | Ok a => Ok a
  | Raise e => if handled e then Ok fallback else Raise e
  end.

(** [_agent_snapshots.get(key, None)] *)
Definition get_snapshot (key : Z) : M (option snapshot) := fun st =>
  (Ok (_agent_snapshots st !! key), st).

(** [_agent_snapshots[key] = snap] *)
Definition put_snapshot (key : Z) (snap : snapshot) : M unit := fun st =>
  (Ok tt, {| _agent_snapshots := <[key := snap]> (_agent_snapshots st);
             _session_totals := _session_totals st |}).

(** [_session_totals[k] += rhs]: the current total is loaded first, then
    the right-hand side is evaluated, added and stored. *)
Definition add_to_total (k : string) (rhs : res pyval) : M unit := fun st =>
  match _session_totals st !! k with
  | None => (Raise (KeyError k), st)
  | Some t =>
      match rhs with
      | Raise e => (Raise e, st)
      | Ok v =>
          match Py.num v with
          | Some x =>
              (Ok tt, {| _agent_snapshots := _agent_snapshots st;
                         _session_totals := <[k := t + x]> (_session_totals st) |})
          | None => (Raise TypeError, st)
          end
      end
  end.

(** ** Content extraction (the walk over the new traces) *)

(** One entry of the list [tool_calls] built by the extraction. *)
Record tool_call : Type := {
  tc_id : pyval;
  tc_name : pyval;
  tc_parameters : pyval;
  tc_result : pyval
}.

(** [child.get('name') == 'stream_messages' and
     child.get('message', {}).get('role') == 'assistant'] *)
Definition is_assistant_step (child : pyval) : res bool :=
  name ← Py.get child "name" VNone;
  if Py.eq name (VStr "stream_messages")
  then message ← Py.get child "message" (VDict []);
       role ← Py.get message "role" VNone;
       Ok (Py.eq role (VStr "assistant"))
  else Ok false.

(** [child.get('message', {}).get('content', [])], as a list of items. *)
Definition assistant_content (child : pyval) : res (list pyval) :=
  message ← Py.get child "message" (VDict []);
  content ← Py.get message "content" (VList []);
  Py.iter content.

(** ['Tool:' in other_child.get('name', '') and
     other_child.get('metadata', {}).get('toolUseId') == tool_id] *)
Definition is_tool_sibling (other_child tool_id : pyval) : res bool :=
  name ← Py.get other_child "name" (VStr "");
  marked ← Py.contains "Tool:" name;
  if (marked : bool)
  then metadata ← Py.get other_child "metadata" (VDict []);
       use_id ← Py.get metadata "toolUseId" VNone;
       Ok (Py.eq use_id tool_id)
  else Ok false.

(** Innermost loop: every item with a [text] key overwrites the result. *)
Definition scan_content_item (tool_result content_item : pyval) : res pyval :=
  if Py.is_dict_with content_item "text"
  then Py.getitem content_item "text"
  else Ok tool_result.

(** Loop over the items of the sibling's message: each [toolResult] item
    has its content scanned. *)
Definition scan_result_item (tool_result result_item : pyval) : res pyval :=
  if Py.is_dict_with result_item "toolResult"
  then tr ← Py.getitem result_item "toolResult";
       result_content ← Py.get tr "content" (VList []);
       items ← Py.iter result_content;
       foldM scan_content_item items tool_result
  else Ok tool_result.

(** The body run for the sibling that matched, before the [break]. *)
Definition read_tool_result (other_child : pyval) : res pyval :=
  message ← Py.get other_child "message" (VDict []);
  content ← Py.get message "content" VNone;
  if Py.truthy content
  then message' ← Py.getitem other_child "message";
       content' ← Py.getitem message' "content";
       items ← Py.iter content';
       foldM scan_result_item items (VStr "")
  else Ok (VStr "").

(** [tool_result = ""; for other_child in children: if matches: ...; break] *)
Fixpoint find_tool_result (children : list pyval) (tool_id : pyval) : res pyval :=
  match children with
  | [] => Ok (VStr "")
  | other_child :: rest =>
      matched ← is_tool_sibling other_child tool_id;
      if (matched : bool) then read_tool_result other_child
      else find_tool_result rest tool_id
  end.

(** The record appended for one [toolUse] item; [children] are the
    children of the trace the item was found in. *)
Definition tool_call_of (children : list pyval) (item : pyval) : res tool_call :=
  tool_use ← Py.getitem item "toolUse";
  tool_id ← Py.get tool_use "toolUseId" (VStr "");
  tool_name ← Py.get tool_use "name" (VStr "unknown");
  tool_input ← Py.get tool_use "input" (VDict []);
  tool_result ← find_tool_result children tool_id;
  Ok {| tc_id := tool_id; tc_name := tool_name;
        tc_parameters := tool_input; tc_result := tool_result |}.

(** The pair ([message_contents], [tool_calls]) the walk accumulates. *)
Definition extracted : Type := (list pyval * list tool_call)%type.

Definition extract_item (children : list pyval) (acc : extracted) (item : pyval)
  : res extracted :=
  if Py.is_dict_with item "text"
  then text ← Py.getitem item "text";
       Ok (fst acc ++ [text], snd acc)
  else if Py.is_dict_with item "toolUse"
  then call ← tool_call_of children item;
       Ok (fst acc, snd acc ++ [call])
  else Ok acc.

Definition extract_child (children : list pyval) (acc : extracted) (child : pyval)
  : res extracted :=
  assistant ← is_assistant_step child;
  if (assistant : bool)
  then content ← assistant_content child;
       foldM (extract_item children) content acc
  else Ok acc.

(** [trace.get('children', [])] is evaluated again by the inner sibling
    loop; it is the same list both times, so it is read once here. *)
Definition extract_trace (acc : extracted) (trace : pyval) : res extracted :=
  children_value ← Py.get trace "children" (VList []);
  children ← Py.iter children_value;
  foldM (extract_child children) children acc.

(** [for trace in new_traces: ...] starting from two empty lists. *)
Definition extract_contents (new_traces : pyval) : res extracted :=
  traces ← Py.iter new_traces;
  foldM extract_trace traces ([], []).

(** ** Per-message metrics *)

(** The dictionary returned by [calculate_per_message_metrics] and built
    as [direct_metrics] by the companion entry point. *)
Record per_message_data : Type := {
  token_delta : pyval;
  new_cycles : pyval;
  latency_ms : pyval;
  message_contents : list pyval;
  tool_calls : list tool_call;
  tool_usage : pyval;
  new_traces : pyval;
  metrics_summary : pyval
}.

(** [max(0, curr - prev)] *)
Definition clamped_delta (curr prev : pyval) : res pyval :=
  diff ← Py.sub curr prev;
  Py.max_with 0 diff.

(** The three deltas of one observation: the current values when there is
    no previous snapshot, the clamped differences otherwise. *)
Definition compute_deltas (curr_usage curr_cycles curr_latency : pyval)
    (prev_snapshot : option snapshot) : res (pyval * pyval * pyval) :=
  match prev_snapshot with
  | None => Ok (curr_usage, curr_cycles, curr_latency)
  | Some prev =>
      cur_in ← Py.get curr_usage "inputTokens" (VInt 0);
      d_in ← clamped_delta cur_in (inputTokens prev);
      cur_out ← Py.get curr_usage "outputTokens" (VInt 0);
      d_out ← clamped_delta cur_out (outputTokens prev);
      cur_total ← Py.get curr_usage "totalTokens" (VInt 0);
      d_total ← clamped_delta cur_total (totalTokens prev);
      d_cycles ← clamped_delta curr_cycles (cycles prev);
      d_latency ← clamped_delta curr_latency (latencyMs prev);
      Ok (VDict [("inputTokens", d_in); ("outputTokens", d_out); ("totalTokens", d_total)],
          d_cycles, d_latency)
  end.

(** The snapshot saved for the agent: the current cumulative counters. *)
Definition snapshot_of (curr_usage curr_cycles curr_latency : pyval) : res snapshot :=
  cur_in ← Py.get curr_usage "inputTokens" (VInt 0);
  cur_out ← Py.get curr_usage "outputTokens" (VInt 0);
  cur_total ← Py.get curr_usage "totalTokens" (VInt 0);
  Ok {| inputTokens := cur_in; outputTokens := cur_out; totalTokens := cur_total;
        cycles := curr_cycles; latencyMs := curr_latency |}.

(** [all_traces[prev:curr] if prev < len(all_traces) else []] *)
Definition slice_new_traces (all_traces prev_cycles_index curr_cycles : pyval) : res pyval :=
  n ← Py.len all_traces;
  inside ← Py.lt_int prev_cycles_index n;
  if (inside : bool) then Py.slice all_traces prev_cycles_index curr_cycles
  else Ok (VList []).

(** The five [+=] on [_session_totals], in source order. *)
Definition accumulate_session (delta_usage delta_cycles delta_latency : pyval) : M unit :=
  add_to_total "inputTokens" (Py.get delta_usage "inputTokens" (VInt 0));;
  add_to_total "outputTokens" (Py.get delta_usage "outputTokens" (VInt 0));;
  add_to_total "totalTokens" (Py.get delta_usage "totalTokens" (VInt 0));;
  add_to_total "cycles" (Ok delta_cycles);;
  add_to_total "latencyMs" (Ok delta_latency).

(** Lines 64-95: the deltas against the agent's previous snapshot, and
    the snapshot saved back.  Without an agent object the snapshot table is
    neither read nor written. *)
Definition track_agent (agent_obj : option agent) (curr_usage curr_cycles curr_latency : pyval)
  : M (pyval * pyval * pyval * option snapshot) :=
  match agent_obj with
  | None => mret (curr_usage, curr_cycles, curr_latency, None)
  | Some a =>
      prev_snapshot ← get_snapshot (agent_id a);
      deltas ← lift (compute_deltas curr_usage curr_cycles curr_latency prev_snapshot);
      snap ← lift (snapshot_of curr_usage curr_cycles curr_latency);
      put_snapshot (agent_id a) snap;;
      mret (deltas, prev_snapshot)
  end.

Definition calculate_per_message_metrics (current_summary : pyval) (agent_obj : option agent)
  : M per_message_data :=
  curr_usage ← lift (Py.get current_summary "accumulated_usage" (VDict []));
  curr_cycles ← lift (Py.get current_summary "total_cycles" (VInt 0));
  accumulated ← lift (Py.get current_summary "accumulated_metrics" (VDict []));
  curr_latency ← lift (Py.get accumulated "latencyMs" (VInt 0));
  tracked ← track_agent agent_obj curr_usage curr_cycles curr_latency;
  let '(delta_usage, delta_cycles, delta_latency, prev_snapshot) := tracked in
  accumulate_session delta_usage delta_cycles delta_latency;;
  let prev_cycles_index :=
    match prev_snapshot with
    | Some prev => cycles prev
    | None => VInt 0
    end in
  all_traces ← lift (Py.get current_summary "traces" (VList []));
  new_traces ← lift (slice_new_traces all_traces prev_cycles_index curr_cycles);
  contents ← lift (extract_contents new_traces);
  tool_usage ← lift (Py.get current_summary "tool_usage" (VDict []));
  mret {| token_delta := delta_usage;
          new_cycles := delta_cycles;
          latency_ms := delta_latency;
          message_contents := fst contents;
          tool_calls := snd contents;
          tool_usage := tool_usage;
          new_traces := new_traces;
          metrics_summary := current_summary |}.

(** ** View builder *)

(** The model shown when no agent, or no model, is given. *)
Definition fallback_model : string := "us.anthropic.claude-3-7-sonnet-20250219-v1:0".

(** The branch on the model's class name. *)
Definition name_from_class (cls : string) : string :=
  if Py.substring_of "Bedrock" cls then "BedrockModel"
  else if Py.substring_of "Anthropic" cls then "AnthropicModel"
  else if Py.substring_of "OpenAI" cls then "OpenAIModel"
  else cls.

(** [except (AttributeError, TypeError, ValueError)] *)
Definition probe_handled (e : exn) : bool :=
  match e with
  | AttributeError | TypeError | ValueError => true
  | _ => false
  end.

(** [except (AttributeError, TypeError)] *)
Definition class_handled (e : exn) : bool :=
  match e with
  | AttributeError | TypeError => true
  | _ => false
  end.

(** [hasattr(model_obj, '__dict__') and 'model_id' in model_obj.__dict__] *)
Definition dict_has_model_id (model_obj : py_object) : option pyval :=
  match instance_dict model_obj with
  | Some d => Py.lookup "model_id" d
  | None => None
  end.

(** The body of the outer [try] of the model probing: the first attribute
    found among [model_id], [model], [model_name], [_model_id], then the
    instance dictionary, then the class name. *)
Definition probe_model (model_obj : py_object) : res string :=
  has_id ← hasattr model_obj "model_id";
  if (has_id : bool) then v ← getattr model_obj "model_id"; Ok (Py.str v) else
  has_model ← hasattr model_obj "model";
  if (has_model : bool) then v ← getattr model_obj "model"; Ok (Py.str v) else
  has_name ← hasattr model_obj "model_name";
  if (has_name : bool) then v ← getattr model_obj "model_name"; Ok (Py.str v) else
  has_private ← hasattr model_obj "_model_id";
  if (has_private : bool) then v ← getattr model_obj "_model_id"; Ok (Py.str v) else
  match dict_has_model_id model_obj with
  | Some v => Ok (Py.str v)
  | None =>
      catching class_handled (Ok (name_from_class (class_name model_obj))) "Unknown Model"
  end.

(** [actual_model]: the fallback constant unless the agent has a truthy
    [model]; then the probing, with its handled failures turned into
    "Unknown Model". *)
Definition derive_model_name (agent_arg : option agent) : res string :=
  match agent_arg with
  | None => Ok fallback_model
  | Some a =>
      match agent_model a with
      | None => Ok fallback_model
      | Some model_obj =>
          if obj_truthy model_obj
          then catching probe_handled (probe_model model_obj) "Unknown Model"
          else Ok fallback_model
      end
  end.

(** [agent_name]: the agent's truthy [name], else its class name, else
    "Strands Agent" without an agent. *)
Definition derive_agent_name (agent_arg : option agent) : pyval :=
  match agent_arg with
  | None => VStr "Strands Agent"
  | Some a =>
      match agent_name a with
      | Some n => if Py.truthy n then n else VStr (agent_class a)
      | None => VStr (agent_class a)
      end
  end.

(** One entry of [cycles]; the wall-clock fields [start_time] and
    [end_time] and the constant [spans] are left out. *)
Record cycle_view : Type := {
  cycle_id : pyval;
  prompt : string;
  completion : string;
  duration_ms : Z
}.

Record token_counts : Type := {
  prompt_tokens : pyval;
  completion_tokens : pyval;
  total_tokens : pyval
}.

(** One entry of [llm_calls] (timestamps left out). *)
Record llm_call : Type := {
  call_id : string;
  model : string;
  call_duration_ms : Z;
  call_prompt : string;
  call_completion : string;
  tokens : token_counts
}.

(** One entry of the converted [tool_calls] (timestamps left out). *)
Record ui_tool_call : Type := {
  tool_id : pyval;
  tool_name : pyval;
  tool_duration_ms : Z;
  parameters : pyval;
  result : pyval
}.

Record agent_attributes : Type := {
  gen_ai_system : string;
  attr_agent_name : pyval;
  gen_ai_agent_name : pyval;
  gen_ai_request_model : string;
  gen_ai_usage_prompt_tokens : pyval;
  gen_ai_usage_completion_tokens : pyval;
  gen_ai_usage_total_tokens : pyval;
  mode : string
}.

Record debug_info : Type := {
  debug_new_cycles : pyval;
  debug_message_contents : list pyval;
  debug_new_traces : pyval;
  debug_metrics_summary : pyval
}.

(** The dictionary returned to the transport layer. *)
Record ui_record : Type := {
  message_id : string;
  trace_id : string;
  has_real_traces : bool;
  response_text : string;
  message_text : string;
  attributes_of_agent : agent_attributes;
  ui_cycles : list cycle_view;
  ui_llm_calls : list llm_call;
  ui_tool_calls : list ui_tool_call;
  total_duration_ms : pyval;
  ui_total_tokens : token_counts;
  ui_metrics_summary : pyval;
  ui_debug_info : debug_info
}.

(** [completion_text += item['text'] + " "] for the items with a text. *)
Definition completion_item (text : string) (item : pyval) : res string :=
  if Py.is_dict_with item "text"
  then t ← Py.getitem item "text";
       piece ← Py.add_space t;
       Ok (text +:+ piece)
  else Ok text.

Definition completion_child (text : string) (child : pyval) : res string :=
  assistant ← is_assistant_step child;
  if (assistant : bool)
  then content ← assistant_content child;
       foldM completion_item content text
  else Ok text.

(** [int(trace.get('duration', 1) * 1000) if trace.get('duration') else 1000] *)
Definition duration_ms_of (trace : pyval) : res Z :=
  d ← Py.get trace "duration" VNone;
  if Py.truthy d
  then d' ← Py.get trace "duration" (VInt 1);
       Py.int_times_1000 d'
  else Ok 1000.

(** [per_message_data['token_delta'][k] // max(1, per_message_data['new_cycles'])] *)
Definition token_share (data : per_message_data) (k : string) : res pyval :=
  t ← Py.getitem (token_delta data) k;
  n ← Py.max_with 1 (new_cycles data);
  Py.floordiv t n.

(** The three token counts read from [token_delta] by subscript. *)
Definition token_counts_of (data : per_message_data) : res token_counts :=
  p ← Py.getitem (token_delta data) "inputTokens";
  c ← Py.getitem (token_delta data) "outputTokens";
  t ← Py.getitem (token_delta data) "totalTokens";
  Ok {| prompt_tokens := p; completion_tokens := c; total_tokens := t |}.

(** One turn of the loop over [enumerate(new_traces)]: the cycle and its
    synthetic LLM call. *)
Definition build_cycle (response_text actual_model : string) (data : per_message_data)
    (i : Z) (trace : pyval) : res (cycle_view * llm_call) :=
  cid ← Py.get trace "id" (VStr ("cycle_" +:+ pretty (i + 1)));
  children_value ← Py.get trace "children" (VList []);
  children ← Py.iter children_value;
  completion_text ← foldM completion_child children EmptyString;
  let shown := if String.eqb (Py.strip completion_text) "" then response_text
               else Py.strip completion_text in
  dur ← duration_ms_of trace;
  p ← token_share data "inputTokens";
  c ← token_share data "outputTokens";
  t ← token_share data "totalTokens";
  Ok ({| cycle_id := cid; prompt := "User message"; completion := shown;
         duration_ms := dur |},
      {| call_id := "llm_" +:+ Py.str cid; model := actual_model;
         call_duration_ms := dur; call_prompt := "User message";
         call_completion := shown;
         tokens := {| prompt_tokens := p; completion_tokens := c; total_tokens := t |} |}).

Fixpoint build_cycles (response_text actual_model : string) (data : per_message_data)
    (i : Z) (traces : list pyval) : res (list cycle_view * list llm_call) :=
  match traces with
  | [] => Ok ([], [])
  | trace :: rest =>
      one ← build_cycle response_text actual_model data i trace;
      more ← build_cycles response_text actual_model data (i + 1) rest;
      Ok (fst one :: fst more, snd one :: snd more)
  end.

(** The converted tool call: fixed 100 ms duration. *)
Definition convert_tool_call (tool_data : tool_call) : ui_tool_call :=
  {| tool_id := tc_id tool_data; tool_name := tc_name tool_data;
     tool_duration_ms := 100; parameters := tc_parameters tool_data;
     result := tc_result tool_data |}.

(** [convert_to_ui_format]; [now] is the reading of the clock in
    microseconds. *)
Definition convert_to_ui_format (now : Z) (response : agent_response)
    (data : per_message_data) (msg_id : string) (agent_arg : option agent)
  : res ui_record :=
  let text := if response_truthy response then response_str response else EmptyString in
  actual_model ← derive_model_name agent_arg;
  let shown_agent := derive_agent_name agent_arg in
  traces ← Py.iter (new_traces data);
  built ← build_cycles text actual_model data 0 traces;
  let converted := map convert_tool_call (tool_calls data) in
  _ ← Py.getitem (token_delta data) "totalTokens";
  attr_tokens ← token_counts_of data;
  totals ← token_counts_of data;
  Ok {| message_id := msg_id;
        trace_id := "trace_" +:+ pretty now;
        has_real_traces := true;
        response_text := text;
        message_text := EmptyString;
        attributes_of_agent :=
          {| gen_ai_system := "strands-agents";
             attr_agent_name := shown_agent;
             gen_ai_agent_name := shown_agent;
             gen_ai_request_model := actual_model;
             gen_ai_usage_prompt_tokens := prompt_tokens attr_tokens;
             gen_ai_usage_completion_tokens := completion_tokens attr_tokens;
             gen_ai_usage_total_tokens := total_tokens attr_tokens;
             mode := "local" |};
        ui_cycles := fst built;
        ui_llm_calls := snd built;
        ui_tool_calls := converted;
        total_duration_ms := latency_ms data;
        ui_total_tokens := totals;
        ui_metrics_summary := metrics_summary data;
        ui_debug_info :=
          {| debug_new_cycles := new_cycles data;
             debug_message_contents := message_contents data;
             debug_new_traces := new_traces data;
             debug_metrics_summary := metrics_summary data |} |}.

(** ** Entry points *)

(** [if not message_id: message_id = f"msg_{int(time.time() * 1000000)}"] *)
Definition message_id_or_default (now : Z) (msg_id : option string) : string :=
  match msg_id with
  | Some s => if String.eqb s "" then "msg_" +:+ pretty now else s
  | None => "msg_" +:+ pretty now
  end.

(** [per_message_data['metrics_summary'] = summary] *)
Definition with_summary (data : per_message_data) (summary : pyval) : per_message_data :=
  {| token_delta := token_delta data; new_cycles := new_cycles data;
     latency_ms := latency_ms data; message_contents := message_contents data;
     tool_calls := tool_calls data; tool_usage := tool_usage data;
     new_traces := new_traces data; metrics_summary := summary |}.

(** The main entry point.  [None] is the "no trace available" result.
    The test [hasattr(agent_response, 'metrics')] runs before the [try]:
    an exception other than [AttributeError] raised by reading the
    attribute reaches the caller. *)
Definition extract_strands_trace_data (now : Z) (response : agent_response)
    (msg_id : option string) (agent_arg : option agent) : M (option ui_record) :=
  has_metrics ← lift (has_attr (metrics response));
  if (has_metrics : bool)
  then
    try_except
      (metrics_obj ← lift (read_attr (metrics response));
       summary ← lift (get_summary metrics_obj);
       let mid := message_id_or_default now msg_id in
       data ← calculate_per_message_metrics summary agent_arg;
       let data' := with_summary data summary in
       ui ← lift (convert_to_ui_format now response data' mid agent_arg);
       mret (Some ui))
      None
  else mret None.

(** [_agent_snapshots.clear(); _session_totals.clear()] *)
Definition reset_metrics_state : M unit := fun _ =>
  (Ok tt, {| _agent_snapshots := ∅; _session_totals := ∅ |}).

(** The [direct_metrics] dictionary of the companion entry point. *)
Definition direct_metrics_of (summary : pyval) : res per_message_data :=
  current_usage ← Py.get summary "accumulated_usage" (VDict []);
  current_cycles ← Py.get summary "total_cycles" (VInt 0);
  accumulated ← Py.get summary "accumulated_metrics" (VDict []);
  current_latency ← Py.get accumulated "latencyMs" (VInt 0);
  all_traces ← Py.get summary "traces" (VList []);
  contents ← extract_contents all_traces;
  cur_in ← Py.get current_usage "inputTokens" (VInt 0);
  cur_out ← Py.get current_usage "outputTokens" (VInt 0);
  cur_total ← Py.get current_usage "totalTokens" (VInt 0);
  usage ← Py.get summary "tool_usage" (VDict []);
  Ok {| token_delta :=
          VDict [("inputTokens", cur_in); ("outputTokens", cur_out); ("totalTokens", cur_total)];
        new_cycles := current_cycles;
        latency_ms := current_latency;
        message_contents := fst contents;
        tool_calls := snd contents;
        tool_usage := usage;
        new_traces := all_traces;
        metrics_summary := summary |}.

(** The companion entry point, without delta tracking.  Its [hasattr]
    test runs before the [try] as well. *)
Definition extract_direct_metrics_from_response (now : Z) (response : agent_response)
    (msg_id : option string) : M (option ui_record) :=
  has_metrics ← lift (has_attr (metrics response));
  if (has_metrics : bool)
  then
    try_except
      (metrics_obj ← lift (read_attr (metrics response));
       summary ← lift (get_summary metrics_obj);
       let mid := message_id_or_default now msg_id in
       data ← lift (direct_metrics_of summary);
       ui ← lift (convert_to_ui_format now response data mid None);
       mret (Some ui))
      None
  else mret None.

(** ** Sequences of calls *)

(** One call of the transport layer into the engine. *)
Inductive call : Type :=
| Observe (now : Z) (response : agent_response) (msg_id : option string)
    (agent_arg : option agent)
| ObserveDirect (now : Z) (response : agent_response) (msg_id : option string).

Definition run_call (c : call) : M (option ui_record) :=
  match c with
  | Observe now response msg_id agent_arg =>
      extract_strands_trace_data now response msg_id agent_arg
  | ObserveDirect now response msg_id =>
      extract_direct_metrics_from_response now response msg_id
  end.

(** The calls of a session in order, each with what it returned, and the
    state they leave.  An exception reaching the caller is recorded as no
    record; the session goes on with the next call. *)
Fixpoint run_calls (calls : list call) (st : engine_state)
  : list (call * option ui_record) * engine_state :=
  match calls with
  | [] => ([], st)
  | c :: rest =>
      let '(r, st') := run_call c st in
      let returned := match r with Ok o => o | Raise _ => None end in
      let '(log, st'') := run_calls rest st' in
      ((c, returned) :: log, st'')
  end.

(** Successive observations of one agent (or of none) by
    [calculate_per_message_metrics], with the outcome of each. *)
Fixpoint observe_all (agent_obj : option agent) (summaries : list pyval) (st : engine_state)
  : list (res per_message_data) :=
  match summaries with
  | [] => []
  | s :: rest =>
      let '(r, st') := calculate_per_message_metrics s agent_obj st in
      r :: observe_all agent_obj rest st'
  end.

(** ** Typed view of the counters *)

(** The five cumulative counters of a summary, or the five deltas of an
    observation, as integers. *)
Record counters : Type := {
  c_input : Z;
  c_output : Z;
  c_total : Z;
  c_cycles : Z;
  c_latency : Z
}.

Definition nonneg_counters (c : counters) : Prop :=
  0 <= c_input c /\ 0 <= c_output c /\ 0 <= c_total c /\ 0 <= c_cycles c /\ 0 <= c_latency c.

(** The summary [summary] reports the cumulative counters [cur]. *)
Definition carries (summary : pyval) (cur : counters) : Prop :=
  exists d u m,
    summary = VDict d /\
    Py.lookup "accumulated_usage" d = Some (VDict u) /\
    Py.lookup "inputTokens" u = Some (VInt (c_input cur)) /\
    Py.lookup "outputTokens" u = Some (VInt (c_output cur)) /\
    Py.lookup "totalTokens" u = Some (VInt (c_total cur)) /\
    Py.lookup "total_cycles" d = Some (VInt (c_cycles cur)) /\
    Py.lookup "accumulated_metrics" d = Some (VDict m) /\
    Py.lookup "latencyMs" m = Some (VInt (c_latency cur)).

Definition snapshot_of_counters (c : counters) : snapshot :=
  {| inputTokens := VInt (c_input c); outputTokens := VInt (c_output c);
     totalTokens := VInt (c_total c); cycles := VInt (c_cycles c);
     latencyMs := VInt (c_latency c) |}.

(** The previous snapshot the observation of [agent_obj] finds in [st]:
    none without an agent object. *)
Definition previous_counters (agent_obj : option agent) (st : engine_state)
    (prev : option counters) : Prop :=
  match agent_obj with
  | None => prev = None
  | Some a => _agent_snapshots st !! agent_id a = snapshot_of_counters <$> prev
  end.

Definition int_of (v : pyval) : option Z :=
  match v with
  | VInt z => Some z
  | _ => None
  end.

(** The five delta fields of a returned [per_message_data], when they are
    all present integers. *)
Definition deltas_of_data (data : per_message_data) : option counters :=
  match token_delta data with
  | VDict u =>
      i ← Py.lookup "inputTokens" u ≫= int_of;
      o ← Py.lookup "outputTokens" u ≫= int_of;
      t ← Py.lookup "totalTokens" u ≫= int_of;
      c ← int_of (new_cycles data);
      l ← int_of (latency_ms data);
      Some {| c_input := i; c_output := o; c_total := t; c_cycles := c; c_latency := l |}
  | _ => None
  end.

(** The delta as the specification words it: the current value without a
    previous snapshot, [max(0, current - previous)] with one, the same
    formula for every field. *)
Definition spec_delta (cur : counters) (prev : option counters) : counters :=
  match prev with
  | None => cur
  | Some p =>
      {| c_input := Z.max 0 (c_input cur - c_input p);
         c_output := Z.max 0 (c_output cur - c_output p);
         c_total := Z.max 0 (c_total cur - c_total p);
         c_cycles := Z.max 0 (c_cycles cur - c_cycles p);
         c_latency := Z.max 0 (c_latency cur - c_latency p) |}
  end.

(** The five keys of [_session_totals]. *)
Definition total_keys : list string :=
  ["inputTokens"; "outputTokens"; "totalTokens"; "cycles"; "latencyMs"].

(** [_session_totals] still has its five keys. *)
Definition totals_ready (st : engine_state) : Prop :=
  Forall (fun k => is_Some (_session_totals st !! k)) total_keys.

(** The slicing of the summary's traces and the walk over the slice go
    through. *)
Definition traces_walkable (summary prev_cycles_index curr_cycles : pyval) : Prop :=
  exists all_traces sliced contents,
    Py.get summary "traces" (VList []) = Ok all_traces /\
    slice_new_traces all_traces prev_cycles_index curr_cycles = Ok sliced /\
    extract_contents sliced = Ok contents.

(** The numbers the five [+=] of the session aggregation add for the
    deltas [delta_usage], [delta_cycles] and [delta_latency]: a missing
    token key counts as 0, [True] as 1; none when one of them is not a
    number or [delta_usage] is not a dictionary. *)
Definition added_numbers (delta_usage delta_cycles delta_latency : pyval) : option counters :=
  match delta_usage with
  | VDict u =>
      i ← Py.num (default (VInt 0) (Py.lookup "inputTokens" u));
      o ← Py.num (default (VInt 0) (Py.lookup "outputTokens" u));
      t ← Py.num (default (VInt 0) (Py.lookup "totalTokens" u));
      c ← Py.num delta_cycles;
      l ← Py.num delta_latency;
      Some {| c_input := i; c_output := o; c_total := t; c_cycles := c; c_latency := l |}
  | _ => None
  end.

(** The session totals with the counters [d] added key by key. *)
Definition add_counters (d : counters) (totals : gmap string Z) : gmap string Z :=
  alter (fun t => t + c_latency d) "latencyMs"
    (alter (fun t => t + c_cycles d) "cycles"
       (alter (fun t => t + c_total d) "totalTokens"
          (alter (fun t => t + c_output d) "outputTokens"
             (alter (fun t => t + c_input d) "inputTokens" totals)))).

Definition with_totals (st : engine_state) (totals : gmap string Z) : engine_state :=
  {| _agent_snapshots := _agent_snapshots st; _session_totals := totals |}.

(** The three keys of the usage mapping. *)
Definition token_keys : list string := ["inputTokens"; "outputTokens"; "totalTokens"].

(** The usage mapping [u] has an integer under [k], or no entry at all. *)
Definition int_or_missing (u : list (string * pyval)) (k : string) : Prop :=
  Py.lookup k u = None \/ exists z, Py.lookup k u = Some (VInt z).

(** *** Session accounting *)

Definition num_or_zero (v : pyval) : Z := default 0 (Py.num v).

(** The five deltas a returned record shows: the three token counts,
    [debug_info.new_cycles] and [total_duration_ms]. *)
Definition record_counters (u : ui_record) : counters :=
  {| c_input := num_or_zero (prompt_tokens (ui_total_tokens u));
     c_output := num_or_zero (completion_tokens (ui_total_tokens u));
     c_total := num_or_zero (total_tokens (ui_total_tokens u));
     c_cycles := num_or_zero (debug_new_cycles (ui_debug_info u));
     c_latency := num_or_zero (total_duration_ms u) |}.

Definition zero_counters : counters :=
  {| c_input := 0; c_output := 0; c_total := 0; c_cycles := 0; c_latency := 0 |}.

Definition counters_add (x y : counters) : counters :=
  {| c_input := c_input x + c_input y;
     c_output := c_output x + c_output y;
     c_total := c_total x + c_total y;
     c_cycles := c_cycles x + c_cycles y;
     c_latency := c_latency x + c_latency y |}.

Definition sum_counters (l : list counters) : counters :=
  fold_right counters_add zero_counters l.

(** [_session_totals] read as five integers, when the five keys are there. *)
Definition totals_as_counters (st : engine_state) : option counters :=
  i ← _session_totals st !! "inputTokens";
  o ← _session_totals st !! "outputTokens";
  t ← _session_totals st !! "totalTokens";
  c ← _session_totals st !! "cycles";
  l ← _session_totals st !! "latencyMs";
  Some {| c_input := i; c_output := o; c_total := t; c_cycles := c; c_latency := l |}.

(** The records returned in a session, by either entry point. *)
Fixpoint all_records (log : list (call * option ui_record)) : list ui_record :=
  match log with
  | [] => []
  | (_, Some u) :: rest => u :: all_records rest
  | (_, None) :: rest => all_records rest
  end.

(** The records returned by the main entry point. *)
Fixpoint main_records (log : list (call * option ui_record)) : list ui_record :=
  match log with
  | [] => []
  | (Observe _ _ _ _, Some u) :: rest => u :: main_records rest
  | _ :: rest => main_records rest
  end.

(** Every call of the main entry point returned a record. *)
Fixpoint main_calls_returned (log : list (call * option ui_record)) : bool :=
  match log with
  | [] => true
  | (Observe _ _ _ _, None) :: _ => false
  | _ :: rest => main_calls_returned rest
  end.

(** *** The display name as a priority table *)

(** The value of attribute [a] of [o], when reading it succeeds. *)
Definition attr_value (o : py_object) (a : string) : option pyval :=
  match find_attr a (attributes o) with
  | Some (Ok v) => Some v
  | _ => None
  end.

(** An object without raising properties, whose instance dictionary holds
    [model_id] only if [model_id] is one of its attributes. *)
Definition plain_object (o : py_object) : Prop :=
  (forall a r, find_attr a (attributes o) = Some r -> exists v, r = Ok v) /\
  (forall v, dict_has_model_id o = Some v -> is_Some (attr_value o "model_id")).

(** The identifier fields in priority order: the canonical one, then the
    three fallbacks. *)
Definition identifier_fields : list string :=
  ["model_id"; "model"; "model_name"; "_model_id"].

Fixpoint first_present (o : py_object) (fields : list string) : option pyval :=
  match fields with
  | [] => None
  | f :: rest =>
      match attr_value o f with
      | Some v => Some v
      | None => first_present o rest
      end
  end.

(** The known providers: pattern looked for in the type name, name shown. *)
Definition known_providers : list (string * string) :=
  [("Bedrock", "BedrockModel"); ("Anthropic", "AnthropicModel"); ("OpenAI", "OpenAIModel")].

Fixpoint provider_of (cls : string) (table : list (string * string)) : option string :=
  match table with
  | [] => None
  | (pattern, shown) :: rest =>
      if Py.substring_of pattern cls then Some shown else provider_of cls rest
  end.

(** The display name by the table: the first identifier field present,
    else the provider matched by the type name, else the type name. *)
Definition table_model_name (o : py_object) : string :=
  match first_present o identifier_fields with
  | Some v => Py.str v
  | None => default (class_name o) (provider_of (class_name o) known_providers)
  end.

(** *** Text blocks of a tool result *)

(** The texts of the content blocks that have one, in order. *)
Fixpoint texts_of (content : list pyval) : list pyval :=
  match content with
  | [] => []
  | VDict d :: rest =>
      match Py.lookup "text" d with
      | Some t => t :: texts_of rest
      | None => texts_of rest
      end
  | _ :: rest => texts_of rest
  end.

(** The first text content-block, as the specification words the result. *)
Definition first_text (content : list pyval) : option pyval := head (texts_of content).

(** The texts inside one item of a message: those of its [toolResult]. *)
Definition item_texts (item : pyval) : list pyval :=
  match item with
  | VDict d =>
      match Py.lookup "toolResult" d with
      | Some (VDict tr) =>
          match Py.lookup "content" tr with
          | Some (VList content) => texts_of content
          | _ => []
          end
      | _ => []
      end
  | _ => []
  end.

(** All texts inside the [toolResult] items of a message, in order. *)
Fixpoint result_texts (items : list pyval) : list pyval :=
  match items with
  | [] => []
  | item :: rest => item_texts item ++ result_texts rest
  end.

(** An item of a message is well formed when its [toolResult], if it has
    one, is a dictionary whose [content], if it has one, is a list. *)
Definition wf_result_item (item : pyval) : bool :=
  match item with
  | VDict d =>
      match Py.lookup "toolResult" d with
      | Some (VDict tr) =>
          match Py.lookup "content" tr with
          | Some (VList _) | None => true
          | Some _ => false
          end
      | Some _ => false
      | None => true
      end
  | _ => true
  end.

(** The items of a sibling's message, when it has a message with a list
    as content. *)
Definition sibling_items (sibling : list (string * pyval)) : list pyval :=
  match Py.lookup "message" sibling with
  | Some (VDict message) =>
      match Py.lookup "content" message with
      | Some (VList items) => items
      | _ => []
      end
  | _ => []
  end.

(** A sibling is well formed when its message, if it has one, is a
    dictionary whose content, if it has one, is a list of well-formed
    items. *)
Definition wf_sibling (sibling : list (string * pyval)) : bool :=
  match Py.lookup "message" sibling with
  | None => true
  | Some (VDict message) =>
      match Py.lookup "content" message with
      | None => true
      | Some (VList items) => forallb wf_result_item items
      | Some _ => false
      end
  | Some _ => false
  end.

(** A computation that leaves the snapshot table as it found it, also
    when it raises. *)
Definition keeps_snapshots {A : Type} (m : M A) : Prop :=
  forall st, _agent_snapshots (snd (m st)) = _agent_snapshots st.

(** ** Sample inputs *)

Definition usage_of (i o t : Z) : pyval :=
  VDict [("inputTokens", VInt i); ("outputTokens", VInt o); ("totalTokens", VInt t)].

Definition summary_of (i o t c l : Z) (traces : list pyval) : pyval :=
  VDict [("accumulated_usage", usage_of i o t);
         ("total_cycles", VInt c);
         ("accumulated_metrics", VDict [("latencyMs", VInt l)]);
         ("traces", VList traces)].

Definition response_of (summary : pyval) : agent_response :=
  {| response_truthy := true; response_str := "done"; metrics := Some (Ok {| get_summary := Ok summary |}) |}.

Definition sample_agent : agent :=
  {| agent_id := 1; agent_class := "Agent"; agent_model := None; agent_name := None |}.


(** The state in which [sample_agent] was last seen with the counters [c]
    and nothing has been added to the session totals. *)
Definition tracked_state (c : counters) : engine_state :=
  {| _agent_snapshots := {[ agent_id sample_agent := snapshot_of_counters c ]};
     _session_totals := _session_totals initial_state |}.

(** A summary whose usage mapping has no [totalTokens]. *)
Definition partial_summary : pyval :=
  VDict [("accumulated_usage", VDict [("inputTokens", VInt 10); ("outputTokens", VInt 5)]);
         ("total_cycles", VInt 2);
         ("accumulated_metrics", VDict [("latencyMs", VInt 300)]);
         ("traces", VList [])].

(** A tracked first turn, a tracked second turn of the same agent and a
    call without agent object. *)
Definition sample_session : list call :=
  [Observe 0 (response_of (summary_of 10 5 15 2 300 [])) None (Some sample_agent);
   Observe 1 (response_of (summary_of 18 9 27 3 450 [])) None (Some sample_agent);
   Observe 2 (response_of (summary_of 5 5 10 1 100 [])) None None].

(** One call of the companion entry point. *)
Definition direct_session : list call :=
  [ObserveDirect 0 (response_of (summary_of 5 5 10 1 100 [])) None].

(** A model object of a class no provider pattern matches, without any
    identifier field, and an agent bound to it. *)
Definition custom_model : py_object :=
  {| class_name := "CustomModel"; obj_truthy := true; attributes := [];
     instance_dict := Some [] |}.

Definition custom_agent : agent :=
  {| agent_id := 2; agent_class := "Agent"; agent_model := Some custom_model;
     agent_name := None |}.

(** A model object with a fallback field only. *)
Definition named_model : py_object :=
  {| class_name := "OllamaModel"; obj_truthy := true;
     attributes := [("model_name", Ok (VStr "llama3"))];
     instance_dict := Some [("model_name", VStr "llama3")] |}.

Definition named_agent : agent :=
  {| agent_id := 3; agent_class := "Agent"; agent_model := Some named_model;
     agent_name := None |}.

(** A model object whose [model_id] property raises. *)
Definition raising_model : py_object :=
  {| class_name := "BrokenModel"; obj_truthy := true;
     attributes := [("model_id", Raise ValueError)];
     instance_dict := Some [] |}.

(** A model object whose identifier is the text shown for failures. *)
Definition literal_model : py_object :=
  {| class_name := "PlainModel"; obj_truthy := true;
     attributes := [("model_id", Ok (VStr "Unknown Model"))];
     instance_dict := Some [("model_id", VStr "Unknown Model")] |}.

(** The agent [a] bound to the model [o]. *)
Definition with_model (a : agent) (o : py_object) : agent :=
  {| agent_id := agent_id a; agent_class := agent_class a; agent_model := Some o;
     agent_name := agent_name a |}.

Definition text_block (s : string) : pyval := VDict [("text", VStr s)].

(** An assistant step whose message has the given content blocks. *)
Definition assistant_child (content : list pyval) : pyval :=
  VDict [("name", VStr "stream_messages");
         ("message", VDict [("role", VStr "assistant"); ("content", VList content)])].

Definition tool_use_block (id : string) : pyval :=
  VDict [("toolUse", VDict [("toolUseId", VStr id); ("name", VStr "calculator");
                            ("input", VDict [("expression", VStr "6*7")])])].

(** The content of a tool result with the given texts. *)
Definition result_content (texts : list string) : list pyval := map text_block texts.

(** A tool-invocation step for [id] whose message holds one [toolResult]. *)
Definition tool_child (id : string) (texts : list string) : pyval :=
  VDict [("name", VStr "Tool: calculator");
         ("metadata", VDict [("toolUseId", VStr id)]);
         ("message",
          VDict [("role", VStr "user");
                 ("content",
                  VList [VDict [("toolResult",
                                 VDict [("toolUseId", VStr id);
                                        ("content", VList (result_content texts))])]])])].

(** One cycle: an assistant step using tool [id], and the tool step. *)
Definition cycle_with_tool (id : string) (texts : list string) : pyval :=
  VDict [("id", VStr "cycle-1");
         ("children", VList [assistant_child [tool_use_block id]; tool_child id texts])].

(** ** The wrapper [get_trace_data] *)

(** [trace_data['message_text'] = message] *)
Definition with_message_text (u : ui_record) (message : string) : ui_record :=
  {| message_id := message_id u; trace_id := trace_id u;
     has_real_traces := has_real_traces u; response_text := response_text u;
     message_text := message; attributes_of_agent := attributes_of_agent u;
     ui_cycles := ui_cycles u; ui_llm_calls := ui_llm_calls u;
     ui_tool_calls := ui_tool_calls u; total_duration_ms := total_duration_ms u;
     ui_total_tokens := ui_total_tokens u; ui_metrics_summary := ui_metrics_summary u;
     ui_debug_info := ui_debug_info u |}.

(** [f"msg_{hash(message) % 100000}_{int(time.time() * 1000)}"] *)
Definition generated_message_id (message_hash now_ms : Z) : string :=
  "msg_" +:+ pretty (message_hash `mod` 100000) +:+ "_" +:+ pretty now_ms.

(** [get_trace_data]: [message_hash] stands for [hash(message)], [now_ms]
    and [now] for the readings of the clock in milliseconds and in
    microseconds.  The parameters [response_text], [model_name], [mode] and
    [real_tool_calls] of the source are never read.  The main entry point
    is called without agent; a returned dictionary is never empty, hence
    truthy. *)
Definition get_trace_data (message_hash now_ms now : Z) (response : agent_response)
    (message : string) : M (option ui_record) :=
  let mid := generated_message_id message_hash now_ms in
  trace_data ← extract_strands_trace_data now response (Some mid) None;
  match trace_data with
  | Some u => mret (Some (with_message_text u message))
  | None => mret None
  end.

(** ** Sequences of cumulative counters *)

Definition counters_le (x y : counters) : Prop :=
  c_input x <= c_input y /\ c_output x <= c_output y /\ c_total x <= c_total y /\
  c_cycles x <= c_cycles y /\ c_latency x <= c_latency y.

(** The counters [cs], observed after [p], never go down. *)
Fixpoint non_decreasing_from (p : counters) (cs : list counters) : Prop :=
  match cs with
  | [] => True
  | c :: rest => counters_le p c /\ non_decreasing_from c rest
  end.

(** The deltas of the records among the outcomes of a run. *)
Fixpoint returned_deltas (results : list (res per_message_data)) : list counters :=
  match results with
  | [] => []
  | Ok data :: rest =>
      match deltas_of_data data with
      | Some d => d :: returned_deltas rest
      | None => returned_deltas rest
      end
  | Raise _ :: rest => returned_deltas rest
  end.

(** ** Combining extraction results *)

(** Two results of the extraction, one after the other. *)
Definition app_extracted (x y : extracted) : extracted :=
  (fst x ++ fst y, snd x ++ snd y).

(** A step of the walk that only appends to what was collected before. *)
Definition appends_only {A : Type} (step : extracted -> A -> res extracted) : Prop :=
  forall acc x,
    step acc x =
    match step ([], []) x with
    | Ok r => Ok (app_extracted acc r)
    | Raise e => Raise e
    end.

(** A per-message dictionary with one new trace and its tool call. *)
Definition sample_data : per_message_data :=
  {| token_delta := usage_of 5 5 10;
     new_cycles := VInt 1;
     latency_ms := VInt 100;
     message_contents := [];
     tool_calls := [{| tc_id := VStr "t1"; tc_name := VStr "calculator";
                       tc_parameters := VDict [("expression", VStr "6*7")];
                       tc_result := VStr "42" |}];
     tool_usage := VDict [];
     new_traces := VList [cycle_with_tool "t1" ["42"]];
     metrics_summary := VNone |}.

(** The per-message dictionary [data] with another [token_delta]. *)
Definition with_token_delta (data : per_message_data) (td : pyval) : per_message_data :=
  {| token_delta := td; new_cycles := new_cycles data;
     latency_ms := latency_ms data; message_contents := message_contents data;
     tool_calls := tool_calls data; tool_usage := tool_usage data;
     new_traces := new_traces data; metrics_summary := metrics_summary data |}.

(** The sum, over the LLM calls of a record, of one of their token
    counts. *)
Fixpoint shared_tokens (field : token_counts -> pyval) (calls : list llm_call) : Z :=
  match calls with
  | [] => 0
  | call :: rest => num_or_zero (field (tokens call)) + shared_tokens field rest
  end.

(** A trace none of whose children is an assistant step. *)
Definition without_assistant_step (trace : pyval) : Prop :=
  exists children_value children,
    Py.get trace "children" (VList []) = Ok children_value /\
    Py.iter children_value = Ok children /\
    Forall (fun child => is_assistant_step child = Ok false) children.

(** ** Response text (agentcli/core/response_utils.py) *)

(** An object found in a content list: the outcome of reading its [text]
    attribute, if it has one, and its printable form. *)
Record block_object : Type := {
  block_text : option (res pyval);
  block_str : string
}.

(** An item of a content list: a JSON-like value or an object. *)
Inductive content_item : Type :=
| ItemValue (v : pyval)
| ItemObject (o : block_object).

(** The value of the [content] attribute: a list of items, or any other
    value (a [VList] of values is a list of items as well). *)
Inductive content_value : Type :=
| ContentList (items : list content_item)
| ContentOther (v : pyval).

(** The response as [extract_response_text] probes it: the outcome of
    reading [message], [content] and [text], where the response has
    them, and its printable form. *)
Record text_response : Type := {
  message_attr : option (res pyval);
  content_attr : option (res content_value);
  text_attr : option (res pyval);
  printable : string
}.

(** [isinstance(content, list)]: the items of a list, or the value that
    is not a list. *)
Definition items_of (c : content_value) : list content_item + pyval :=
  match c with
  | ContentList items => inl items
  | ContentOther (VList l) => inl (map ItemValue l)
  | ContentOther v => inr v
  end.

(** The part appended to [text_parts] for one item. *)
Definition text_part (item : content_item) : res pyval :=
  match item with
  | ItemValue v =>
      if Py.is_dict_with v "text" then Py.getitem v "text"
      else Ok (VStr (Py.str v))
  | ItemObject o =>
      has_text ← has_attr (block_text o);
      if (has_text : bool) then read_attr (block_text o)
      else Ok (VStr (block_str o))
  end.

Fixpoint text_parts (items : list content_item) : res (list pyval) :=
  match items with
  | [] => Ok []
  | item :: rest =>
      part ← text_part item;
      parts ← text_parts rest;
      Ok (part :: parts)
  end.

(** The strings of a list of values, when all of them are strings. *)
Fixpoint all_strings (parts : list pyval) : option (list string) :=
  match parts with
  | [] => Some []
  | VStr s :: rest =>
      match all_strings rest with
      | Some strings => Some (s :: strings)
      | None => None
      end
  | _ :: _ => None
  end.

(** [' '.join(text_parts)]: every part has to be a string. *)
Definition join_parts (parts : list pyval) : res string :=
  match all_strings parts with
  | Some strings => Ok (Py.join " " strings)
  | None => Raise TypeError
  end.

Definition extract_response_text (response : text_response) : res string :=
  has_message ← has_attr (message_attr response);
  if (has_message : bool)
  then message ← read_attr (message_attr response); Ok (Py.str message)
  else
    has_content ← has_attr (content_attr response);
    if (has_content : bool)
    then content ← read_attr (content_attr response);
         match items_of content with
         | inl items => parts ← text_parts items; join_parts parts
         | inr v => Ok (Py.str v)
         end
    else
      has_text ← has_attr (text_attr response);
      if (has_text : bool)
      then text ← read_attr (text_attr response); Ok (Py.str text)
      else Ok (printable response).

(** What a JSON-like item of a content list contributes: the [text] of a
    dictionary that has one, the printable form of anything else. *)
Definition shown_part (v : pyval) : pyval :=
  match v with
  | VDict d =>
      match Py.lookup "text" d with
      | Some t => t
      | None => VStr (Py.str v)
      end
  | _ => VStr (Py.str v)
  end.

(** The response has no [message] and its [content] is a list of
    JSON-like items. *)
Definition has_content_list (response : text_response) (items : list pyval) : Prop :=
  message_attr response = None /\
  content_attr response = Some (Ok (ContentOther (VList items))).

(** Every [text] entry of a dictionary item is a string. *)
Definition string_texts (items : list pyval) : Prop :=
  Forall (fun v => forall d t, v = VDict d -> Py.lookup "text" d = Some t ->
                               exists s, t = VStr s) items.

(** A response with a content list and a [text] attribute besides. *)
Definition content_response (items : list pyval) : text_response :=
  {| message_attr := None; content_attr := Some (Ok (ContentOther (VList items)));
     text_attr := Some (Ok (VStr "ignored")); printable := "response" |}.

(** ** Chat endpoint (agentcli/core/container_server.py) *)

(** The object returned by [agent(message)], as the endpoint uses it: the
    attributes read by [extract_response_text], its truth value, and the
    outcomes of reading [metrics] and [_is_temporary_agent] where it has
    them. *)
Record chat_response : Type := {
  text_view : text_response;
  result_truthy : bool;
  metrics_attr : option (res metrics_object);
  temporary_attr : option (res pyval)
}.

(** The same object as the extraction entry points see it. *)
Definition as_result (r : chat_response) : agent_response :=
  {| response_truthy := result_truthy r;
     response_str := printable (text_view r);
     metrics := metrics_attr r |}.

(** What is raised inside the handler: an [HTTPException] of the handler
    itself, or any other exception.  Both are instances of [Exception]. *)
Inductive handler_exn : Type :=
| Http (status_code : Z)
| Other (e : exn).

(** What the framework gets from the handler: the JSON body, or an
    [HTTPException] with its status code (the detail text is left out). *)
Inductive http_result : Type :=
| Reply (response : pyval) (trace : option ui_record)
| HTTPException (status_code : Z).

(** [hasattr(response, '_is_temporary_agent') and response._is_temporary_agent] *)
Definition is_temporary (r : chat_response) : res bool :=
  has_flag ← has_attr (temporary_attr r);
  if (has_flag : bool)
  then flag ← read_attr (temporary_attr r); Ok (Py.truthy flag)
  else Ok false.

(** [response.message if hasattr(response, 'message') else str(response)] *)
Definition reply_value (r : chat_response) : res pyval :=
  has_message ← has_attr (message_attr (text_view r));
  if (has_message : bool)
  then read_attr (message_attr (text_view r))
  else Ok (VStr (printable (text_view r))).

(** The statements of the handler after the agent call. *)
Definition chat_reply (now : Z) (a : agent) (r : chat_response)
    : M (pyval * option ui_record) :=
  _ ← lift (extract_response_text (text_view r));
  temporary ← lift (is_temporary r);
  trace_data ← (if (temporary : bool)
                then extract_direct_metrics_from_response now (as_result r) None
                else extract_strands_trace_data now (as_result r) None (Some a));
  value ← lift (reply_value r);
  mret (value, trace_data).

(** The body of the handler's [try].  [called] is the outcome of
    [agent(message)]; the clean-up of [agent.messages] before it touches
    the agent only and swallows its own exceptions. *)
Definition chat_body (now : Z) (a : agent) (called : res chat_response) (message : string)
    (st : engine_state) : (handler_exn + pyval * option ui_record) * engine_state :=
  if String.eqb message EmptyString then (inl (Http 400), st)
  else
    match (r ← lift called; chat_reply now a r) st with
    | (Ok reply, st') => (inr reply, st')
    | (Raise e, st') => (inl (Other e), st')
    end.

(** [chat_endpoint]: the body, with
    [except Exception as e: raise HTTPException(status_code=500, ...)]. *)
Definition chat_endpoint (now : Z) (a : agent) (called : res chat_response) (message : string)
    (st : engine_state) : http_result * engine_state :=
  match chat_body now a called message st with
  | (inr (value, trace_data), st') => (Reply value trace_data, st')
  | (inl _, st') => (HTTPException 500, st')
  end.

(** The entry point the handler chooses. *)
Definition chosen_entry_point (now : Z) (a : agent) (r : chat_response) (temporary : bool)
    : M (option ui_record) :=
  if temporary
  then extract_direct_metrics_from_response now (as_result r) None
  else extract_strands_trace_data now (as_result r) None (Some a).

(** A turn result with a content list, metrics and no other attribute. *)
Definition block_response (items : list pyval) (summary : pyval) : chat_response :=
  {| text_view := {| message_attr := None;
                     content_attr := Some (Ok (ContentOther (VList items)));
                     text_attr := None; printable := "result" |};
     result_truthy := true;
     metrics_attr := Some (Ok {| get_summary := Ok summary |});
     temporary_attr := None |}.

(** The same, marked as coming from a temporary agent. *)
Definition temporary_response (items : list pyval) (summary : pyval) : chat_response :=
  {| text_view := text_view (block_response items summary);
     result_truthy := true;
     metrics_attr := Some (Ok {| get_summary := Ok summary |});
     temporary_attr := Some (Ok (VBool true)) |}.

(** A turn result with readable text whose [metrics] property raises. *)
Definition broken_chat_response : chat_response :=
  {| text_view := text_view (block_response [VDict [("text", VStr "Hello")]] VNone);
     result_truthy := true;
     metrics_attr := Some (Raise RuntimeError);
     temporary_attr := None |}.

(** ** Agent info endpoint (agentcli/core/container_server.py) *)

(** The [name] and [model] entries of the [/info] answer for a loaded
    agent; the constant description and the system prompt are left out. *)
Record agent_info_view : Type := {
  info_name : pyval;
  info_model : string
}.

Definition agent_info (a : agent) : res agent_info_view :=
  let shown_name :=
    match agent_name a with
    | Some n => n
    | None => VStr (agent_class a)
    end in
  model_info ←
    match agent_model a with
    | Some model_obj =>
        if obj_truthy model_obj
        then catching probe_handled (probe_model model_obj) "Unknown Model"
        else Ok "unknown"
    | None => Ok "unknown"
    end;
  Ok {| info_name := shown_name; info_model := model_info |}.

(** The agent has a truthy [model]. *)
Definition has_model (a : agent) : Prop :=
  exists model_obj, agent_model a = Some model_obj /\ obj_truthy model_obj = true.

(** The agent's [name], if it has one, is truthy. *)
Definition name_not_falsy (a : agent) : Prop :=
  match agent_name a with
  | Some n => Py.truthy n = true
  | None => True
  end.

(** An agent with an empty name and no model. *)
Definition nameless_agent : agent :=
  {| agent_id := 4; agent_class := "Agent"; agent_model := None;
     agent_name := Some (VStr EmptyString) |}.

(** * Properties *)

(** ** Monad bookkeeping *)

Ltac unfold_M :=
  unfold try_except, lift, get_snapshot, put_snapshot, has_attr, read_attr, get_summary,
    mbind, M_bind, res_bind, mret, M_ret, res_ret in *.


(** ** C4: the entry points never raise *)

(** Once the test for [metrics] is passed, the main entry point is the
    [try] statement. *)
Lemma extract_strands_probed now response msg_id agent_arg metrics_obj :
  metrics response = Some (Ok metrics_obj) ->
  extract_strands_trace_data now response msg_id agent_arg =
  try_except
    (summary ← lift (get_summary metrics_obj);
     data ← calculate_per_message_metrics summary agent_arg;
     ui ← lift (convert_to_ui_format now response (with_summary data summary)
                  (message_id_or_default now msg_id) agent_arg);
     mret (Some ui))
    None.
Proof.
  intros Hm. unfold extract_strands_trace_data. rewrite Hm. reflexivity.
Qed.

Lemma extract_direct_probed now response msg_id metrics_obj :
  metrics response = Some (Ok metrics_obj) ->
  extract_direct_metrics_from_response now response msg_id =
  try_except
    (summary ← lift (get_summary metrics_obj);
     data ← lift (direct_metrics_of summary);
     ui ← lift (convert_to_ui_format now response data
                  (message_id_or_default now msg_id) None);
     mret (Some ui))
    None.
Proof.
  intros Hm. unfold extract_direct_metrics_from_response. rewrite Hm. reflexivity.
Qed.

(** Without a [metrics] attribute both entry points return the null
    result and leave the state. *)
Lemma extract_strands_no_metrics now response msg_id agent_arg st :
  has_attr (metrics response) = Ok false ->
  extract_strands_trace_data now response msg_id agent_arg st = (Ok None, st).
Proof.
  intros Hp. unfold extract_strands_trace_data.
  unfold mbind at 1, M_bind at 1, lift at 1. rewrite Hp. reflexivity.
Qed.

Lemma extract_direct_no_metrics now response msg_id st :
  has_attr (metrics response) = Ok false ->
  extract_direct_metrics_from_response now response msg_id st = (Ok None, st).
Proof.
  intros Hp. unfold extract_direct_metrics_from_response.
  unfold mbind at 1, M_bind at 1, lift at 1. rewrite Hp. reflexivity.
Qed.

(** An exception raised by the test for [metrics] reaches the caller,
    with the state untouched. *)
Lemma extract_strands_probe_raises now response msg_id agent_arg st e :
  has_attr (metrics response) = Raise e ->
  extract_strands_trace_data now response msg_id agent_arg st = (Raise e, st).
Proof.
  intros Hp. unfold extract_strands_trace_data.
  unfold mbind at 1, M_bind at 1, lift at 1. rewrite Hp. reflexivity.
Qed.

Lemma extract_direct_probe_raises now response msg_id st e :
  has_attr (metrics response) = Raise e ->
  extract_direct_metrics_from_response now response msg_id st = (Raise e, st).
Proof.
  intros Hp. unfold extract_direct_metrics_from_response.
  unfold mbind at 1, M_bind at 1, lift at 1. rewrite Hp. reflexivity.
Qed.

(** The cases of the test for [metrics]. *)
Lemma has_attr_cases {A : Type} (reading : option (res A)) :
  (exists v, reading = Some (Ok v) /\ has_attr reading = Ok true) \/
  has_attr reading = Ok false \/
  (exists e, has_attr reading = Raise e).
Proof.
  destruct reading as [[v | e] |]; simpl; eauto.
  destruct e; eauto.
Qed.






(** ** C9: the companion entry point is read-only *)

Lemma direct_keeps_state now response msg_id st :
  snd (extract_direct_metrics_from_response now response msg_id st) = st.
Proof.
  destruct (has_attr_cases (metrics response)) as [(m & Hm & _) | [Hf | (e & He)]].
  - rewrite (extract_direct_probed _ _ _ _ Hm). unfold_M.
    destruct m as [[summary | e]]; [| reflexivity].
    destruct (direct_metrics_of summary) as [data | e]; [| reflexivity].
    destruct (convert_to_ui_format _ _ _ _ _); reflexivity.
  - rewrite (extract_direct_no_metrics _ _ _ _ Hf). reflexivity.
  - rewrite (extract_direct_probe_raises _ _ _ _ _ He). reflexivity.
Qed.

(** C9. The companion entry point (direct metrics, no delta tracking)
    returns the engine state it was given, whatever the input; the main
    entry point does change the state on some input. *)
Theorem direct_metrics_leaves_state_unchanged :
  (forall now response msg_id st,
      snd (extract_direct_metrics_from_response now response msg_id st) = st) /\
  (exists now response msg_id agent_arg st,
      snd (extract_strands_trace_data now response msg_id agent_arg st) <> st).
Proof.
  split.
  - intros now response msg_id st. apply direct_keeps_state.
  - exists 0, (response_of (summary_of 10 5 15 2 300 [])), None, (Some sample_agent),
      initial_state.
    intros Heq.
    apply (f_equal (fun s => _session_totals s !! "inputTokens")) in Heq.
    vm_compute in Heq. discriminate.
Qed.

(** ** C2: reset *)

Lemma track_agent_keeps_totals agent_obj u c l st :
  _session_totals (snd (track_agent agent_obj u c l st)) = _session_totals st.
Proof.
  unfold track_agent. destruct agent_obj as [a |]; [| reflexivity].
  unfold_M.
  destruct (compute_deltas u c l (_agent_snapshots st !! agent_id a)); [| reflexivity].
  destruct (snapshot_of u c l); reflexivity.
Qed.

Lemma accumulate_needs_totals du dc dl st :
  _session_totals st !! "inputTokens" = None ->
  fst (accumulate_session du dc dl st) = Raise (KeyError "inputTokens").
Proof.
  intros Hnone. unfold accumulate_session, add_to_total. unfold_M.
  rewrite Hnone. reflexivity.
Qed.

(** After the totals were cleared no observation gets past the session
    aggregation. *)
Lemma calculate_without_totals summary agent_obj st :
  _session_totals st !! "inputTokens" = None ->
  exists e, fst (calculate_per_message_metrics summary agent_obj st) = Raise e.
Proof.
  intros Hnone. unfold calculate_per_message_metrics.
  unfold mbind at 1, M_bind at 1, lift at 1.
  destruct (Py.get summary "accumulated_usage" (VDict [])) as [u | e]; [| eauto].
  unfold mbind at 1, M_bind at 1, lift at 1.
  destruct (Py.get summary "total_cycles" (VInt 0)) as [c | e]; [| eauto].
  unfold mbind at 1, M_bind at 1, lift at 1.
  destruct (Py.get summary "accumulated_metrics" (VDict [])) as [m | e]; [| eauto].
  unfold mbind at 1, M_bind at 1, lift at 1.
  destruct (Py.get m "latencyMs" (VInt 0)) as [l | e]; [| eauto].
  unfold mbind at 1, M_bind at 1.
  pose proof (track_agent_keeps_totals agent_obj u c l st) as Hkeep.
  destruct (track_agent agent_obj u c l st) as [[[[[du dc] dl] prev] | e] st1];
    [| eauto].
  simpl in Hkeep.
  unfold mbind at 1, M_bind at 1.
  assert (Hst1 : _session_totals st1 !! "inputTokens" = None) by (rewrite Hkeep; exact Hnone).
  pose proof (accumulate_needs_totals du dc dl st1 Hst1) as Hacc.
  destruct (accumulate_session du dc dl st1) as [[[] | e] st2]; simpl in Hacc.
  - discriminate.
  - eauto.
Qed.

(** C2. A second reset changes nothing after a first one.  After a reset,
    however, every observation through the main entry point returns the
    null result (once the test for [metrics] is passed; an exception of
    that test reaches the caller as it always does), because
    [_session_totals] has lost its keys; the same observation on the
    freshly loaded module returns a record whose deltas are the current
    cumulative values. *)
Theorem reset_then_observe_returns_none :
  (forall st, snd (reset_metrics_state (snd (reset_metrics_state st)))
              = snd (reset_metrics_state st)) /\
  (forall now response msg_id agent_arg st,
      fst (extract_strands_trace_data now response msg_id agent_arg
             (snd (reset_metrics_state st))) =
      match has_attr (metrics response) with
      | Ok _ => Ok None
      | Raise e => Raise e
      end) /\
  (exists u,
      fst (extract_strands_trace_data 0 (response_of (summary_of 10 5 15 2 300 []))
             None (Some sample_agent) initial_state) = Ok (Some u) /\
      ui_total_tokens u =
        {| prompt_tokens := VInt 10; completion_tokens := VInt 5; total_tokens := VInt 15 |} /\
      debug_new_cycles (ui_debug_info u) = VInt 2 /\
      total_duration_ms u = VInt 300).
Proof.
  split; [reflexivity |]. split.
  - intros now response msg_id agent_arg st.
    destruct (has_attr_cases (metrics response)) as [(m & Hm & Hp) | [Hf | (e & He)]].
    2: { rewrite (extract_strands_no_metrics _ _ _ _ _ Hf), Hf. reflexivity. }
    2: { rewrite (extract_strands_probe_raises _ _ _ _ _ _ He), He. reflexivity. }
    rewrite (extract_strands_probed _ _ _ _ _ Hm), Hp.
    unfold try_except.
    unfold mbind at 1, M_bind at 1, lift at 1.
    destruct m as [[summary | e]]; [| reflexivity]. cbn [get_summary].
    unfold mbind at 1, M_bind at 1.
    destruct (calculate_without_totals summary agent_arg (snd (reset_metrics_state st)))
      as [e He]; [reflexivity |].
    destruct (calculate_per_message_metrics summary agent_arg (snd (reset_metrics_state st)))
      as [[data | e'] st1]; simpl in He; [discriminate | reflexivity].
  - eexists. split; [vm_compute; reflexivity |]. split; [reflexivity |].
    split; reflexivity.
Qed.

(** ** C7: the trace slicer *)

Lemma clamp_index_nat (n i : nat) :
  Py.clamp_index (Z.of_nat n) (Z.of_nat i) = Z.of_nat (Nat.min i n).
Proof.
  unfold Py.clamp_index.
  destruct (Z.ltb_spec (Z.of_nat i) 0); lia.
Qed.

(** For bounds that are counts, the Python slice is the plain
    sub-sequence from position [p] up to position [c]. *)
Lemma slice_list_nat {A : Type} (l : list A) (p c : nat) :
  Py.slice_list l (Z.of_nat p) (Some (Z.of_nat c)) = take (c - p) (drop p l).
Proof.
  unfold Py.slice_list. rewrite !clamp_index_nat.
  replace (Z.to_nat (Z.of_nat (c `min` length l) - Z.of_nat (p `min` length l)))
    with (Nat.min c (length l) - Nat.min p (length l))%nat by lia.
  rewrite Nat2Z.id.
  destruct (Nat.le_gt_cases (length l) p) as [Hge | Hlt].
  - rewrite (Nat.min_r p) by lia.
    rewrite (drop_ge l (length l)) by lia. rewrite (drop_ge l p) by lia.
    rewrite !take_nil. reflexivity.
  - rewrite (Nat.min_l p) by lia.
    destruct (Nat.le_gt_cases c (length l)) as [Hc | Hc].
    + rewrite (Nat.min_l c) by lia. reflexivity.
    + rewrite (Nat.min_r c) by lia.
      rewrite !take_ge; [reflexivity | |]; rewrite length_drop; lia.
Qed.

Lemma slice_new_traces_list (all_traces : list pyval) (prev_index curr_index : Z) :
  slice_new_traces (VList all_traces) (VInt prev_index) (VInt curr_index) =
  Ok (VList (if prev_index <? Z.of_nat (length all_traces)
             then Py.slice_list all_traces prev_index (Some curr_index)
             else [])).
Proof.
  unfold slice_new_traces. simpl.
  destruct (prev_index <? Z.of_nat (length all_traces)); reflexivity.
Qed.

(** C7. For every trace list and every pair of cycle indexes the slicer
    returns without raising: the Python slice [traces[prev:curr]] when
    [prev] is below the length of the list, the empty list otherwise.
    For indexes that are counts the slice is the sub-sequence of the
    positions [prev <= i < curr] that exist, also when the list is shorter
    than [curr]. *)
Theorem trace_slice_safe (all_traces : list pyval) :
  (forall prev_index curr_index : Z,
      slice_new_traces (VList all_traces) (VInt prev_index) (VInt curr_index) =
      Ok (VList (if prev_index <? Z.of_nat (length all_traces)
                 then Py.slice_list all_traces prev_index (Some curr_index)
                 else []))) /\
  (forall prev_index curr_index : nat,
      slice_new_traces (VList all_traces) (VInt (Z.of_nat prev_index))
        (VInt (Z.of_nat curr_index)) =
      Ok (VList (if (prev_index <? length all_traces)%nat
                 then take (curr_index - prev_index) (drop prev_index all_traces)
                 else []))).
Proof.
  split.
  - apply slice_new_traces_list.
  - intros p c. rewrite slice_new_traces_list, slice_list_nat.
    destruct (Nat.ltb_spec p (length all_traces)) as [Hlt | Hge];
      destruct (Z.ltb_spec (Z.of_nat p) (Z.of_nat (length all_traces))); try lia;
      reflexivity.
Qed.

(** ** The session aggregation *)

Lemma insert_as_alter (k : string) (f : Z -> Z) (t : Z) (m : gmap string Z) :
  m !! k = Some t -> <[k := f t]> m = alter f k m.
Proof.
  intros Hk. apply map_eq. intros j.
  destruct (decide (k = j)) as [<- | Hne].
  - rewrite lookup_insert_eq, lookup_alter_eq, Hk. reflexivity.
  - rewrite lookup_insert_ne, lookup_alter_ne by done. reflexivity.
Qed.

Lemma add_to_total_ok k v x t st :
  _session_totals st !! k = Some t -> Py.num v = Some x ->
  add_to_total k (Ok v) st =
  (Ok tt, with_totals st (alter (fun t => t + x) k (_session_totals st))).
Proof.
  intros Hk Hv. unfold add_to_total, with_totals. rewrite Hk, Hv.
  rewrite (insert_as_alter k (fun t => t + x) t) by exact Hk. reflexivity.
Qed.

Lemma add_to_total_inv k rhs st r st' :
  add_to_total k rhs st = (Ok r, st') ->
  exists v x t,
    rhs = Ok v /\ Py.num v = Some x /\ _session_totals st !! k = Some t /\
    st' = with_totals st (alter (fun t => t + x) k (_session_totals st)).
Proof.
  unfold add_to_total. intros H.
  destruct (_session_totals st !! k) as [t |] eqn:Hk; [| discriminate].
  destruct rhs as [v | e]; [| discriminate].
  destruct (Py.num v) as [x |] eqn:Hv; [| discriminate].
  inversion H; subst. exists v, x, t. repeat split; try assumption.
  unfold with_totals. rewrite (insert_as_alter k (fun t => t + x) t) by exact Hk.
  reflexivity.
Qed.

Lemma get_dict (d : list (string * pyval)) (k : string) (dflt : pyval) :
  Py.get (VDict d) k dflt = Ok (default dflt (Py.lookup k d)).
Proof. simpl. destruct (Py.lookup k d); reflexivity. Qed.

Lemma get_ok_inv (v : pyval) (k : string) (dflt x : pyval) :
  Py.get v k dflt = Ok x ->
  exists d, v = VDict d /\ x = default dflt (Py.lookup k d).
Proof.
  destruct v; simpl; try discriminate.
  intros H. inversion H. eexists. split; [reflexivity |].
  destruct (Py.lookup k d); reflexivity.
Qed.

Lemma totals_ready_lookup st k :
  totals_ready st -> In k total_keys -> exists t, _session_totals st !! k = Some t.
Proof.
  unfold totals_ready. rewrite Forall_forall. intros H Hin.
  destruct (H k) as [t Ht]; [apply list_elem_of_In; exact Hin | eauto].
Qed.

Ltac key_in := unfold total_keys; simpl; tauto.

(** With its five keys in place, the aggregation adds the numbers of the
    deltas and leaves the snapshot table alone. *)
Lemma accumulate_session_ok du dc dl d st :
  totals_ready st -> added_numbers du dc dl = Some d ->
  accumulate_session du dc dl st =
  (Ok tt, with_totals st (add_counters d (_session_totals st))).
Proof.
  intros Hready Hnum.
  destruct du as [| | | | | u]; try discriminate.
  unfold added_numbers in Hnum.
  destruct (Py.num (default (VInt 0) (Py.lookup "inputTokens" u))) as [xi |] eqn:Hi;
    [| discriminate].
  destruct (Py.num (default (VInt 0) (Py.lookup "outputTokens" u))) as [xo |] eqn:Ho;
    [| discriminate].
  destruct (Py.num (default (VInt 0) (Py.lookup "totalTokens" u))) as [xt |] eqn:Ht;
    [| discriminate].
  destruct (Py.num dc) as [xc |] eqn:Hc; [| discriminate].
  destruct (Py.num dl) as [xl |] eqn:Hl; [| discriminate].
  simpl in Hnum. inversion Hnum; subst d; clear Hnum.
  destruct (totals_ready_lookup st "inputTokens" Hready) as [ti Hti]; [key_in |].
  destruct (totals_ready_lookup st "outputTokens" Hready) as [to Hto]; [key_in |].
  destruct (totals_ready_lookup st "totalTokens" Hready) as [tt' Htt]; [key_in |].
  destruct (totals_ready_lookup st "cycles" Hready) as [tc Htc]; [key_in |].
  destruct (totals_ready_lookup st "latencyMs" Hready) as [tl Htl]; [key_in |].
  unfold accumulate_session, add_counters. rewrite !get_dict.
  unfold mbind at 1, M_bind at 1.
  rewrite (add_to_total_ok _ _ xi ti) by assumption.
  unfold mbind at 1, M_bind at 1.
  rewrite (add_to_total_ok _ _ xo to)
    by (try assumption; simpl; rewrite lookup_alter_ne by done; assumption).
  unfold mbind at 1, M_bind at 1.
  rewrite (add_to_total_ok _ _ xt tt')
    by (try assumption; simpl; rewrite !lookup_alter_ne by done; assumption).
  unfold mbind at 1, M_bind at 1.
  rewrite (add_to_total_ok _ _ xc tc)
    by (try assumption; simpl; rewrite !lookup_alter_ne by done; assumption).
  rewrite (add_to_total_ok _ _ xl tl)
    by (try assumption; simpl; rewrite !lookup_alter_ne by done; assumption).
  reflexivity.
Qed.

(** Conversely, an aggregation that went through found the five keys and
    five numbers, and added exactly those. *)
Lemma accumulate_session_inv du dc dl st r st' :
  accumulate_session du dc dl st = (Ok r, st') ->
  exists d,
    added_numbers du dc dl = Some d /\ totals_ready st /\
    st' = with_totals st (add_counters d (_session_totals st)).
Proof.
  unfold accumulate_session. intros H.
  unfold mbind at 1, M_bind at 1 in H.
  destruct (add_to_total "inputTokens" _ st) as [[[] | e] s1] eqn:E1; [| discriminate].
  apply add_to_total_inv in E1 as (vi & xi & ti & Gi & Ni & Ti & ->).
  unfold mbind at 1, M_bind at 1 in H.
  destruct (add_to_total "outputTokens" _ _) as [[[] | e] s2] eqn:E2; [| discriminate].
  apply add_to_total_inv in E2 as (vo & xo & to & Go & No & To & ->).
  unfold mbind at 1, M_bind at 1 in H.
  destruct (add_to_total "totalTokens" _ _) as [[[] | e] s3] eqn:E3; [| discriminate].
  apply add_to_total_inv in E3 as (vt & xt & tt' & Gt & Nt & Tt & ->).
  unfold mbind at 1, M_bind at 1 in H.
  destruct (add_to_total "cycles" _ _) as [[[] | e] s4] eqn:E4; [| discriminate].
  apply add_to_total_inv in E4 as (vc & xc & tc & Gc & Nc & Tc & ->).
  apply add_to_total_inv in H as (vl & xl & tl & Gl & Nl & Tl & ->).
  simpl in To, Tt, Tc, Tl.
  rewrite !lookup_alter_ne in To by done.
  rewrite !lookup_alter_ne in Tt by done.
  rewrite !lookup_alter_ne in Tc by done.
  rewrite !lookup_alter_ne in Tl by done.
  inversion Gc; subst vc. inversion Gl; subst vl.
  apply get_ok_inv in Gi as (u & -> & ->).
  rewrite get_dict in Go, Gt. inversion Go; subst vo. inversion Gt; subst vt.
  exists {| c_input := xi; c_output := xo; c_total := xt; c_cycles := xc; c_latency := xl |}.
  split; [| split].
  - unfold added_numbers. rewrite Ni, No, Nt, Nc, Nl. reflexivity.
  - unfold totals_ready, total_keys. repeat constructor; eauto.
  - reflexivity.
Qed.

(** ** Stepping through [calculate_per_message_metrics] *)

Lemma track_agent_none cu cc cl st :
  track_agent None cu cc cl st = (Ok (cu, cc, cl, None), st).
Proof. reflexivity. Qed.

Lemma track_agent_some a cu cc cl st deltas snap :
  compute_deltas cu cc cl (_agent_snapshots st !! agent_id a) = Ok deltas ->
  snapshot_of cu cc cl = Ok snap ->
  track_agent (Some a) cu cc cl st =
  (Ok (deltas, _agent_snapshots st !! agent_id a),
   {| _agent_snapshots := <[agent_id a := snap]> (_agent_snapshots st);
      _session_totals := _session_totals st |}).
Proof.
  intros Hd Hs. unfold track_agent. unfold_M. rewrite Hd, Hs. reflexivity.
Qed.

Lemma track_agent_inv agent_obj cu cc cl st du dc dl prev st1 :
  track_agent agent_obj cu cc cl st = (Ok (du, dc, dl, prev), st1) ->
  _session_totals st1 = _session_totals st /\
  match agent_obj with
  | None => prev = None /\ (du, dc, dl) = (cu, cc, cl) /\ st1 = st
  | Some a =>
      prev = _agent_snapshots st !! agent_id a /\
      compute_deltas cu cc cl prev = Ok (du, dc, dl) /\
      exists snap, snapshot_of cu cc cl = Ok snap /\
                   _agent_snapshots st1 = <[agent_id a := snap]> (_agent_snapshots st)
  end.
Proof.
  intros H. split.
  - pose proof (track_agent_keeps_totals agent_obj cu cc cl st) as Hk.
    rewrite H in Hk. exact Hk.
  - destruct agent_obj as [a |].
    + unfold track_agent in H. unfold_M.
      destruct (compute_deltas cu cc cl (_agent_snapshots st !! agent_id a))
        as [deltas |] eqn:Hd; [| discriminate].
      destruct (snapshot_of cu cc cl) as [snap |] eqn:Hs; [| discriminate].
      inversion H; subst. repeat split; eauto.
    + rewrite track_agent_none in H. inversion H; subst. repeat split.
Qed.

(** Running the function forward, given the outcome of each of its steps. *)
Lemma calculate_steps summary agent_obj st cu cc am cl du dc dl prev st1 d tr nt ex tu :
  Py.get summary "accumulated_usage" (VDict []) = Ok cu ->
  Py.get summary "total_cycles" (VInt 0) = Ok cc ->
  Py.get summary "accumulated_metrics" (VDict []) = Ok am ->
  Py.get am "latencyMs" (VInt 0) = Ok cl ->
  track_agent agent_obj cu cc cl st = (Ok (du, dc, dl, prev), st1) ->
  totals_ready st1 ->
  added_numbers du dc dl = Some d ->
  Py.get summary "traces" (VList []) = Ok tr ->
  slice_new_traces tr (match prev with Some p => cycles p | None => VInt 0 end) cc = Ok nt ->
  extract_contents nt = Ok ex ->
  Py.get summary "tool_usage" (VDict []) = Ok tu ->
  calculate_per_message_metrics summary agent_obj st =
  (Ok {| token_delta := du; new_cycles := dc; latency_ms := dl;
         message_contents := fst ex; tool_calls := snd ex; tool_usage := tu;
         new_traces := nt; metrics_summary := summary |},
   with_totals st1 (add_counters d (_session_totals st1))).
Proof.
  intros Hu Hc Ham Hl Htrack Hready Hnum Htr Hslice Hex Htu.
  unfold calculate_per_message_metrics.
  unfold mbind at 1, M_bind at 1, lift at 1. rewrite Hu.
  unfold mbind at 1, M_bind at 1, lift at 1. rewrite Hc.
  unfold mbind at 1, M_bind at 1, lift at 1. rewrite Ham.
  unfold mbind at 1, M_bind at 1, lift at 1. rewrite Hl.
  unfold mbind at 1, M_bind at 1. rewrite Htrack.
  unfold mbind at 1, M_bind at 1.
  rewrite (accumulate_session_ok du dc dl d st1 Hready Hnum).
  unfold mbind at 1, M_bind at 1, lift at 1. rewrite Htr.
  unfold mbind at 1, M_bind at 1, lift at 1. rewrite Hslice.
  unfold mbind at 1, M_bind at 1, lift at 1. rewrite Hex.
  unfold mbind at 1, M_bind at 1, lift at 1. rewrite Htu.
  reflexivity.
Qed.

(** Reading a successful run backwards. *)
Lemma calculate_inv summary agent_obj st data st' :
  calculate_per_message_metrics summary agent_obj st = (Ok data, st') ->
  exists cu cc am cl prev st1 d,
    Py.get summary "accumulated_usage" (VDict []) = Ok cu /\
    Py.get summary "total_cycles" (VInt 0) = Ok cc /\
    Py.get summary "accumulated_metrics" (VDict []) = Ok am /\
    Py.get am "latencyMs" (VInt 0) = Ok cl /\
    track_agent agent_obj cu cc cl st =
      (Ok (token_delta data, new_cycles data, latency_ms data, prev), st1) /\
    totals_ready st1 /\
    added_numbers (token_delta data) (new_cycles data) (latency_ms data) = Some d /\
    st' = with_totals st1 (add_counters d (_session_totals st1)) /\
    metrics_summary data = summary.
Proof.
  unfold calculate_per_message_metrics. intros H.
  unfold mbind at 1, M_bind at 1, lift at 1 in H.
  destruct (Py.get summary "accumulated_usage" (VDict [])) as [cu | e] eqn:Hu;
    [| discriminate].
  unfold mbind at 1, M_bind at 1, lift at 1 in H.
  destruct (Py.get summary "total_cycles" (VInt 0)) as [cc | e] eqn:Hc; [| discriminate].
  unfold mbind at 1, M_bind at 1, lift at 1 in H.
  destruct (Py.get summary "accumulated_metrics" (VDict [])) as [am | e] eqn:Ham;
    [| discriminate].
  unfold mbind at 1, M_bind at 1, lift at 1 in H.
  destruct (Py.get am "latencyMs" (VInt 0)) as [cl | e] eqn:Hl; [| discriminate].
  unfold mbind at 1, M_bind at 1 in H.
  destruct (track_agent agent_obj cu cc cl st) as [[[[[du dc] dl] prev] | e] st1] eqn:Ht;
    [| discriminate].
  unfold mbind at 1, M_bind at 1 in H.
  destruct (accumulate_session du dc dl st1) as [[[] | e] st2] eqn:Hacc; [| discriminate].
  apply accumulate_session_inv in Hacc as (d & Hnum & Hready & ->).
  unfold mbind at 1, M_bind at 1, lift at 1 in H.
  destruct (Py.get summary "traces" (VList [])) as [tr | e]; [| discriminate].
  unfold mbind at 1, M_bind at 1, lift at 1 in H.
  destruct (slice_new_traces tr _ cc) as [nt | e]; [| discriminate].
  unfold mbind at 1, M_bind at 1, lift at 1 in H.
  destruct (extract_contents nt) as [ex | e]; [| discriminate].
  unfold mbind at 1, M_bind at 1, lift at 1 in H.
  destruct (Py.get summary "tool_usage" (VDict [])) as [tu | e]; [| discriminate].
  inversion H; subst; simpl.
  exists cu, cc, am, cl, prev, st1, d. repeat split; assumption.
Qed.

(** The traces of a returned record are the slice of the summary's traces
    from the cycle count of the previous snapshot (0 without one) to the
    current cycle count, and the contents are those of that slice. *)
Lemma calculate_new_traces summary agent_obj st data st' :
  calculate_per_message_metrics summary agent_obj st = (Ok data, st') ->
  exists cc tr,
    Py.get summary "total_cycles" (VInt 0) = Ok cc /\
    Py.get summary "traces" (VList []) = Ok tr /\
    slice_new_traces tr
      (match agent_obj with
       | Some a =>
           match _agent_snapshots st !! agent_id a with
           | Some prev => cycles prev
           | None => VInt 0
           end
       | None => VInt 0
       end) cc = Ok (new_traces data) /\
    extract_contents (new_traces data) = Ok (message_contents data, tool_calls data).
Proof.
  unfold calculate_per_message_metrics. intros H.
  unfold mbind at 1, M_bind at 1, lift at 1 in H.
  destruct (Py.get summary "accumulated_usage" (VDict [])) as [cu | e]; [| discriminate].
  unfold mbind at 1, M_bind at 1, lift at 1 in H.
  destruct (Py.get summary "total_cycles" (VInt 0)) as [cc | e]; [| discriminate].
  unfold mbind at 1, M_bind at 1, lift at 1 in H.
  destruct (Py.get summary "accumulated_metrics" (VDict [])) as [am | e]; [| discriminate].
  unfold mbind at 1, M_bind at 1, lift at 1 in H.
  destruct (Py.get am "latencyMs" (VInt 0)) as [cl | e]; [| discriminate].
  unfold mbind at 1, M_bind at 1 in H.
  destruct (track_agent agent_obj cu cc cl st) as [[[[[du dc] dl] prev] | e] st1] eqn:Ht;
    [| discriminate].
  unfold mbind at 1, M_bind at 1 in H.
  destruct (accumulate_session du dc dl st1) as [[[] | e] st2]; [| discriminate].
  unfold mbind at 1, M_bind at 1, lift at 1 in H.
  destruct (Py.get summary "traces" (VList [])) as [tr | e]; [| discriminate].
  unfold mbind at 1, M_bind at 1, lift at 1 in H.
  destruct (slice_new_traces tr _ cc) as [nt | e] eqn:Hslice; [| discriminate].
  unfold mbind at 1, M_bind at 1, lift at 1 in H.
  destruct (extract_contents nt) as [ex | e] eqn:Hex; [| discriminate].
  unfold mbind at 1, M_bind at 1, lift at 1 in H.
  destruct (Py.get summary "tool_usage" (VDict [])) as [tu | e]; [| discriminate].
  inversion H; subst; simpl.
  exists cc, tr. split; [reflexivity |]. split; [reflexivity |].
  apply track_agent_inv in Ht as [_ Hcase].
  split.
  - destruct agent_obj as [a |].
    + destruct Hcase as (-> & _). exact Hslice.
    + destruct Hcase as (-> & _). exact Hslice.
  - rewrite Hex. destruct ex. reflexivity.
Qed.

(** ** C1: the delta formula *)

Lemma carries_gets summary cur :
  carries summary cur ->
  exists d u m,
    summary = VDict d /\
    Py.get summary "accumulated_usage" (VDict []) = Ok (VDict u) /\
    Py.get summary "total_cycles" (VInt 0) = Ok (VInt (c_cycles cur)) /\
    Py.get summary "accumulated_metrics" (VDict []) = Ok (VDict m) /\
    Py.get (VDict m) "latencyMs" (VInt 0) = Ok (VInt (c_latency cur)) /\
    Py.lookup "inputTokens" u = Some (VInt (c_input cur)) /\
    Py.lookup "outputTokens" u = Some (VInt (c_output cur)) /\
    Py.lookup "totalTokens" u = Some (VInt (c_total cur)).
Proof.
  intros (d & u & m & -> & Hu & Hi & Ho & Ht & Hc & Hm & Hl).
  exists d, u, m. rewrite !get_dict, Hu, Hc, Hm, Hl. simpl. repeat split; assumption.
Qed.

Lemma clamp_as_max (z : Z) :
  (if 0 <? z then VInt z else VInt 0) = VInt (Z.max 0 z).
Proof. destruct (Z.ltb_spec 0 z); f_equal; lia. Qed.

Lemma compute_deltas_typed u cur prev :
  Py.lookup "inputTokens" u = Some (VInt (c_input cur)) ->
  Py.lookup "outputTokens" u = Some (VInt (c_output cur)) ->
  Py.lookup "totalTokens" u = Some (VInt (c_total cur)) ->
  compute_deltas (VDict u) (VInt (c_cycles cur)) (VInt (c_latency cur))
    (snapshot_of_counters <$> prev) =
  Ok (match prev with
      | None => VDict u
      | Some _ =>
          VDict [("inputTokens", VInt (c_input (spec_delta cur prev)));
                 ("outputTokens", VInt (c_output (spec_delta cur prev)));
                 ("totalTokens", VInt (c_total (spec_delta cur prev)))]
      end,
      VInt (c_cycles (spec_delta cur prev)),
      VInt (c_latency (spec_delta cur prev))).
Proof.
  intros Hi Ho Ht. destruct prev as [p |]; [| reflexivity].
  unfold compute_deltas. simpl fmap. rewrite !get_dict, Hi, Ho, Ht. simpl.
  rewrite !clamp_as_max. reflexivity.
Qed.

Lemma snapshot_of_typed u cur :
  Py.lookup "inputTokens" u = Some (VInt (c_input cur)) ->
  Py.lookup "outputTokens" u = Some (VInt (c_output cur)) ->
  Py.lookup "totalTokens" u = Some (VInt (c_total cur)) ->
  snapshot_of (VDict u) (VInt (c_cycles cur)) (VInt (c_latency cur)) =
  Ok (snapshot_of_counters cur).
Proof.
  intros Hi Ho Ht. unfold snapshot_of. rewrite !get_dict, Hi, Ho, Ht. reflexivity.
Qed.

Lemma counters_eta (c : counters) :
  {| c_input := c_input c; c_output := c_output c; c_total := c_total c;
     c_cycles := c_cycles c; c_latency := c_latency c |} = c.
Proof. destruct c; reflexivity. Qed.

(** C1. When the summary reports the cumulative counters [cur], the
    session totals are in place and the walk over the new traces goes
    through, [calculate_per_message_metrics] returns a record whose five
    delta fields are the current values if there is no previous snapshot
    (no agent object, or an agent not seen before) and
    [max(0, current - previous)], field by field, if the agent's snapshot
    holds [prev]. *)
Theorem per_message_delta_formula
    (summary : pyval) (agent_obj : option agent) (st : engine_state)
    (cur : counters) (prev : option counters) :
  carries summary cur ->
  previous_counters agent_obj st prev ->
  totals_ready st ->
  traces_walkable summary
    (VInt (match prev with Some p => c_cycles p | None => 0 end))
    (VInt (c_cycles cur)) ->
  exists data st',
    calculate_per_message_metrics summary agent_obj st = (Ok data, st') /\
    deltas_of_data data = Some (spec_delta cur prev).
Proof.
  intros Hcar Hprev Hready (tr & nt & ex & Htr & Hslice & Hex).
  destruct (carries_gets summary cur Hcar)
    as (d & u & m & -> & Hu & Hc & Hm & Hl & Hi & Ho & Ht).
  assert (Htu : Py.get (VDict d) "tool_usage" (VDict []) =
                Ok (default (VDict []) (Py.lookup "tool_usage" d))) by apply get_dict.
  destruct agent_obj as [a |]; simpl in Hprev.
  - pose proof (compute_deltas_typed u cur prev Hi Ho Ht) as Hd.
    rewrite <- Hprev in Hd.
    pose proof (track_agent_some a _ _ _ st _ _ Hd (snapshot_of_typed u cur Hi Ho Ht))
      as Htrack.
    rewrite Hprev in Htrack.
    assert (Hnum : added_numbers
                     (match prev with
                      | None => VDict u
                      | Some _ =>
                          VDict [("inputTokens", VInt (c_input (spec_delta cur prev)));
                                 ("outputTokens", VInt (c_output (spec_delta cur prev)));
                                 ("totalTokens", VInt (c_total (spec_delta cur prev)))]
                      end)
                     (VInt (c_cycles (spec_delta cur prev)))
                     (VInt (c_latency (spec_delta cur prev))) = Some (spec_delta cur prev)).
    { destruct prev as [p |]; simpl.
      - reflexivity.
      - rewrite Hi, Ho, Ht. simpl. rewrite counters_eta. reflexivity. }
    assert (Hslice' : slice_new_traces tr
                        (match snapshot_of_counters <$> prev with
                         | Some p => cycles p
                         | None => VInt 0
                         end) (VInt (c_cycles cur)) = Ok nt).
    { destruct prev as [p |]; exact Hslice. }
    pose proof (calculate_steps _ _ _ _ _ _ _ _ _ _ _ _ _ _ _ _ _
                  Hu Hc Hm Hl Htrack Hready Hnum Htr Hslice' Hex Htu) as Hcalc.
    eexists. eexists. split; [exact Hcalc |].
    unfold deltas_of_data. simpl.
    destruct prev as [p |]; simpl.
    + reflexivity.
    + rewrite Hi, Ho, Ht. simpl. rewrite counters_eta. reflexivity.
  - subst prev.
    assert (Hnum : added_numbers (VDict u) (VInt (c_cycles cur)) (VInt (c_latency cur))
                   = Some cur).
    { unfold added_numbers. rewrite Hi, Ho, Ht. simpl. rewrite counters_eta. reflexivity. }
    pose proof (calculate_steps _ None st _ _ _ _ _ _ _ _ _ _ _ _ _ _
                  Hu Hc Hm Hl (track_agent_none _ _ _ st) Hready Hnum Htr Hslice Hex Htu)
      as Hcalc.
    eexists. eexists. split; [exact Hcalc |].
    unfold deltas_of_data. simpl. rewrite Hi, Ho, Ht. simpl. rewrite counters_eta.
    reflexivity.
Qed.

Lemma initial_totals_ready : totals_ready initial_state.
Proof. unfold totals_ready, total_keys. repeat constructor; eexists; reflexivity. Qed.

(** The second observation of the specification's example: cumulative
    (18, 9, 27, 3, 450) after (10, 5, 15, 2, 300) gives (8, 4, 12, 1, 150). *)
Lemma per_message_delta_formula_witness :
  exists data st',
    calculate_per_message_metrics (summary_of 18 9 27 3 450 []) (Some sample_agent)
      (tracked_state {| c_input := 10; c_output := 5; c_total := 15;
                        c_cycles := 2; c_latency := 300 |}) = (Ok data, st') /\
    deltas_of_data data =
      Some {| c_input := 8; c_output := 4; c_total := 12; c_cycles := 1; c_latency := 150 |}.
Proof.
  apply (per_message_delta_formula (summary_of 18 9 27 3 450 []) (Some sample_agent)
           (tracked_state {| c_input := 10; c_output := 5; c_total := 15;
                             c_cycles := 2; c_latency := 300 |})
           {| c_input := 18; c_output := 9; c_total := 27; c_cycles := 3; c_latency := 450 |}
           (Some {| c_input := 10; c_output := 5; c_total := 15;
                    c_cycles := 2; c_latency := 300 |})).
  - unfold carries, summary_of, usage_of. repeat eexists.
  - reflexivity.
  - exact initial_totals_ready.
  - unfold traces_walkable. repeat eexists.
Defined.

(** First observation of the specification's example: the deltas are
    the cumulative values. *)
Example first_observation_passes_through :
  exists data st',
    calculate_per_message_metrics (summary_of 10 5 15 2 300 []) (Some sample_agent)
      initial_state = (Ok data, st') /\
    deltas_of_data data =
      Some {| c_input := 10; c_output := 5; c_total := 15; c_cycles := 2; c_latency := 300 |}.
Proof. eexists. eexists. split; [vm_compute; reflexivity | reflexivity]. Qed.

(** A call without agent object passes the cumulative values through,
    whatever is tracked for other agents. *)
Example no_identity_passes_through :
  exists data st',
    calculate_per_message_metrics (summary_of 5 5 10 1 100 []) None
      (tracked_state {| c_input := 10; c_output := 5; c_total := 15;
                        c_cycles := 2; c_latency := 300 |}) = (Ok data, st') /\
    deltas_of_data data =
      Some {| c_input := 5; c_output := 5; c_total := 10; c_cycles := 1; c_latency := 100 |}.
Proof. eexists. eexists. split; [vm_compute; reflexivity | reflexivity]. Qed.

(** ** C5: deltas are never negative *)

Lemma clamped_delta_nonneg a b v :
  clamped_delta a b = Ok v -> exists z, v = VInt z /\ 0 <= z.
Proof.
  unfold clamped_delta, Py.sub, Py.max_with.
  destruct (Py.num a) as [x |]; [| discriminate].
  destruct (Py.num b) as [y |]; [| discriminate].
  simpl. rewrite clamp_as_max. intros H. inversion H.
  eexists. split; [reflexivity | lia].
Qed.

Lemma compute_deltas_clamped u cur p du dc dl :
  Py.lookup "inputTokens" u = Some (VInt (c_input cur)) ->
  Py.lookup "outputTokens" u = Some (VInt (c_output cur)) ->
  Py.lookup "totalTokens" u = Some (VInt (c_total cur)) ->
  compute_deltas (VDict u) (VInt (c_cycles cur)) (VInt (c_latency cur)) (Some p) =
    Ok (du, dc, dl) ->
  exists d,
    deltas_of_data {| token_delta := du; new_cycles := dc; latency_ms := dl;
                      message_contents := []; tool_calls := []; tool_usage := VNone;
                      new_traces := VNone; metrics_summary := VNone |} = Some d /\
    nonneg_counters d.
Proof.
  intros Hi Ho Ht Hd.
  unfold compute_deltas in Hd. rewrite !get_dict, Hi, Ho, Ht in Hd.
  unfold mbind, res_bind in Hd. simpl default in Hd.
  destruct (clamped_delta (VInt (c_input cur)) (inputTokens p)) as [vi |] eqn:Ei;
    [| discriminate].
  destruct (clamped_delta (VInt (c_output cur)) (outputTokens p)) as [vo |] eqn:Eo;
    [| discriminate].
  destruct (clamped_delta (VInt (c_total cur)) (totalTokens p)) as [vt |] eqn:Et;
    [| discriminate].
  destruct (clamped_delta (VInt (c_cycles cur)) (cycles p)) as [vc |] eqn:Ec;
    [| discriminate].
  destruct (clamped_delta (VInt (c_latency cur)) (latencyMs p)) as [vl |] eqn:El;
    [| discriminate].
  apply clamped_delta_nonneg in Ei as (zi & -> & ?).
  apply clamped_delta_nonneg in Eo as (zo & -> & ?).
  apply clamped_delta_nonneg in Et as (zt & -> & ?).
  apply clamped_delta_nonneg in Ec as (zc & -> & ?).
  apply clamped_delta_nonneg in El as (zl & -> & ?).
  inversion Hd; subst.
  eexists. split; [reflexivity |]. unfold nonneg_counters. simpl. tauto.
Qed.

Lemma compute_deltas_nonneg u cur prev du dc dl :
  Py.lookup "inputTokens" u = Some (VInt (c_input cur)) ->
  Py.lookup "outputTokens" u = Some (VInt (c_output cur)) ->
  Py.lookup "totalTokens" u = Some (VInt (c_total cur)) ->
  nonneg_counters cur ->
  compute_deltas (VDict u) (VInt (c_cycles cur)) (VInt (c_latency cur)) prev =
    Ok (du, dc, dl) ->
  exists d,
    deltas_of_data {| token_delta := du; new_cycles := dc; latency_ms := dl;
                      message_contents := []; tool_calls := []; tool_usage := VNone;
                      new_traces := VNone; metrics_summary := VNone |} = Some d /\
    nonneg_counters d.
Proof.
  intros Hi Ho Ht Hnn Hd. destruct prev as [p |].
  - eapply compute_deltas_clamped; eassumption.
  - inversion Hd; subst. exists cur. split; [| exact Hnn].
    unfold deltas_of_data. simpl. rewrite Hi, Ho, Ht. simpl. apply f_equal, counters_eta.
Qed.

Lemma deltas_of_data_fields data data' :
  token_delta data = token_delta data' ->
  new_cycles data = new_cycles data' ->
  latency_ms data = latency_ms data' ->
  deltas_of_data data = deltas_of_data data'.
Proof. unfold deltas_of_data. intros -> -> ->. reflexivity. Qed.

(** One observation: whatever the snapshot table holds, a record that is
    returned for non-negative cumulative counters has non-negative deltas. *)
Lemma calculate_deltas_nonneg summary agent_obj st cur data st' :
  carries summary cur -> nonneg_counters cur ->
  calculate_per_message_metrics summary agent_obj st = (Ok data, st') ->
  exists d, deltas_of_data data = Some d /\ nonneg_counters d.
Proof.
  intros Hcar Hnn Hcalc.
  destruct (carries_gets summary cur Hcar)
    as (d0 & u & m & -> & Hu & Hc & Hm & Hl & Hi & Ho & Ht).
  apply calculate_inv in Hcalc
    as (cu & cc & am & cl & prev & st1 & d & Hu' & Hc' & Hm' & Hl' & Htrack & _).
  rewrite Hu in Hu'. inversion Hu'; subst cu.
  rewrite Hc in Hc'. inversion Hc'; subst cc.
  rewrite Hm in Hm'. inversion Hm'; subst am.
  rewrite Hl in Hl'. inversion Hl'; subst cl.
  apply track_agent_inv in Htrack as [_ Hcase].
  assert (Hcomp : exists prev',
             compute_deltas (VDict u) (VInt (c_cycles cur)) (VInt (c_latency cur)) prev' =
             Ok (token_delta data, new_cycles data, latency_ms data)).
  { destruct agent_obj as [a |].
    - destruct Hcase as (_ & Hd & _). eauto.
    - destruct Hcase as (_ & Heq & _). exists None. simpl. f_equal. symmetry. exact Heq. }
  destruct Hcomp as [prev' Hcomp].
  destruct (compute_deltas_nonneg u cur prev' _ _ _ Hi Ho Ht Hnn Hcomp) as (d' & Hd' & Hn').
  exists d'. split; [| exact Hn'].
  rewrite <- Hd'. apply deltas_of_data_fields; reflexivity.
Qed.

(** The same for every sequence, with or without agent object. *)
Lemma counts_give_nonneg_deltas
    (agent_obj : option agent) (summaries : list pyval) (st : engine_state) :
  Forall (fun s => exists cur, carries s cur /\ nonneg_counters cur) summaries ->
  Forall (fun r => forall data, r = Ok data ->
                   exists d, deltas_of_data data = Some d /\ nonneg_counters d)
         (observe_all agent_obj summaries st).
Proof.
  intros Hall. revert st.
  induction Hall as [| s rest (cur & Hcar & Hnn) _ IH]; intros st; simpl.
  - constructor.
  - destruct (calculate_per_message_metrics s agent_obj st) as [r st1] eqn:Hcalc.
    constructor; [| apply IH].
    intros data ->. eapply calculate_deltas_nonneg; eassumption.
Qed.

(** Against a previous snapshot the deltas are clamped: no assumption on
    the sign of the counters is needed. *)
Lemma calculate_tracked_nonneg summary a st cur p data st' :
  carries summary cur ->
  _agent_snapshots st !! agent_id a = Some p ->
  calculate_per_message_metrics summary (Some a) st = (Ok data, st') ->
  exists d, deltas_of_data data = Some d /\ nonneg_counters d.
Proof.
  intros Hcar Hprev Hcalc.
  destruct (carries_gets summary cur Hcar)
    as (d0 & u & m & -> & Hu & Hc & Hm & Hl & Hi & Ho & Ht).
  apply calculate_inv in Hcalc
    as (cu & cc & am & cl & prev & st1 & d & Hu' & Hc' & Hm' & Hl' & Htrack & _).
  rewrite Hu in Hu'. inversion Hu'; subst cu.
  rewrite Hc in Hc'. inversion Hc'; subst cc.
  rewrite Hm in Hm'. inversion Hm'; subst am.
  rewrite Hl in Hl'. inversion Hl'; subst cl.
  apply track_agent_inv in Htrack as [_ (-> & Hd & _)].
  rewrite Hprev in Hd.
  destruct (compute_deltas_clamped u cur p _ _ _ Hi Ho Ht Hd) as (d' & Hd' & Hn').
  exists d'. split; [| exact Hn'].
  rewrite <- Hd'. apply deltas_of_data_fields; reflexivity.
Qed.

Lemma keeps_bind {A B : Type} (m : M A) (f : A -> M B) :
  keeps_snapshots m -> (forall x, keeps_snapshots (f x)) -> keeps_snapshots (m ≫= f).
Proof.
  intros Hm Hf st. unfold mbind, M_bind.
  specialize (Hm st). destruct (m st) as [[x | e] st1]; simpl in Hm.
  - rewrite (Hf x st1). exact Hm.
  - exact Hm.
Qed.

Lemma keeps_lift {A : Type} (r : res A) : keeps_snapshots (lift r).
Proof. intros st. reflexivity. Qed.

Lemma keeps_ret {A : Type} (x : A) : keeps_snapshots (mret x).
Proof. intros st. reflexivity. Qed.

Lemma keeps_add_to_total k rhs : keeps_snapshots (add_to_total k rhs).
Proof.
  intros st. unfold add_to_total.
  destruct (_session_totals st !! k); [| reflexivity].
  destruct rhs as [v | e]; [| reflexivity].
  destruct (Py.num v); reflexivity.
Qed.

Lemma keeps_accumulate du dc dl : keeps_snapshots (accumulate_session du dc dl).
Proof.
  unfold accumulate_session.
  repeat (apply keeps_bind; [apply keeps_add_to_total | intros _]).
  apply keeps_add_to_total.
Qed.

(** What [calculate_per_message_metrics] leaves in the snapshot table is
    what its tracking step left there. *)
Lemma calculate_keeps_tracking summary agent_obj st cu cc am cl :
  Py.get summary "accumulated_usage" (VDict []) = Ok cu ->
  Py.get summary "total_cycles" (VInt 0) = Ok cc ->
  Py.get summary "accumulated_metrics" (VDict []) = Ok am ->
  Py.get am "latencyMs" (VInt 0) = Ok cl ->
  _agent_snapshots (snd (calculate_per_message_metrics summary agent_obj st)) =
  _agent_snapshots (snd (track_agent agent_obj cu cc cl st)).
Proof.
  intros Hu Hc Ham Hl. unfold calculate_per_message_metrics.
  unfold mbind at 1, M_bind at 1, lift at 1. rewrite Hu.
  unfold mbind at 1, M_bind at 1, lift at 1. rewrite Hc.
  unfold mbind at 1, M_bind at 1, lift at 1. rewrite Ham.
  unfold mbind at 1, M_bind at 1, lift at 1. rewrite Hl.
  unfold mbind at 1, M_bind at 1.
  destruct (track_agent agent_obj cu cc cl st) as [[[[[du dc] dl] prev] | e] st1];
    [| reflexivity].
  simpl snd at 2.
  match goal with |- _agent_snapshots (snd (?m st1)) = _ =>
    assert (Hk : keeps_snapshots m) end.
  { apply keeps_bind; [apply keeps_accumulate | intros _].
    repeat (apply keeps_bind; [apply keeps_lift | intros ?]).
    apply keeps_ret. }
  apply Hk.
Qed.

(** Once observed with well-formed counters, an agent has a snapshot,
    whatever happens in the rest of the observation. *)
Lemma tracked_after_observation summary a st cur :
  carries summary cur ->
  is_Some (_agent_snapshots (snd (calculate_per_message_metrics summary (Some a) st))
           !! agent_id a).
Proof.
  intros Hcar.
  destruct (carries_gets summary cur Hcar)
    as (d0 & u & m & -> & Hu & Hc & Hm & Hl & Hi & Ho & Ht).
  rewrite (calculate_keeps_tracking _ _ _ _ _ _ _ Hu Hc Hm Hl).
  unfold track_agent. unfold_M.
  destruct (compute_deltas (VDict u) (VInt (c_cycles cur)) (VInt (c_latency cur))
              (_agent_snapshots st !! agent_id a)) as [deltas | e] eqn:Hd.
  - rewrite (snapshot_of_typed u cur Hi Ho Ht). simpl.
    rewrite lookup_insert_eq. eauto.
  - simpl. destruct (_agent_snapshots st !! agent_id a) as [p |]; [eauto | discriminate].
Qed.

Lemma tracked_agent_nonneg_deltas (a : agent) (summaries : list pyval) (st : engine_state) :
  Forall (fun s => exists cur, carries s cur) summaries ->
  is_Some (_agent_snapshots st !! agent_id a) ->
  Forall (fun r => forall data, r = Ok data ->
                   exists d, deltas_of_data data = Some d /\ nonneg_counters d)
         (observe_all (Some a) summaries st).
Proof.
  intros Hall. revert st.
  induction Hall as [| s rest [cur Hcar] _ IH]; intros st [p Hp]; simpl.
  - constructor.
  - pose proof (tracked_after_observation s a st cur Hcar) as Hafter.
    destruct (calculate_per_message_metrics s (Some a) st) as [r st1] eqn:Hcalc.
    constructor; [| apply IH; exact Hafter].
    intros data ->. eapply calculate_tracked_nonneg; eassumption.
Qed.

(** C5. For every sequence of observations of one agent, starting in any
    engine state, with integer cumulative counters that may go up or down
    from one observation to the next, the five delta fields of every
    record that [calculate_per_message_metrics] returns are integers
    greater than or equal to 0.  The one assumption on signs is on the
    observation that finds no snapshot: it returns the cumulative values
    themselves, so these are taken non-negative, as counts are. *)
Theorem deltas_never_negative
    (a : agent) (summaries : list pyval) (st : engine_state) :
  Forall (fun s => exists cur, carries s cur) summaries ->
  (_agent_snapshots st !! agent_id a = None ->
   match summaries with
   | s :: _ => exists cur, carries s cur /\ nonneg_counters cur
   | [] => True
   end) ->
  Forall (fun r => forall data, r = Ok data ->
                   exists d, deltas_of_data data = Some d /\ nonneg_counters d)
         (observe_all (Some a) summaries st).
Proof.
  intros Hall Hfirst.
  destruct (_agent_snapshots st !! agent_id a) as [p |] eqn:Hp.
  - apply tracked_agent_nonneg_deltas; [exact Hall | rewrite Hp; eauto].
  - destruct summaries as [| s rest]; [constructor |].
    destruct (Hfirst eq_refl) as (cur & Hcar & Hnn).
    inversion Hall as [| ? ? _ Hrest]; subst.
    simpl.
    pose proof (tracked_after_observation s a st cur Hcar) as Hafter.
    destruct (calculate_per_message_metrics s (Some a) st) as [r st1] eqn:Hcalc.
    constructor.
    + intros data ->. eapply calculate_deltas_nonneg; eassumption.
    + apply tracked_agent_nonneg_deltas; assumption.
Qed.

(** Counters that drop from (10, 5, 15, 2, 300) to (4, 2, 6, 1, 100),
    and then below zero. *)
Lemma deltas_never_negative_witness :
  Forall (fun r => forall data, r = Ok data ->
                   exists d, deltas_of_data data = Some d /\ nonneg_counters d)
         (observe_all (Some sample_agent)
            [summary_of 10 5 15 2 300 []; summary_of 4 2 6 1 100 [];
             summary_of (-3) 0 (-3) 0 0 []] initial_state).
Proof.
  apply (deltas_never_negative sample_agent
           [summary_of 10 5 15 2 300 []; summary_of 4 2 6 1 100 [];
            summary_of (-3) 0 (-3) 0 0 []] initial_state).
  - repeat constructor.
    + exists {| c_input := 10; c_output := 5; c_total := 15; c_cycles := 2;
                c_latency := 300 |}.
      unfold carries, summary_of, usage_of. repeat eexists.
    + exists {| c_input := 4; c_output := 2; c_total := 6; c_cycles := 1;
                c_latency := 100 |}.
      unfold carries, summary_of, usage_of. repeat eexists.
    + exists {| c_input := -3; c_output := 0; c_total := -3; c_cycles := 0;
                c_latency := 0 |}.
      unfold carries, summary_of, usage_of. repeat eexists.
  - intros _.
    exists {| c_input := 10; c_output := 5; c_total := 15; c_cycles := 2; c_latency := 300 |}.
    split; [unfold carries, summary_of, usage_of; repeat eexists |].
    unfold nonneg_counters; simpl; lia.
Defined.

(** The three observations of the witness do return records: the deltas
    are the first counters, then zero twice. *)
Example decreasing_counters_are_clamped :
  map (fun r => match r with Ok data => deltas_of_data data | Raise _ => None end)
      (observe_all (Some sample_agent)
         [summary_of 10 5 15 2 300 []; summary_of 4 2 6 1 100 [];
          summary_of (-3) 0 (-3) 0 0 []] initial_state) =
  [Some {| c_input := 10; c_output := 5; c_total := 15; c_cycles := 2; c_latency := 300 |};
   Some zero_counters; Some zero_counters].
Proof. vm_compute. reflexivity. Qed.

(** ** Stepping through the entry point and the view builder *)

Lemma extract_state now response msg_id agent_arg st summary :
  metrics response = Some (Ok {| get_summary := Ok summary |}) ->
  snd (extract_strands_trace_data now response msg_id agent_arg st) =
  snd (calculate_per_message_metrics summary agent_arg st).
Proof.
  intros Hm. unfold extract_strands_trace_data. rewrite Hm. unfold_M.
  destruct (calculate_per_message_metrics summary agent_arg st) as [[data | e] st1];
    [| reflexivity].
  destruct (convert_to_ui_format _ _ _ _ _); reflexivity.
Qed.

Lemma extract_result now response msg_id agent_arg st summary :
  metrics response = Some (Ok {| get_summary := Ok summary |}) ->
  fst (extract_strands_trace_data now response msg_id agent_arg st) =
  Ok (match fst (calculate_per_message_metrics summary agent_arg st) with
      | Ok data =>
          match convert_to_ui_format now response (with_summary data summary)
                  (message_id_or_default now msg_id) agent_arg with
          | Ok ui => Some ui
          | Raise _ => None
          end
      | Raise _ => None
      end).
Proof.
  intros Hm. unfold extract_strands_trace_data. rewrite Hm. unfold_M.
  destruct (calculate_per_message_metrics summary agent_arg st) as [[data | e] st1];
    [| reflexivity].
  simpl. destruct (convert_to_ui_format _ _ _ _ _); reflexivity.
Qed.

(** A record comes out of the view builder only if [token_delta] can be
    subscripted with each of the three token keys; the record then shows
    those three values, the latency delta and the cycle delta. *)
Lemma convert_inv now response data mid agent_arg ui :
  convert_to_ui_format now response data mid agent_arg = Ok ui ->
  exists counts,
    token_counts_of data = Ok counts /\
    ui_total_tokens ui = counts /\
    total_duration_ms ui = latency_ms data /\
    debug_new_cycles (ui_debug_info ui) = new_cycles data.
Proof.
  unfold convert_to_ui_format. intros H.
  destruct (derive_model_name agent_arg) as [name | e]; [| discriminate].
  unfold mbind at 1, res_bind at 1 in H.
  destruct (Py.iter (new_traces data)) as [traces | e]; [| discriminate].
  unfold mbind at 1, res_bind at 1 in H.
  destruct (build_cycles _ _ _ _ _) as [built | e]; [| discriminate].
  unfold mbind at 1, res_bind at 1 in H.
  destruct (Py.getitem (token_delta data) "totalTokens") as [t | e]; [| discriminate].
  unfold mbind at 1, res_bind at 1 in H.
  destruct (token_counts_of data) as [counts | e] eqn:Hcounts; [| discriminate].
  simpl in H. inversion H; subst; simpl. exists counts. repeat split.
Qed.

Lemma token_counts_inv data counts :
  token_counts_of data = Ok counts ->
  exists u,
    token_delta data = VDict u /\
    Py.lookup "inputTokens" u = Some (prompt_tokens counts) /\
    Py.lookup "outputTokens" u = Some (completion_tokens counts) /\
    Py.lookup "totalTokens" u = Some (total_tokens counts).
Proof.
  unfold token_counts_of.
  destruct (token_delta data) as [| | | | | u] eqn:Htd; try discriminate.
  simpl.
  destruct (Py.lookup "inputTokens" u) as [p |] eqn:Hp; [| discriminate].
  destruct (Py.lookup "outputTokens" u) as [c |] eqn:Hc; [| discriminate].
  destruct (Py.lookup "totalTokens" u) as [t |] eqn:Ht; [| discriminate].
  simpl. intros H. inversion H; subst. exists u. simpl. repeat split; assumption.
Qed.

(** ** C10: a usage mapping with a missing key *)

Lemma calculate_state summary agent_obj st cu cc am cl du dc dl prev st1 d :
  Py.get summary "accumulated_usage" (VDict []) = Ok cu ->
  Py.get summary "total_cycles" (VInt 0) = Ok cc ->
  Py.get summary "accumulated_metrics" (VDict []) = Ok am ->
  Py.get am "latencyMs" (VInt 0) = Ok cl ->
  track_agent agent_obj cu cc cl st = (Ok (du, dc, dl, prev), st1) ->
  totals_ready st1 ->
  added_numbers du dc dl = Some d ->
  snd (calculate_per_message_metrics summary agent_obj st) =
  with_totals st1 (add_counters d (_session_totals st1)).
Proof.
  intros Hu Hc Ham Hl Htrack Hready Hnum.
  unfold calculate_per_message_metrics.
  unfold mbind at 1, M_bind at 1, lift at 1. rewrite Hu.
  unfold mbind at 1, M_bind at 1, lift at 1. rewrite Hc.
  unfold mbind at 1, M_bind at 1, lift at 1. rewrite Ham.
  unfold mbind at 1, M_bind at 1, lift at 1. rewrite Hl.
  unfold mbind at 1, M_bind at 1. rewrite Htrack.
  unfold mbind at 1, M_bind at 1.
  rewrite (accumulate_session_ok du dc dl d st1 Hready Hnum).
  unfold mbind at 1, M_bind at 1, lift at 1.
  destruct (Py.get summary "traces" (VList [])) as [tr | e]; [| reflexivity].
  unfold mbind at 1, M_bind at 1, lift at 1.
  destruct (slice_new_traces tr _ cc) as [nt | e]; [| reflexivity].
  unfold mbind at 1, M_bind at 1, lift at 1.
  destruct (extract_contents nt) as [ex | e]; [| reflexivity].
  unfold mbind at 1, M_bind at 1, lift at 1.
  destruct (Py.get summary "tool_usage" (VDict [])) as [tu | e]; reflexivity.
Qed.

Lemma alter_keeps_key (f : Z -> Z) (j k : string) (m : gmap string Z) :
  is_Some (m !! k) -> is_Some (alter f j m !! k).
Proof.
  intros [t Ht]. destruct (decide (j = k)) as [-> | Hne].
  - rewrite lookup_alter_eq, Ht. eexists. reflexivity.
  - rewrite lookup_alter_ne by done. eauto.
Qed.

Lemma add_counters_ready d st st' :
  totals_ready st -> totals_ready (with_totals st' (add_counters d (_session_totals st))).
Proof.
  unfold totals_ready. intros H. eapply Forall_impl; [exact H |].
  intros k Hk. simpl. unfold add_counters. repeat apply alter_keeps_key. exact Hk.
Qed.

(** A first observation (no agent object, or an agent without snapshot)
    of a usage mapping that lacks a token key: no record. *)
Lemma first_observation_missing_key now response msg_id agent_arg st summary u k :
  metrics response = Some (Ok {| get_summary := Ok summary |}) ->
  Py.get summary "accumulated_usage" (VDict []) = Ok (VDict u) ->
  In k token_keys -> Py.lookup k u = None ->
  match agent_arg with
  | Some a => _agent_snapshots st !! agent_id a = None
  | None => True
  end ->
  fst (extract_strands_trace_data now response msg_id agent_arg st) = Ok None.
Proof.
  intros Hm Hu Hk Hmissing Hunseen.
  rewrite (extract_result _ _ _ _ _ _ Hm).
  destruct (calculate_per_message_metrics summary agent_arg st) as [[data | e] st1] eqn:Hcalc;
    simpl; [| reflexivity].
  destruct (convert_to_ui_format _ _ _ _ _) as [ui | e] eqn:Hconv; [| reflexivity].
  exfalso.
  apply convert_inv in Hconv as (counts & Hcounts & _).
  apply token_counts_inv in Hcounts as (u' & Htd & Hi & Ho & Ht). simpl in Htd.
  apply calculate_inv in Hcalc
    as (cu & cc & am & cl & prev & st0 & d & Hu' & _ & _ & _ & Htrack & _).
  rewrite Hu in Hu'. inversion Hu'; subst cu.
  apply track_agent_inv in Htrack as [_ Hcase].
  assert (Heq : token_delta data = VDict u).
  { destruct agent_arg as [a |].
    - destruct Hcase as (-> & Hd & _). rewrite Hunseen in Hd. simpl in Hd.
      inversion Hd. reflexivity.
    - destruct Hcase as (_ & Hd & _). inversion Hd. reflexivity. }
  rewrite Heq in Htd. inversion Htd; subst u'.
  unfold token_keys in Hk. simpl in Hk.
  destruct Hk as [<- | [<- | [<- | []]]]; congruence.
Qed.

Lemma int_or_missing_default u k :
  int_or_missing u k -> exists z, default (VInt 0) (Py.lookup k u) = VInt z.
Proof. intros [-> | [z ->]]; simpl; eauto. Qed.

Lemma slice_same_index (tr : list pyval) (c : Z) :
  slice_new_traces (VList tr) (VInt c) (VInt c) = Ok (VList []).
Proof.
  rewrite slice_new_traces_list.
  destruct (c <? Z.of_nat (length tr)); [| reflexivity].
  unfold Py.slice_list. rewrite Z.sub_diag. reflexivity.
Qed.

(** C10. Let the usage mapping of the summary lack one of the keys
    inputTokens, outputTokens, totalTokens, the entries it has being
    integers, and let the rest of the summary be well formed.  Then the
    first observation of an agent without snapshot returns the null
    result, and so does a call without agent object; observing the same
    agent again with the same summary returns a record, in which the three
    token counts are 0: the clamped differences use 0 for the missing
    entries. *)
Theorem missing_usage_key_first_none_then_record
    (now now' : Z) (response : agent_response) (msg_id msg_id' : option string)
    (a : agent) (st : engine_state) (d u m : list (string * pyval)) (tr : list pyval)
    (k : string) (c l : Z) (name : string) :
  metrics response = Some (Ok {| get_summary := Ok (VDict d) |}) ->
  Py.get (VDict d) "accumulated_usage" (VDict []) = Ok (VDict u) ->
  In k token_keys -> Py.lookup k u = None ->
  Forall (int_or_missing u) token_keys ->
  Py.get (VDict d) "total_cycles" (VInt 0) = Ok (VInt c) ->
  Py.get (VDict d) "accumulated_metrics" (VDict []) = Ok (VDict m) ->
  Py.get (VDict m) "latencyMs" (VInt 0) = Ok (VInt l) ->
  Py.get (VDict d) "traces" (VList []) = Ok (VList tr) ->
  derive_model_name (Some a) = Ok name ->
  totals_ready st ->
  _agent_snapshots st !! agent_id a = None ->
  fst (extract_strands_trace_data now response msg_id (Some a) st) = Ok None /\
  fst (extract_strands_trace_data now response msg_id None st) = Ok None /\
  exists ui,
    fst (extract_strands_trace_data now' response msg_id' (Some a)
           (snd (extract_strands_trace_data now response msg_id (Some a) st)))
    = Ok (Some ui) /\
    ui_total_tokens ui =
      {| prompt_tokens := VInt 0; completion_tokens := VInt 0; total_tokens := VInt 0 |}.
Proof.
  intros Hm Hu Hk Hmissing Hints Hc Ham Hl Htr Hname Hready Hunseen.
  split; [| split].
  - eapply first_observation_missing_key; eassumption.
  - eapply first_observation_missing_key; try eassumption. exact I.
  - unfold token_keys in Hints.
    inversion Hints as [| ? ? Hi Hints1]; subst.
    inversion Hints1 as [| ? ? Ho Hints2]; subst.
    inversion Hints2 as [| ? ? Ht _]; subst.
    apply int_or_missing_default in Hi as [zi Hzi].
    apply int_or_missing_default in Ho as [zo Hzo].
    apply int_or_missing_default in Ht as [zt Hzt].
    set (snap := {| inputTokens := VInt zi; outputTokens := VInt zo;
                    totalTokens := VInt zt; cycles := VInt c; latencyMs := VInt l |}).
    assert (Hsnap : snapshot_of (VDict u) (VInt c) (VInt l) = Ok snap).
    { unfold snapshot_of. rewrite !get_dict, Hzi, Hzo, Hzt. reflexivity. }
    (* the state left by the first observation *)
    assert (Hd1 : compute_deltas (VDict u) (VInt c) (VInt l)
                    (_agent_snapshots st !! agent_id a) = Ok (VDict u, VInt c, VInt l)).
    { rewrite Hunseen. reflexivity. }
    pose proof (track_agent_some a _ _ _ st _ _ Hd1 Hsnap) as Htrack1.
    assert (Hnum1 : added_numbers (VDict u) (VInt c) (VInt l) =
                    Some {| c_input := zi; c_output := zo; c_total := zt;
                            c_cycles := c; c_latency := l |}).
    { unfold added_numbers. rewrite Hzi, Hzo, Hzt. reflexivity. }
    rewrite (extract_state _ _ _ _ _ _ Hm).
    rewrite (calculate_state _ _ _ _ _ _ _ _ _ _ _ _ _
               Hu Hc Ham Hl Htrack1 Hready Hnum1).
    match goal with |- context [extract_strands_trace_data _ _ _ _ ?s] => set (st1 := s) end.
    assert (Hready1 : totals_ready st1) by (apply add_counters_ready; exact Hready).
    assert (Hseen : _agent_snapshots st1 !! agent_id a = Some snap)
      by (simpl; apply lookup_insert_eq).
    (* the second observation *)
    assert (Hd2 : compute_deltas (VDict u) (VInt c) (VInt l)
                    (_agent_snapshots st1 !! agent_id a) =
                  Ok (VDict [("inputTokens", VInt 0); ("outputTokens", VInt 0);
                             ("totalTokens", VInt 0)], VInt 0, VInt 0)).
    { rewrite Hseen. unfold compute_deltas. rewrite !get_dict, Hzi, Hzo, Hzt. simpl.
      rewrite !Z.sub_diag. reflexivity. }
    pose proof (track_agent_some a _ _ _ st1 _ _ Hd2 Hsnap) as Htrack2.
    rewrite Hseen in Htrack2.
    assert (Hnum2 : added_numbers
                      (VDict [("inputTokens", VInt 0); ("outputTokens", VInt 0);
                              ("totalTokens", VInt 0)]) (VInt 0) (VInt 0) =
                    Some {| c_input := 0; c_output := 0; c_total := 0;
                            c_cycles := 0; c_latency := 0 |}) by reflexivity.
    assert (Hex : extract_contents (VList []) = Ok ([], [])) by reflexivity.
    pose proof (calculate_steps _ _ _ _ _ _ _ _ _ _ _ _ _ _ _ _ _
                  Hu Hc Ham Hl Htrack2 Hready1 Hnum2 Htr (slice_same_index tr c) Hex
                  (get_dict d "tool_usage" (VDict []))) as Hcalc.
    rewrite (extract_result _ _ _ _ _ _ Hm), Hcalc.
    unfold convert_to_ui_format. rewrite Hname. simpl.
    eexists. split; reflexivity.
Qed.

(** A summary without [totalTokens], seen twice by [sample_agent]. *)
Lemma missing_usage_key_first_none_then_record_witness :
  fst (extract_strands_trace_data 0 (response_of partial_summary) None
         (Some sample_agent) initial_state) = Ok None /\
  fst (extract_strands_trace_data 0 (response_of partial_summary) None None initial_state)
    = Ok None /\
  exists ui,
    fst (extract_strands_trace_data 1 (response_of partial_summary) None (Some sample_agent)
           (snd (extract_strands_trace_data 0 (response_of partial_summary) None
                   (Some sample_agent) initial_state)))
    = Ok (Some ui) /\
    ui_total_tokens ui =
      {| prompt_tokens := VInt 0; completion_tokens := VInt 0; total_tokens := VInt 0 |}.
Proof.
  apply (missing_usage_key_first_none_then_record 0 1 (response_of partial_summary)
           None None sample_agent initial_state
           [("accumulated_usage", VDict [("inputTokens", VInt 10); ("outputTokens", VInt 5)]);
            ("total_cycles", VInt 2);
            ("accumulated_metrics", VDict [("latencyMs", VInt 300)]);
            ("traces", VList [])]
           [("inputTokens", VInt 10); ("outputTokens", VInt 5)]
           [("latencyMs", VInt 300)] [] "totalTokens" 2 300 fallback_model).
  - reflexivity.
  - reflexivity.
  - simpl. tauto.
  - reflexivity.
  - unfold token_keys.
    constructor; [right; eexists; reflexivity |].
    constructor; [right; eexists; reflexivity |].
    constructor; [left; reflexivity | constructor].
  - reflexivity.
  - reflexivity.
  - reflexivity.
  - reflexivity.
  - reflexivity.
  - exact initial_totals_ready.
  - reflexivity.
Defined.

(** ** C6: session totals *)

Lemma extract_returned_inv now response msg_id agent_arg st u :
  fst (extract_strands_trace_data now response msg_id agent_arg st) = Ok (Some u) ->
  exists summary data,
    metrics response = Some (Ok {| get_summary := Ok summary |}) /\
    calculate_per_message_metrics summary agent_arg st =
      (Ok data, snd (extract_strands_trace_data now response msg_id agent_arg st)) /\
    convert_to_ui_format now response (with_summary data summary)
      (message_id_or_default now msg_id) agent_arg = Ok u.
Proof.
  destruct (has_attr_cases (metrics response)) as [(m & Hm & _) | [Hf | (e & He)]].
  2: { rewrite (extract_strands_no_metrics _ _ _ _ _ Hf). discriminate. }
  2: { rewrite (extract_strands_probe_raises _ _ _ _ _ _ He). discriminate. }
  rewrite (extract_strands_probed _ _ _ _ _ Hm). rewrite Hm.
  destruct m as [[summary | e]]; unfold_M; [| discriminate].
  destruct (calculate_per_message_metrics summary agent_arg st) as [[data | e] st1] eqn:Hcalc;
    [| discriminate].
  destruct (convert_to_ui_format _ _ _ _ _) as [ui | e] eqn:Hconv; [| discriminate].
  simpl. intros H. inversion H; subst. exists summary, data.
  split; [reflexivity |]. split; [exact Hcalc | exact Hconv].
Qed.

Lemma counters_add_zero (t : counters) : counters_add t zero_counters = t.
Proof. destruct t. unfold counters_add. simpl. f_equal; lia. Qed.

Lemma counters_add_assoc (x y z : counters) :
  counters_add (counters_add x y) z = counters_add x (counters_add y z).
Proof. unfold counters_add. simpl. f_equal; lia. Qed.

Lemma add_counters_totals d st st1 t0 :
  totals_as_counters st = Some t0 ->
  _session_totals st1 = _session_totals st ->
  totals_as_counters (with_totals st1 (add_counters d (_session_totals st1))) =
  Some (counters_add t0 d).
Proof.
  unfold totals_as_counters. intros H ->. simpl. unfold add_counters.
  repeat (rewrite lookup_alter_eq || rewrite lookup_alter_ne by done).
  destruct (_session_totals st !! "inputTokens") as [i |]; [| discriminate].
  destruct (_session_totals st !! "outputTokens") as [o |]; [| discriminate].
  destruct (_session_totals st !! "totalTokens") as [t |]; [| discriminate].
  destruct (_session_totals st !! "cycles") as [c |]; [| discriminate].
  destruct (_session_totals st !! "latencyMs") as [l |]; [| discriminate].
  simpl in *. inversion H; subst. reflexivity.
Qed.

(** The numbers added to the session totals are the ones the returned
    record shows. *)
Lemma added_numbers_of_record now response data mid agent_arg u d :
  convert_to_ui_format now response data mid agent_arg = Ok u ->
  added_numbers (token_delta data) (new_cycles data) (latency_ms data) = Some d ->
  record_counters u = d.
Proof.
  intros Hconv Hnum.
  apply convert_inv in Hconv as (counts & Hcounts & Htok & Hlat & Hcyc).
  apply token_counts_inv in Hcounts as (u0 & Htd & Hi & Ho & Ht).
  unfold added_numbers in Hnum. rewrite Htd, Hi, Ho, Ht in Hnum. simpl in Hnum.
  unfold record_counters, num_or_zero. rewrite Htok, Hlat, Hcyc.
  destruct (Py.num (prompt_tokens counts)) as [xi |]; [| discriminate].
  destruct (Py.num (completion_tokens counts)) as [xo |]; [| discriminate].
  destruct (Py.num (total_tokens counts)) as [xt |]; [| discriminate].
  destruct (Py.num (new_cycles data)) as [xc |]; [| discriminate].
  destruct (Py.num (latency_ms data)) as [xl |]; [| discriminate].
  simpl in Hnum. inversion Hnum. reflexivity.
Qed.

(** One call of the main entry point that returned a record added the
    deltas of that record to the session totals. *)
Lemma observe_adds_record now response msg_id agent_arg st u t0 :
  fst (extract_strands_trace_data now response msg_id agent_arg st) = Ok (Some u) ->
  totals_as_counters st = Some t0 ->
  totals_as_counters (snd (extract_strands_trace_data now response msg_id agent_arg st)) =
  Some (counters_add t0 (record_counters u)).
Proof.
  intros Hret Ht0.
  apply extract_returned_inv in Hret as (summary & data & Hm & Hcalc & Hconv).
  apply calculate_inv in Hcalc
    as (cu & cc & am & cl & prev & st1 & d & _ & _ & _ & _ & Htrack & _ & Hnum & Hst & _).
  apply track_agent_inv in Htrack as [Htot _].
  rewrite Hst.
  rewrite (added_numbers_of_record _ _ _ _ _ _ d Hconv Hnum).
  apply (add_counters_totals d st st1 t0 Ht0 Htot).
Qed.

Lemma run_calls_totals calls st t0 :
  totals_as_counters st = Some t0 ->
  main_calls_returned (fst (run_calls calls st)) = true ->
  totals_as_counters (snd (run_calls calls st)) =
  Some (counters_add t0
          (sum_counters (map record_counters (main_records (fst (run_calls calls st)))))).
Proof.
  revert st t0. induction calls as [| c rest IH]; intros st t0 Ht0 Hall; simpl.
  - rewrite counters_add_zero. exact Ht0.
  - simpl in Hall.
    destruct (run_call c st) as [r st1] eqn:Hrun.
    destruct (run_calls rest st1) as [log st2] eqn:Hrest.
    simpl in *.
    destruct c as [now response msg_id agent_arg | now response msg_id]; simpl in Hrun.
    + destruct r as [[u |] | e]; try discriminate.
      pose proof (observe_adds_record now response msg_id agent_arg st u t0) as Hadd.
      rewrite Hrun in Hadd. simpl in Hadd. specialize (Hadd eq_refl Ht0).
      specialize (IH st1 _ Hadd). rewrite Hrest in IH. simpl in IH.
      rewrite (IH Hall). simpl. rewrite counters_add_assoc. reflexivity.
    + pose proof (direct_keeps_state now response msg_id st) as Hkeep.
      rewrite Hrun in Hkeep. simpl in Hkeep. subst st1.
      specialize (IH st t0 Ht0). rewrite Hrest in IH. simpl in IH.
      assert (Hall' : main_calls_returned log = true).
      { destruct r as [[u |] | e]; exact Hall. }
      rewrite (IH Hall').
      destruct r as [[u |] | e]; reflexivity.
Qed.

(** C6, as the code has it.  From the freshly loaded module, after any
    sequence of calls of the two entry points in which every call of the
    main entry point (with or without agent object) returned a record,
    each of the five session totals is the sum of the corresponding
    deltas of the records returned by the main entry point; the records
    returned by the companion entry point are not added. *)
Theorem session_totals_sum_main_records (calls : list call) :
  main_calls_returned (fst (run_calls calls initial_state)) = true ->
  totals_as_counters (snd (run_calls calls initial_state)) =
  Some (sum_counters
          (map record_counters (main_records (fst (run_calls calls initial_state))))).
Proof.
  intros Hall.
  rewrite (run_calls_totals calls initial_state zero_counters eq_refl Hall).
  f_equal. unfold counters_add, zero_counters. simpl.
  destruct (sum_counters _). reflexivity.
Qed.

(** Two tracked turns and one turn without agent object: the totals are
    (23, 14, 37, 4, 550). *)
Lemma session_totals_sum_main_records_witness :
  totals_as_counters (snd (run_calls sample_session initial_state)) =
  Some (sum_counters
          (map record_counters (main_records (fst (run_calls sample_session initial_state))))).
Proof.
  apply (session_totals_sum_main_records sample_session).
  vm_compute. reflexivity.
Defined.

(** The claim as worded fails on one call of the companion entry point:
    it returns a record with the deltas (5, 5, 10, 1, 100), and the
    session totals stay at zero. *)
Lemma companion_record_not_accumulated :
  sum_counters (map record_counters
                  (all_records (fst (run_calls direct_session initial_state)))) =
    {| c_input := 5; c_output := 5; c_total := 10; c_cycles := 1; c_latency := 100 |} /\
  totals_as_counters (snd (run_calls direct_session initial_state)) = Some zero_counters /\
  totals_as_counters (snd (run_calls direct_session initial_state)) <>
    Some (sum_counters (map record_counters
                          (all_records (fst (run_calls direct_session initial_state))))).
Proof.
  split; [vm_compute; reflexivity |].
  split; [vm_compute; reflexivity |].
  vm_compute. discriminate.
Qed.

(** A call of the main entry point that fails in the view builder has
    already been added to the session totals: nothing is returned for
    [partial_summary], yet the totals moved. *)
Example failed_call_still_accumulates :
  fst (run_calls [Observe 0 (response_of partial_summary) None None] initial_state) =
    [(Observe 0 (response_of partial_summary) None None, None)] /\
  totals_as_counters
    (snd (run_calls [Observe 0 (response_of partial_summary) None None] initial_state)) =
    Some {| c_input := 10; c_output := 5; c_total := 0; c_cycles := 2; c_latency := 300 |}.
Proof. split; vm_compute; reflexivity. Qed.

(** ** C8: the display model name *)

Lemma hasattr_plain o a :
  plain_object o ->
  hasattr o a = Ok (match attr_value o a with Some _ => true | None => false end).
Proof.
  intros [Hplain _]. unfold hasattr, getattr, attr_value.
  destruct (find_attr a (attributes o)) as [r |] eqn:Hr; [| reflexivity].
  destruct (Hplain a r Hr) as [v ->]. reflexivity.
Qed.

Lemma getattr_value o a v : attr_value o a = Some v -> getattr o a = Ok v.
Proof.
  unfold attr_value, getattr.
  destruct (find_attr a (attributes o)) as [[w | e] |]; try discriminate.
  intros H. inversion H. reflexivity.
Qed.

Lemma name_from_class_table cls :
  name_from_class cls = default cls (provider_of cls known_providers).
Proof.
  unfold name_from_class, known_providers, provider_of.
  destruct (Py.substring_of "Bedrock" cls); [reflexivity |].
  destruct (Py.substring_of "Anthropic" cls); [reflexivity |].
  destruct (Py.substring_of "OpenAI" cls); reflexivity.
Qed.

Lemma probe_model_plain o :
  plain_object o -> probe_model o = Ok (table_model_name o).
Proof.
  intros Hplain. unfold probe_model, table_model_name, identifier_fields, first_present.
  rewrite !(hasattr_plain o) by exact Hplain.
  unfold mbind, res_bind.
  destruct (attr_value o "model_id") as [v |] eqn:H1.
  { rewrite (getattr_value _ _ _ H1). reflexivity. }
  destruct (attr_value o "model") as [v |] eqn:H2.
  { rewrite (getattr_value _ _ _ H2). reflexivity. }
  destruct (attr_value o "model_name") as [v |] eqn:H3.
  { rewrite (getattr_value _ _ _ H3). reflexivity. }
  destruct (attr_value o "_model_id") as [v |] eqn:H4.
  { rewrite (getattr_value _ _ _ H4). reflexivity. }
  destruct (dict_has_model_id o) as [v |] eqn:H5.
  { destruct Hplain as [_ Hdict]. destruct (Hdict v H5) as [w Hw]. congruence. }
  unfold catching. rewrite name_from_class_table. reflexivity.
Qed.

(** "Unknown Model" is what a failing probe gives. *)
Lemma failing_probe_is_unknown a o e :
  agent_model a = Some o -> obj_truthy o = true ->
  probe_model o = Raise e -> probe_handled e = true ->
  derive_model_name (Some a) = Ok "Unknown Model".
Proof.
  intros Hm Ht He Hh. unfold derive_model_name, catching. rewrite Hm, Ht, He, Hh.
  reflexivity.
Qed.

(** C8, as the code has it.  For an agent bound to a truthy model object
    whose attributes can be read, the display name is the text of the
    first field present among [model_id], [model], [model_name],
    [_model_id]; without any of them it is the provider name matched by
    the model's type name, and the type name itself when no provider
    matches; in particular it is the type name for a model object that
    has none of the fields and whose type name matches no provider.  When
    the probing raises [AttributeError], [TypeError] or [ValueError], the
    display name is "Unknown Model". *)
Theorem model_name_by_priority (a : agent) (o : py_object) :
  agent_model a = Some o ->
  obj_truthy o = true ->
  (plain_object o -> derive_model_name (Some a) = Ok (table_model_name o)) /\
  (plain_object o ->
   first_present o identifier_fields = None ->
   provider_of (class_name o) known_providers = None ->
   derive_model_name (Some a) = Ok (class_name o)) /\
  (forall e, probe_model o = Raise e -> probe_handled e = true ->
             derive_model_name (Some a) = Ok "Unknown Model").
Proof.
  intros Hm Ht.
  assert (Htable : plain_object o -> derive_model_name (Some a) = Ok (table_model_name o)).
  { intros Hplain. unfold derive_model_name. rewrite Hm, Ht.
    rewrite (probe_model_plain o Hplain). reflexivity. }
  split; [exact Htable |]. split.
  - intros Hplain Hnone Hprov. rewrite (Htable Hplain).
    unfold table_model_name. rewrite Hnone, Hprov. reflexivity.
  - intros e He Hh. apply (failing_probe_is_unknown a o e Hm Ht He Hh).
Qed.

(** A model with only the second fallback field is shown by that field. *)
Lemma model_name_by_priority_witness :
  derive_model_name (Some named_agent) = Ok "llama3".
Proof.
  destruct (model_name_by_priority named_agent named_model) as (Htable & _).
  - reflexivity.
  - reflexivity.
  - apply Htable. split.
    + intros f r. unfold named_model. simpl.
      destruct (String.eqb f "model_name"); [| discriminate].
      intros H. inversion H. eexists. reflexivity.
    + intros v H. unfold dict_has_model_id in H. simpl in H. discriminate.
Defined.

(** A model whose [model_id] property raises [ValueError] is shown as
    "Unknown Model"; so is a model whose [model_id] is that very text,
    without any exception. *)
Example unknown_model_is_shown :
  probe_model raising_model = Raise ValueError /\
  derive_model_name (Some (with_model sample_agent raising_model)) = Ok "Unknown Model" /\
  probe_model literal_model = Ok "Unknown Model" /\
  derive_model_name (Some (with_model sample_agent literal_model)) = Ok "Unknown Model".
Proof. repeat split. Qed.

(** The claim as worded fails on a model object without identifier
    fields whose type name matches no provider: the type name is shown,
    not "Unknown Model". *)
Lemma unmatched_type_name_is_shown :
  first_present custom_model identifier_fields = None /\
  dict_has_model_id custom_model = None /\
  provider_of (class_name custom_model) known_providers = None /\
  derive_model_name (Some custom_agent) = Ok "CustomModel" /\
  derive_model_name (Some custom_agent) <> Ok "Unknown Model".
Proof.
  repeat split; try reflexivity. vm_compute. discriminate.
Qed.

(** ** C3: joining a tool call with its result *)

Lemma scan_content_texts (content : list pyval) (acc : pyval) :
  foldM scan_content_item content acc = Ok (default acc (last (texts_of content))).
Proof.
  revert acc. induction content as [| ci rest IH]; intros acc; [reflexivity |].
  simpl foldM. unfold scan_content_item at 1, Py.is_dict_with, Py.getitem.
  destruct ci as [| | | | | d]; simpl texts_of; try apply IH.
  destruct (Py.lookup "text" d) as [t |]; [| apply IH].
  rewrite IH. rewrite last_cons. destruct (last (texts_of rest)); reflexivity.
Qed.

Lemma scan_result_texts (items : list pyval) (acc : pyval) :
  forallb wf_result_item items = true ->
  foldM scan_result_item items acc = Ok (default acc (last (result_texts items))).
Proof.
  revert acc. induction items as [| item rest IH]; intros acc Hwf; [reflexivity |].
  simpl in Hwf. apply andb_true_iff in Hwf as [Hitem Hrest].
  simpl foldM. simpl result_texts. rewrite last_app.
  assert (Hstep : scan_result_item acc item = Ok (default acc (last (item_texts item)))).
  { unfold scan_result_item, Py.is_dict_with, Py.getitem, item_texts.
    unfold wf_result_item in Hitem.
    destruct item as [| | | | | d]; try reflexivity.
    destruct (Py.lookup "toolResult" d) as [x |]; [| reflexivity].
    destruct x as [| | | | | tr]; try discriminate.
    unfold mbind at 1, res_bind at 1. rewrite get_dict.
    unfold mbind at 1, res_bind at 1.
    destruct (Py.lookup "content" tr) as [c |]; simpl default.
    - destruct c as [| | | | | ]; try discriminate. simpl. apply scan_content_texts.
    - reflexivity. }
  rewrite Hstep, (IH _ Hrest).
  destruct (last (result_texts rest)); reflexivity.
Qed.

(** The siblings before the first match are skipped; nothing after the
    first match is looked at. *)
Lemma find_tool_result_first_match (pre post : list pyval) (sibling tool_id : pyval) :
  Forall (fun c => is_tool_sibling c tool_id = Ok false) pre ->
  is_tool_sibling sibling tool_id = Ok true ->
  find_tool_result (pre ++ sibling :: post) tool_id = read_tool_result sibling.
Proof.
  intros Hpre Hsib. induction Hpre as [| c pre Hc _ IH]; simpl.
  - rewrite Hsib. reflexivity.
  - rewrite Hc. simpl. exact IH.
Qed.

Lemma read_tool_result_texts (sd : list (string * pyval)) :
  wf_sibling sd = true ->
  read_tool_result (VDict sd) = Ok (default (VStr "") (last (result_texts (sibling_items sd)))).
Proof.
  unfold wf_sibling, sibling_items, read_tool_result. intros Hwf.
  rewrite get_dict. unfold Py.getitem.
  destruct (Py.lookup "message" sd) as [message |] eqn:Hmsg; [| reflexivity].
  destruct message as [| | | | | msg]; try discriminate.
  unfold mbind at 1, res_bind at 1. simpl default.
  rewrite get_dict. unfold mbind at 1, res_bind at 1.
  destruct (Py.lookup "content" msg) as [content |] eqn:Hcontent; [| reflexivity].
  destruct content as [| | | | items |]; try discriminate.
  simpl default.
  destruct items as [| item rest]; [reflexivity |].
  simpl Py.truthy. cbv iota.
  unfold mbind at 1, res_bind at 1. rewrite Hcontent.
  unfold mbind at 1, res_bind at 1.
  simpl Py.iter. unfold mbind at 1, res_bind at 1.
  apply scan_result_texts. exact Hwf.
Qed.

(** C3, as the code has it.  Take a [toolUse] block with tool-use id [t]
    found in a trace whose children are [pre ++ sibling :: post], where no
    child in [pre] matches (name containing "Tool:" and metadata id equal
    to [t]) and [sibling] is the first that does.  Then the record for
    the block carries the id, name and input of the block, and its result
    is the last text content-block inside the [toolResult] items of the
    sibling's message (the empty string if there is none): each text
    overwrites the previous one, and the children in [post] are never
    looked at. *)
Theorem tool_result_joined_by_id
    (pre post : list pyval) (block tu sd : list (string * pyval)) :
  Py.lookup "toolUse" block = Some (VDict tu) ->
  Forall (fun c => is_tool_sibling c (default (VStr "") (Py.lookup "toolUseId" tu)) = Ok false)
         pre ->
  is_tool_sibling (VDict sd) (default (VStr "") (Py.lookup "toolUseId" tu)) = Ok true ->
  wf_sibling sd = true ->
  tool_call_of (pre ++ VDict sd :: post) (VDict block) =
  Ok {| tc_id := default (VStr "") (Py.lookup "toolUseId" tu);
        tc_name := default (VStr "unknown") (Py.lookup "name" tu);
        tc_parameters := default (VDict []) (Py.lookup "input" tu);
        tc_result := default (VStr "") (last (result_texts (sibling_items sd))) |}.
Proof.
  intros Hblock Hpre Hsib Hwf.
  unfold tool_call_of, Py.getitem. rewrite Hblock.
  unfold mbind at 1, res_bind at 1. rewrite !get_dict.
  unfold mbind at 1, res_bind at 1.
  unfold mbind at 1, res_bind at 1.
  unfold mbind at 1, res_bind at 1.
  rewrite (find_tool_result_first_match pre post (VDict sd) _ Hpre Hsib).
  rewrite (read_tool_result_texts sd Hwf).
  reflexivity.
Qed.

(** The specification's example: tool use "t1", one sibling for "t1"
    whose tool result holds the text "42". *)
Lemma tool_result_joined_by_id_witness :
  tool_call_of [assistant_child [tool_use_block "t1"]; tool_child "t1" ["42"]]
    (tool_use_block "t1") =
  Ok {| tc_id := VStr "t1"; tc_name := VStr "calculator";
        tc_parameters := VDict [("expression", VStr "6*7")];
        tc_result := VStr "42" |}.
Proof.
  apply (tool_result_joined_by_id
           [assistant_child [tool_use_block "t1"]] []
           [("toolUse", VDict [("toolUseId", VStr "t1"); ("name", VStr "calculator");
                               ("input", VDict [("expression", VStr "6*7")])])]
           [("toolUseId", VStr "t1"); ("name", VStr "calculator");
            ("input", VDict [("expression", VStr "6*7")])]
           [("name", VStr "Tool: calculator");
            ("metadata", VDict [("toolUseId", VStr "t1")]);
            ("message",
             VDict [("role", VStr "user");
                    ("content",
                     VList [VDict [("toolResult",
                                    VDict [("toolUseId", VStr "t1");
                                           ("content", VList (result_content ["42"]))])]])])]).
  - reflexivity.
  - repeat constructor.
  - reflexivity.
  - reflexivity.
Defined.

(** The same example through the whole walk over one cycle. *)
Example tool_join_through_extraction :
  extract_contents (VList [cycle_with_tool "t1" ["42"]]) =
  Ok ([], [{| tc_id := VStr "t1"; tc_name := VStr "calculator";
              tc_parameters := VDict [("expression", VStr "6*7")];
              tc_result := VStr "42" |}]).
Proof. reflexivity. Qed.

(** A tool use without matching sibling gets the empty result. *)
Example unresolved_tool_call :
  tool_call_of [assistant_child [tool_use_block "t1"]; tool_child "t2" ["42"]]
    (tool_use_block "t1") =
  Ok {| tc_id := VStr "t1"; tc_name := VStr "calculator";
        tc_parameters := VDict [("expression", VStr "6*7")];
        tc_result := VStr "" |}.
Proof. reflexivity. Qed.

(** The first sibling that matches by name and id ends the scan, also
    when it carries no result and a later one does. *)
Example first_match_without_result_wins :
  tool_call_of
    [VDict [("name", VStr "Tool: calculator"); ("metadata", VDict [("toolUseId", VStr "t1")])];
     tool_child "t1" ["42"]]
    (tool_use_block "t1") =
  Ok {| tc_id := VStr "t1"; tc_name := VStr "calculator";
        tc_parameters := VDict [("expression", VStr "6*7")];
        tc_result := VStr "" |}.
Proof. reflexivity. Qed.

(** The claim as worded fails when the tool result holds two text blocks:
    the first one is "a", the record's result is "b". *)
Lemma tool_result_is_not_first_text :
  first_text (result_content ["a"; "b"]) = Some (VStr "a") /\
  tool_call_of [assistant_child [tool_use_block "t1"]; tool_child "t1" ["a"; "b"]]
    (tool_use_block "t1") =
  Ok {| tc_id := VStr "t1"; tc_name := VStr "calculator";
        tc_parameters := VDict [("expression", VStr "6*7")];
        tc_result := VStr "b" |} /\
  (forall call,
      tool_call_of [assistant_child [tool_use_block "t1"]; tool_child "t1" ["a"; "b"]]
        (tool_use_block "t1") = Ok call ->
      Some (tc_result call) <> first_text (result_content ["a"; "b"])).
Proof.
  split; [reflexivity |]. split; [reflexivity |].
  intros call H. vm_compute in H. inversion H; subst. vm_compute. discriminate.
Qed.

(** * Further properties of the engine *)

(** ** The snapshot table *)

Lemma calculate_snapshot_cases summary agent_obj st :
  _agent_snapshots (snd (calculate_per_message_metrics summary agent_obj st)) =
    _agent_snapshots st \/
  exists cu cc cl,
    _agent_snapshots (snd (calculate_per_message_metrics summary agent_obj st)) =
    _agent_snapshots (snd (track_agent agent_obj cu cc cl st)).
Proof.
  destruct (Py.get summary "accumulated_usage" (VDict [])) as [cu | e] eqn:Hu.
  2: { left. unfold calculate_per_message_metrics.
       unfold mbind at 1, M_bind at 1, lift at 1. rewrite Hu. reflexivity. }
  destruct (Py.get summary "total_cycles" (VInt 0)) as [cc | e] eqn:Hc.
  2: { left. unfold calculate_per_message_metrics.
       unfold mbind at 1, M_bind at 1, lift at 1. rewrite Hu.
       unfold mbind at 1, M_bind at 1, lift at 1. rewrite Hc. reflexivity. }
  destruct (Py.get summary "accumulated_metrics" (VDict [])) as [am | e] eqn:Ham.
  2: { left. unfold calculate_per_message_metrics.
       unfold mbind at 1, M_bind at 1, lift at 1. rewrite Hu.
       unfold mbind at 1, M_bind at 1, lift at 1. rewrite Hc.
       unfold mbind at 1, M_bind at 1, lift at 1. rewrite Ham. reflexivity. }
  destruct (Py.get am "latencyMs" (VInt 0)) as [cl | e] eqn:Hl.
  2: { left. unfold calculate_per_message_metrics.
       unfold mbind at 1, M_bind at 1, lift at 1. rewrite Hu.
       unfold mbind at 1, M_bind at 1, lift at 1. rewrite Hc.
       unfold mbind at 1, M_bind at 1, lift at 1. rewrite Ham.
       unfold mbind at 1, M_bind at 1, lift at 1. rewrite Hl. reflexivity. }
  right. exists cu, cc, cl. apply (calculate_keeps_tracking _ _ _ _ _ _ _ Hu Hc Ham Hl).
Qed.

Lemma extract_state_cases now response msg_id agent_arg st :
  snd (extract_strands_trace_data now response msg_id agent_arg st) = st \/
  exists summary,
    snd (extract_strands_trace_data now response msg_id agent_arg st) =
    snd (calculate_per_message_metrics summary agent_arg st).
Proof.
  destruct (has_attr_cases (metrics response)) as [(m & Hm & _) | [Hf | (e & He)]].
  - destruct m as [[summary | e]].
    + right. exists summary. apply extract_state. exact Hm.
    + left. rewrite (extract_strands_probed _ _ _ _ _ Hm). reflexivity.
  - left. rewrite (extract_strands_no_metrics _ _ _ _ _ Hf). reflexivity.
  - left. rewrite (extract_strands_probe_raises _ _ _ _ _ _ He). reflexivity.
Qed.

Lemma track_agent_other_key a cu cc cl st key :
  key <> agent_id a ->
  _agent_snapshots (snd (track_agent (Some a) cu cc cl st)) !! key =
  _agent_snapshots st !! key.
Proof.
  intros Hne. unfold track_agent. unfold_M.
  destruct (compute_deltas cu cc cl (_agent_snapshots st !! agent_id a)); [| reflexivity].
  destruct (snapshot_of cu cc cl); [| reflexivity].
  simpl. apply lookup_insert_ne. congruence.
Qed.

(** X1. Observing one agent never changes what is stored for another:
    whatever the turn result holds and whatever the outcome, the snapshot
    under any key other than [id(agent)] is the one found before the
    call. *)
Theorem observation_keeps_other_snapshots
    (now : Z) (response : agent_response) (msg_id : option string)
    (a : agent) (st : engine_state) (key : Z) :
  key <> agent_id a ->
  _agent_snapshots (snd (extract_strands_trace_data now response msg_id (Some a) st)) !! key =
  _agent_snapshots st !! key.
Proof.
  intros Hne.
  destruct (extract_state_cases now response msg_id (Some a) st) as [-> | [summary ->]];
    [reflexivity |].
  destruct (calculate_snapshot_cases summary (Some a) st) as [-> | (cu & cc & cl & ->)];
    [reflexivity |].
  apply track_agent_other_key. exact Hne.
Qed.

(** After a first turn of [sample_agent] (id 1), nothing is stored yet
    under the id 2 of [custom_agent]. *)
Lemma observation_keeps_other_snapshots_witness :
  _agent_snapshots
    (snd (extract_strands_trace_data 0 (response_of (summary_of 10 5 15 2 300 [])) None
            (Some sample_agent) initial_state)) !! agent_id custom_agent =
  _agent_snapshots initial_state !! agent_id custom_agent.
Proof.
  apply (observation_keeps_other_snapshots 0 (response_of (summary_of 10 5 15 2 300 []))
           None sample_agent initial_state (agent_id custom_agent)).
  simpl. lia.
Defined.

Lemma no_identity_snapshots_kept now response msg_id st :
  _agent_snapshots (snd (extract_strands_trace_data now response msg_id None st)) =
  _agent_snapshots st.
Proof.
  destruct (extract_state_cases now response msg_id None st) as [-> | [summary ->]];
    [reflexivity |].
  destruct (calculate_snapshot_cases summary None st) as [-> | (cu & cc & cl & ->)];
    reflexivity.
Qed.

(** X2. A call of the main entry point without agent object leaves the
    whole snapshot table as it was, for every turn result and state. *)
Theorem no_identity_keeps_snapshot_table
    (now : Z) (response : agent_response) (msg_id : option string) (st : engine_state) :
  _agent_snapshots (snd (extract_strands_trace_data now response msg_id None st)) =
  _agent_snapshots st.
Proof. apply no_identity_snapshots_kept. Qed.

(** X3. Once the agent's deltas are computed, its snapshot is the current
    cumulative counters, whether or not the rest of the extraction goes
    through: for a summary reporting [cur] and an agent whose snapshot is
    absent or holds integers, the table holds [cur] for the agent after
    the call. *)
Theorem snapshot_holds_last_counters
    (now : Z) (response : agent_response) (msg_id : option string)
    (a : agent) (st : engine_state) (summary : pyval) (cur : counters)
    (prev : option counters) :
  metrics response = Some (Ok {| get_summary := Ok summary |}) ->
  carries summary cur ->
  previous_counters (Some a) st prev ->
  _agent_snapshots (snd (extract_strands_trace_data now response msg_id (Some a) st))
    !! agent_id a = Some (snapshot_of_counters cur).
Proof.
  intros Hm Hcar Hprev. simpl in Hprev.
  rewrite (extract_state _ _ _ _ _ _ Hm).
  destruct (carries_gets summary cur Hcar)
    as (d0 & u & m & -> & Hu & Hc & Ham & Hl & Hi & Ho & Ht).
  rewrite (calculate_keeps_tracking _ _ _ _ _ _ _ Hu Hc Ham Hl).
  pose proof (compute_deltas_typed u cur prev Hi Ho Ht) as Hd. rewrite <- Hprev in Hd.
  rewrite (track_agent_some a _ _ _ st _ _ Hd (snapshot_of_typed u cur Hi Ho Ht)).
  simpl. apply lookup_insert_eq.
Qed.

(** After a reset the observation returns nothing, and the snapshot is
    stored all the same. *)
Lemma snapshot_holds_last_counters_witness :
  fst (extract_strands_trace_data 0 (response_of (summary_of 10 5 15 2 300 [])) None
         (Some sample_agent) (snd (reset_metrics_state initial_state))) = Ok None /\
  _agent_snapshots
    (snd (extract_strands_trace_data 0 (response_of (summary_of 10 5 15 2 300 [])) None
            (Some sample_agent) (snd (reset_metrics_state initial_state))))
    !! agent_id sample_agent =
  Some (snapshot_of_counters
          {| c_input := 10; c_output := 5; c_total := 15; c_cycles := 2; c_latency := 300 |}).
Proof.
  split; [vm_compute; reflexivity |].
  apply (snapshot_holds_last_counters 0 (response_of (summary_of 10 5 15 2 300 [])) None
           sample_agent (snd (reset_metrics_state initial_state))
           (summary_of 10 5 15 2 300 [])
           {| c_input := 10; c_output := 5; c_total := 15; c_cycles := 2; c_latency := 300 |}
           None).
  - reflexivity.
  - unfold carries, summary_of, usage_of. repeat eexists.
  - reflexivity.
Defined.

(** ** Deltas along a conversation *)

(** What a successful observation returns and leaves behind. *)
Lemma calculate_returned summary agent_obj st cur prev data st' :
  carries summary cur ->
  previous_counters agent_obj st prev ->
  calculate_per_message_metrics summary agent_obj st = (Ok data, st') ->
  deltas_of_data data = Some (spec_delta cur prev) /\
  _session_totals st' = add_counters (spec_delta cur prev) (_session_totals st) /\
  (forall a, agent_obj = Some a ->
             _agent_snapshots st' !! agent_id a = Some (snapshot_of_counters cur)).
Proof.
  intros Hcar Hprev Hcalc.
  destruct (carries_gets summary cur Hcar)
    as (d0 & u & m & -> & Hu & Hc & Hm & Hl & Hi & Ho & Ht).
  apply calculate_inv in Hcalc
    as (cu & cc & am & cl & prev' & st1 & d & Hu' & Hc' & Hm' & Hl' & Htrack & _ & Hnum
        & -> & _).
  rewrite Hu in Hu'. inversion Hu'; subst cu.
  rewrite Hc in Hc'. inversion Hc'; subst cc.
  rewrite Hm in Hm'. inversion Hm'; subst am.
  rewrite Hl in Hl'. inversion Hl'; subst cl.
  apply track_agent_inv in Htrack as [Htot Hcase].
  assert (Hdeltas :
            compute_deltas (VDict u) (VInt (c_cycles cur)) (VInt (c_latency cur))
              (snapshot_of_counters <$> prev) =
            Ok (token_delta data, new_cycles data, latency_ms data)).
  { destruct agent_obj as [a |]; simpl in Hprev.
    - destruct Hcase as (-> & Hd & _). rewrite Hprev in Hd. exact Hd.
    - subst prev. destruct Hcase as (_ & Heq & _). simpl. f_equal. symmetry. exact Heq. }
  rewrite (compute_deltas_typed u cur prev Hi Ho Ht) in Hdeltas.
  inversion Hdeltas as [[Htd Hnc Hlat]].
  assert (Hd : deltas_of_data data = Some (spec_delta cur prev)).
  { unfold deltas_of_data. rewrite <- Htd, <- Hnc, <- Hlat.
    destruct prev as [p |]; simpl.
    - reflexivity.
    - rewrite Hi, Ho, Ht. simpl. rewrite counters_eta. reflexivity. }
  assert (Hd' : d = spec_delta cur prev).
  { rewrite <- Htd, <- Hnc, <- Hlat in Hnum.
    destruct prev as [p |]; simpl in Hnum.
    - inversion Hnum. reflexivity.
    - unfold added_numbers in Hnum. rewrite Hi, Ho, Ht in Hnum. simpl in Hnum.
      rewrite counters_eta in Hnum. inversion Hnum. reflexivity. }
  split; [exact Hd |]. split.
  - simpl. rewrite Htot, Hd'. reflexivity.
  - intros a ->. simpl. destruct Hcase as (_ & _ & snap & Hsnap & ->).
    rewrite (snapshot_of_typed u cur Hi Ho Ht) in Hsnap. inversion Hsnap.
    apply lookup_insert_eq.
Qed.

Lemma counters_ext (x y : counters) :
  c_input x = c_input y -> c_output x = c_output y -> c_total x = c_total y ->
  c_cycles x = c_cycles y -> c_latency x = c_latency y -> x = y.
Proof. destruct x, y. simpl. intros -> -> -> -> ->. reflexivity. Qed.

Lemma tracked_deltas_telescope a summaries cs st p :
  Forall2 carries summaries cs ->
  _agent_snapshots st !! agent_id a = Some (snapshot_of_counters p) ->
  non_decreasing_from p cs ->
  Forall (fun r => exists data, r = Ok data) (observe_all (Some a) summaries st) ->
  counters_add p (sum_counters (returned_deltas (observe_all (Some a) summaries st))) =
  default p (last cs).
Proof.
  intros Hall. revert st p.
  induction Hall as [| s c ss rest Hcar _ IH]; intros st p Hp Hmono Hret; simpl.
  - apply counters_add_zero.
  - simpl in Hret, Hmono. destruct Hmono as [Hle Hmono].
    destruct (calculate_per_message_metrics s (Some a) st) as [r st1] eqn:Hcalc.
    inversion Hret as [| ? ? [data ->] Hret']; subst.
    destruct (calculate_returned s (Some a) st c (Some p) data st1 Hcar Hp Hcalc)
      as (Hd & _ & Hsnap).
    cbn [returned_deltas]. rewrite Hd. simpl sum_counters.
    specialize (IH st1 c (Hsnap a eq_refl) Hmono Hret').
    rewrite last_cons.
    replace (default p (match last rest with Some y => Some y | None => Some c end))
      with (default c (last rest)) by (destruct (last rest); reflexivity).
    rewrite <- IH. rewrite <- counters_add_assoc. f_equal.
    destruct Hle as (? & ? & ? & ? & ?).
    apply counters_ext; simpl; lia.
Qed.

(** X4. Along a conversation the deltas add up to the cumulative counters:
    if an agent without snapshot is observed with counters that never go
    down, and every observation returns a record, then the sum of the
    returned deltas, field by field, is the last cumulative value. *)
Theorem deltas_sum_to_last_counters
    (a : agent) (summaries : list pyval) (cs : list counters) (st : engine_state) :
  Forall2 carries summaries cs ->
  _agent_snapshots st !! agent_id a = None ->
  match cs with
  | [] => True
  | c :: rest => non_decreasing_from c rest
  end ->
  Forall (fun r => exists data, r = Ok data) (observe_all (Some a) summaries st) ->
  sum_counters (returned_deltas (observe_all (Some a) summaries st)) =
  default zero_counters (last cs).
Proof.
  intros Hall Hunseen Hmono Hret.
  destruct Hall as [| s c ss rest Hcar Hall]; [reflexivity |].
  simpl in Hret |- *.
  destruct (calculate_per_message_metrics s (Some a) st) as [r st1] eqn:Hcalc.
  inversion Hret as [| ? ? [data ->] Hret']; subst.
  destruct (calculate_returned s (Some a) st c None data st1 Hcar Hunseen Hcalc)
    as (Hd & _ & Hsnap).
  cbn [returned_deltas]. rewrite Hd. simpl sum_counters.
  rewrite (tracked_deltas_telescope a ss rest st1 c Hall (Hsnap a eq_refl) Hmono Hret').
  rewrite last_cons. destruct (last rest); reflexivity.
Qed.

(** Three turns with counters (10, 5, 15, 2, 300), (18, 9, 27, 3, 450)
    and (18, 9, 27, 3, 450) again. *)
Lemma deltas_sum_to_last_counters_witness :
  sum_counters
    (returned_deltas
       (observe_all (Some sample_agent)
          [summary_of 10 5 15 2 300 []; summary_of 18 9 27 3 450 [];
           summary_of 18 9 27 3 450 []] initial_state)) =
  {| c_input := 18; c_output := 9; c_total := 27; c_cycles := 3; c_latency := 450 |}.
Proof.
  apply (deltas_sum_to_last_counters sample_agent
           [summary_of 10 5 15 2 300 []; summary_of 18 9 27 3 450 [];
            summary_of 18 9 27 3 450 []]
           [{| c_input := 10; c_output := 5; c_total := 15; c_cycles := 2; c_latency := 300 |};
            {| c_input := 18; c_output := 9; c_total := 27; c_cycles := 3; c_latency := 450 |};
            {| c_input := 18; c_output := 9; c_total := 27; c_cycles := 3; c_latency := 450 |}]
           initial_state).
  - repeat constructor; unfold carries, summary_of, usage_of; repeat eexists.
  - reflexivity.
  - simpl. unfold counters_le. simpl. lia.
  - vm_compute. repeat constructor; eexists; reflexivity.
Defined.

Lemma spec_delta_same (cur : counters) : spec_delta cur (Some cur) = zero_counters.
Proof. apply counters_ext; simpl; lia. Qed.

Lemma add_zero_counters (totals : gmap string Z) : add_counters zero_counters totals = totals.
Proof.
  unfold add_counters, zero_counters. simpl.
  repeat (rewrite alter_id; [| intros x _; lia]). reflexivity.
Qed.

(** X5. Observing an agent again with the summary it was last observed
    with changes nothing and attributes nothing: the state after the call
    is the state before it, the five deltas are 0, and the record has no
    new trace, no message content and no tool call. *)
Theorem repeated_observation_is_empty
    (summary : pyval) (a : agent) (st : engine_state) (cur : counters) (tr : list pyval) :
  carries summary cur ->
  _agent_snapshots st !! agent_id a = Some (snapshot_of_counters cur) ->
  totals_ready st ->
  Py.get summary "traces" (VList []) = Ok (VList tr) ->
  exists data,
    calculate_per_message_metrics summary (Some a) st = (Ok data, st) /\
    deltas_of_data data = Some zero_counters /\
    new_traces data = VList [] /\
    message_contents data = [] /\
    tool_calls data = [].
Proof.
  intros Hcar Hseen Hready Htr.
  destruct (carries_gets summary cur Hcar)
    as (d0 & u & m & -> & Hu & Hc & Hm & Hl & Hi & Ho & Ht).
  pose proof (compute_deltas_typed u cur (Some cur) Hi Ho Ht) as Hd.
  rewrite spec_delta_same in Hd. simpl fmap in Hd. rewrite <- Hseen in Hd.
  pose proof (track_agent_some a _ _ _ st _ _ Hd (snapshot_of_typed u cur Hi Ho Ht))
    as Htrack.
  rewrite Hseen in Htrack.
  assert (Hnum : added_numbers
                   (VDict [("inputTokens", VInt (c_input zero_counters));
                           ("outputTokens", VInt (c_output zero_counters));
                           ("totalTokens", VInt (c_total zero_counters))])
                   (VInt (c_cycles zero_counters)) (VInt (c_latency zero_counters)) =
                 Some zero_counters) by reflexivity.
  assert (Hex : extract_contents (VList []) = Ok ([], [])) by reflexivity.
  pose proof (calculate_steps _ _ _ _ _ _ _ _ _ _ _ _ _ _ _ _ _
                Hu Hc Hm Hl Htrack Hready Hnum Htr
                (slice_same_index tr (c_cycles cur)) Hex
                (get_dict d0 "tool_usage" (VDict []))) as Hcalc.
  eexists. split.
  - rewrite Hcalc. f_equal.
    unfold with_totals. simpl. rewrite add_zero_counters.
    rewrite (insert_id _ _ _ Hseen). destruct st. reflexivity.
  - repeat split; reflexivity.
Qed.

(** The second of two identical turns of [sample_agent]. *)
Lemma repeated_observation_is_empty_witness :
  exists data,
    calculate_per_message_metrics (summary_of 10 5 15 2 300 [text_block "x"; text_block "y"])
      (Some sample_agent)
      (tracked_state {| c_input := 10; c_output := 5; c_total := 15;
                        c_cycles := 2; c_latency := 300 |}) =
    (Ok data, tracked_state {| c_input := 10; c_output := 5; c_total := 15;
                               c_cycles := 2; c_latency := 300 |}) /\
    deltas_of_data data = Some zero_counters /\
    new_traces data = VList [] /\
    message_contents data = [] /\
    tool_calls data = [].
Proof.
  apply (repeated_observation_is_empty
           (summary_of 10 5 15 2 300 [text_block "x"; text_block "y"]) sample_agent
           (tracked_state {| c_input := 10; c_output := 5; c_total := 15;
                             c_cycles := 2; c_latency := 300 |})
           {| c_input := 10; c_output := 5; c_total := 15; c_cycles := 2; c_latency := 300 |}
           [text_block "x"; text_block "y"]).
  - unfold carries, summary_of, usage_of. repeat eexists.
  - reflexivity.
  - exact initial_totals_ready.
  - reflexivity.
Defined.

(** ** The returned record *)

(** The record the view builder returns, written out. *)
Lemma convert_structure now response data mid agent_arg u :
  convert_to_ui_format now response data mid agent_arg = Ok u ->
  exists name traces built counts,
    derive_model_name agent_arg = Ok name /\
    Py.iter (new_traces data) = Ok traces /\
    build_cycles (if response_truthy response then response_str response else EmptyString)
      name data 0 traces = Ok built /\
    token_counts_of data = Ok counts /\
    ui_cycles u = fst built /\
    ui_llm_calls u = snd built /\
    ui_tool_calls u = map convert_tool_call (tool_calls data) /\
    gen_ai_request_model (attributes_of_agent u) = name /\
    gen_ai_usage_prompt_tokens (attributes_of_agent u) = prompt_tokens counts /\
    gen_ai_usage_completion_tokens (attributes_of_agent u) = completion_tokens counts /\
    gen_ai_usage_total_tokens (attributes_of_agent u) = total_tokens counts /\
    ui_total_tokens u = counts /\
    total_duration_ms u = latency_ms data /\
    debug_new_cycles (ui_debug_info u) = new_cycles data /\
    message_id u = mid /\
    ui_metrics_summary u = metrics_summary data.
Proof.
  unfold convert_to_ui_format. intros H.
  destruct (derive_model_name agent_arg) as [name | e]; [| discriminate].
  unfold mbind at 1, res_bind at 1 in H.
  destruct (Py.iter (new_traces data)) as [traces | e]; [| discriminate].
  unfold mbind at 1, res_bind at 1 in H.
  destruct (build_cycles _ _ _ _ _) as [built | e] eqn:Hbuilt; [| discriminate].
  unfold mbind at 1, res_bind at 1 in H.
  destruct (Py.getitem (token_delta data) "totalTokens") as [t | e]; [| discriminate].
  unfold mbind at 1, res_bind at 1 in H.
  destruct (token_counts_of data) as [counts | e] eqn:Hcounts; [| discriminate].
  simpl in H. inversion H; subst; simpl.
  exists name, traces, built, counts. repeat split; try reflexivity. exact Hbuilt.
Qed.

Lemma deltas_of_data_inv data d :
  deltas_of_data data = Some d ->
  exists u,
    token_delta data = VDict u /\
    Py.lookup "inputTokens" u = Some (VInt (c_input d)) /\
    Py.lookup "outputTokens" u = Some (VInt (c_output d)) /\
    Py.lookup "totalTokens" u = Some (VInt (c_total d)) /\
    new_cycles data = VInt (c_cycles d) /\
    latency_ms data = VInt (c_latency d).
Proof.
  unfold deltas_of_data.
  destruct (token_delta data) as [| | | | | u] eqn:Htd; try discriminate.
  destruct (Py.lookup "inputTokens" u) as [[| | i | | |] |] eqn:Hi; try discriminate.
  destruct (Py.lookup "outputTokens" u) as [[| | o | | |] |] eqn:Ho; try discriminate.
  destruct (Py.lookup "totalTokens" u) as [[| | t | | |] |] eqn:Ht; try discriminate.
  destruct (new_cycles data) as [| | c | | |] eqn:Hc; try discriminate.
  destruct (latency_ms data) as [| | l | | |] eqn:Hl; try discriminate.
  simpl. intros H. inversion H; subst; simpl. exists u. repeat split; assumption.
Qed.

Lemma token_counts_of_deltas data d :
  deltas_of_data data = Some d ->
  token_counts_of data =
  Ok {| prompt_tokens := VInt (c_input d); completion_tokens := VInt (c_output d);
        total_tokens := VInt (c_total d) |}.
Proof.
  intros H. apply deltas_of_data_inv in H as (u & Htd & Hi & Ho & Ht & _).
  unfold token_counts_of. rewrite Htd. simpl. rewrite Hi, Ho, Ht. reflexivity.
Qed.

Lemma returned_record_fields
    (now : Z) (response : agent_response) (msg_id : option string)
    (agent_arg : option agent) (st : engine_state) (summary : pyval)
    (cur : counters) (prev : option counters) (u : ui_record) :
  metrics response = Some (Ok {| get_summary := Ok summary |}) ->
  carries summary cur ->
  previous_counters agent_arg st prev ->
  fst (extract_strands_trace_data now response msg_id agent_arg st) = Ok (Some u) ->
  ui_total_tokens u =
    {| prompt_tokens := VInt (c_input (spec_delta cur prev));
       completion_tokens := VInt (c_output (spec_delta cur prev));
       total_tokens := VInt (c_total (spec_delta cur prev)) |} /\
  gen_ai_usage_prompt_tokens (attributes_of_agent u) = VInt (c_input (spec_delta cur prev)) /\
  gen_ai_usage_completion_tokens (attributes_of_agent u) =
    VInt (c_output (spec_delta cur prev)) /\
  gen_ai_usage_total_tokens (attributes_of_agent u) = VInt (c_total (spec_delta cur prev)) /\
  total_duration_ms u = VInt (c_latency (spec_delta cur prev)) /\
  debug_new_cycles (ui_debug_info u) = VInt (c_cycles (spec_delta cur prev)) /\
  ui_metrics_summary u = summary.
Proof.
  intros Hm Hcar Hprev Hret.
  apply extract_returned_inv in Hret as (summary' & data & Hm' & Hcalc & Hconv).
  rewrite Hm in Hm'. inversion Hm'; subst summary'.
  destruct (calculate_returned _ _ _ _ _ _ _ Hcar Hprev Hcalc) as (Hd & _).
  assert (Hd' : deltas_of_data (with_summary data summary) = Some (spec_delta cur prev))
    by exact Hd.
  pose proof (token_counts_of_deltas _ _ Hd') as Hcounts.
  apply deltas_of_data_inv in Hd' as (u0 & _ & _ & _ & _ & Hnc & Hlat). simpl in Hnc, Hlat.
  apply convert_structure in Hconv
    as (name & traces & built & counts & _ & _ & _ & Hcounts' & _ & _ & _ & _
        & Hp & Hc & Ht & Htot & Hdur & Hcyc & _ & Hsum).
  rewrite Hcounts in Hcounts'. injection Hcounts' as Heq.
  rewrite <- Heq in Hp, Hc, Ht, Htot.
  rewrite Htot, Hp, Hc, Ht, Hdur, Hcyc, Hsum. simpl. rewrite Hnc, Hlat.
  repeat split.
Qed.

(** X6. The record returned by the main entry point shows the deltas of
    the observation: for a summary reporting [cur] and a previous
    snapshot [prev] (none without agent object or for an unseen agent),
    the three token counts, in [total_tokens] and in the agent attributes
    alike, the total duration and the number of new cycles are the
    current value without snapshot and [max(0, current - previous)] with
    one; the summary itself is attached unchanged. *)
Theorem record_shows_deltas
    (now : Z) (response : agent_response) (msg_id : option string)
    (agent_arg : option agent) (st : engine_state) (summary : pyval)
    (cur : counters) (prev : option counters) (u : ui_record) :
  metrics response = Some (Ok {| get_summary := Ok summary |}) ->
  carries summary cur ->
  previous_counters agent_arg st prev ->
  fst (extract_strands_trace_data now response msg_id agent_arg st) = Ok (Some u) ->
  ui_total_tokens u =
    {| prompt_tokens := VInt (c_input (spec_delta cur prev));
       completion_tokens := VInt (c_output (spec_delta cur prev));
       total_tokens := VInt (c_total (spec_delta cur prev)) |} /\
  gen_ai_usage_prompt_tokens (attributes_of_agent u) = VInt (c_input (spec_delta cur prev)) /\
  gen_ai_usage_completion_tokens (attributes_of_agent u) =
    VInt (c_output (spec_delta cur prev)) /\
  gen_ai_usage_total_tokens (attributes_of_agent u) = VInt (c_total (spec_delta cur prev)) /\
  total_duration_ms u = VInt (c_latency (spec_delta cur prev)) /\
  debug_new_cycles (ui_debug_info u) = VInt (c_cycles (spec_delta cur prev)) /\
  ui_metrics_summary u = summary.
Proof. apply returned_record_fields. Qed.

(** The second turn of the specification's example through the entry
    point. *)
Lemma record_shows_deltas_witness :
  exists u,
    fst (extract_strands_trace_data 1 (response_of (summary_of 18 9 27 3 450 [])) None
           (Some sample_agent)
           (tracked_state {| c_input := 10; c_output := 5; c_total := 15;
                             c_cycles := 2; c_latency := 300 |})) = Ok (Some u) /\
    ui_total_tokens u =
      {| prompt_tokens := VInt 8; completion_tokens := VInt 4; total_tokens := VInt 12 |} /\
    total_duration_ms u = VInt 150 /\
    debug_new_cycles (ui_debug_info u) = VInt 1.
Proof.
  eexists. split; [vm_compute; reflexivity |].
  match goal with |- ui_total_tokens ?u = _ /\ _ =>
    destruct (record_shows_deltas 1 (response_of (summary_of 18 9 27 3 450 [])) None
                (Some sample_agent)
                (tracked_state {| c_input := 10; c_output := 5; c_total := 15;
                                  c_cycles := 2; c_latency := 300 |})
                (summary_of 18 9 27 3 450 [])
                {| c_input := 18; c_output := 9; c_total := 27; c_cycles := 3;
                   c_latency := 450 |}
                (Some {| c_input := 10; c_output := 5; c_total := 15; c_cycles := 2;
                         c_latency := 300 |}) u)
      as (Htot & _ & _ & _ & Hdur & Hcyc & _)
  end.
  - reflexivity.
  - unfold carries, summary_of, usage_of. repeat eexists.
  - reflexivity.
  - vm_compute. reflexivity.
  - split; [exact Htot |]. split; [exact Hdur | exact Hcyc].
Defined.

Lemma build_cycle_inv text name data i trace cyc call :
  build_cycle text name data i trace = Ok (cyc, call) ->
  model call = name /\
  call_completion call = completion cyc /\
  call_duration_ms call = duration_ms cyc /\
  call_id call = "llm_" +:+ Py.str (cycle_id cyc) /\
  token_share data "inputTokens" = Ok (prompt_tokens (tokens call)) /\
  token_share data "outputTokens" = Ok (completion_tokens (tokens call)) /\
  token_share data "totalTokens" = Ok (total_tokens (tokens call)).
Proof.
  unfold build_cycle. intros H.
  destruct (Py.get trace "id" _) as [cid | e]; [| discriminate].
  unfold mbind at 1, res_bind at 1 in H.
  destruct (Py.get trace "children" (VList [])) as [cv | e]; [| discriminate].
  unfold mbind at 1, res_bind at 1 in H.
  destruct (Py.iter cv) as [children | e]; [| discriminate].
  unfold mbind at 1, res_bind at 1 in H.
  destruct (foldM completion_child children EmptyString) as [ct | e]; [| discriminate].
  unfold mbind at 1, res_bind at 1 in H.
  destruct (duration_ms_of trace) as [dur | e]; [| discriminate].
  unfold mbind at 1, res_bind at 1 in H.
  destruct (token_share data "inputTokens") as [p | e]; [| discriminate].
  unfold mbind at 1, res_bind at 1 in H.
  destruct (token_share data "outputTokens") as [c | e]; [| discriminate].
  unfold mbind at 1, res_bind at 1 in H.
  destruct (token_share data "totalTokens") as [t | e]; [| discriminate].
  simpl in H. inversion H; subst; simpl. repeat split.
Qed.

(** The cycles and LLM calls built for a list of traces: one of each per
    trace, the call repeating the model, completion and duration of its
    cycle and carrying the even share of each token delta. *)
Lemma build_cycles_shape text name data traces :
  forall i built,
    build_cycles text name data i traces = Ok built ->
    length (fst built) = length traces /\
    length (snd built) = length traces /\
    Forall2 (fun cyc call =>
               model call = name /\
               call_completion call = completion cyc /\
               call_duration_ms call = duration_ms cyc /\
               call_id call = "llm_" +:+ Py.str (cycle_id cyc))
            (fst built) (snd built) /\
    Forall (fun call =>
              token_share data "inputTokens" = Ok (prompt_tokens (tokens call)) /\
              token_share data "outputTokens" = Ok (completion_tokens (tokens call)) /\
              token_share data "totalTokens" = Ok (total_tokens (tokens call)))
           (snd built).
Proof.
  induction traces as [| trace rest IH]; intros i built H; simpl in H.
  - inversion H; subst; simpl. repeat split; constructor.
  - destruct (build_cycle text name data i trace) as [[cyc call] | e] eqn:Hone;
      [| discriminate].
    unfold mbind at 1, res_bind at 1 in H.
    destruct (build_cycles text name data (i + 1) rest) as [more | e] eqn:Hmore;
      [| discriminate].
    simpl in H. inversion H; subst; simpl.
    destruct (IH _ _ Hmore) as (Hl1 & Hl2 & Hpairs & Htok).
    destruct (build_cycle_inv _ _ _ _ _ _ _ Hone) as (Hm & Hc & Hd & Hid & Hp & Ho & Ht).
    repeat split; try (f_equal; assumption).
    + constructor; [repeat split; assumption | exact Hpairs].
    + constructor; [repeat split; assumption | exact Htok].
Qed.

(** X7. A record built by [convert_to_ui_format] has exactly one cycle and
    one LLM call per new trace, in the same order; each LLM call repeats
    the completion and the duration of its cycle, is named after the
    cycle's id, and names the model shown in the agent attributes; and
    there is one converted tool call per extracted tool call. *)
Theorem view_has_one_cycle_per_trace
    (now : Z) (response : agent_response) (data : per_message_data) (mid : string)
    (agent_arg : option agent) (u : ui_record) :
  convert_to_ui_format now response data mid agent_arg = Ok u ->
  exists traces,
    Py.iter (new_traces data) = Ok traces /\
    length (ui_cycles u) = length traces /\
    length (ui_llm_calls u) = length traces /\
    Forall2 (fun cyc call =>
               model call = gen_ai_request_model (attributes_of_agent u) /\
               call_completion call = completion cyc /\
               call_duration_ms call = duration_ms cyc /\
               call_id call = "llm_" +:+ Py.str (cycle_id cyc))
            (ui_cycles u) (ui_llm_calls u) /\
    length (ui_tool_calls u) = length (tool_calls data).
Proof.
  intros H.
  apply convert_structure in H
    as (name & traces & built & counts & _ & Hiter & Hbuilt & _ & Hcyc & Hllm & Htools
        & Hmodel & _).
  destruct (build_cycles_shape _ _ _ _ _ _ Hbuilt) as (Hl1 & Hl2 & Hpairs & _).
  exists traces. rewrite Hcyc, Hllm, Htools, Hmodel, length_map.
  repeat split; assumption.
Qed.

(** One trace with one tool call. *)
Lemma view_has_one_cycle_per_trace_witness :
  exists u,
    convert_to_ui_format 0 (response_of VNone) sample_data "m1" None = Ok u /\
    exists traces,
      Py.iter (new_traces sample_data) = Ok traces /\
      length (ui_cycles u) = length traces /\
      length (ui_llm_calls u) = length traces /\
      Forall2 (fun cyc call =>
                 model call = gen_ai_request_model (attributes_of_agent u) /\
                 call_completion call = completion cyc /\
                 call_duration_ms call = duration_ms cyc /\
                 call_id call = "llm_" +:+ Py.str (cycle_id cyc))
              (ui_cycles u) (ui_llm_calls u) /\
      length (ui_tool_calls u) = length (tool_calls sample_data).
Proof.
  eexists. split; [vm_compute; reflexivity |].
  apply (view_has_one_cycle_per_trace 0 (response_of VNone) sample_data "m1" None).
  vm_compute. reflexivity.
Defined.

Lemma slice_list_length {A : Type} (l : list A) (p c : Z) :
  Z.of_nat (length (Py.slice_list l p (Some c))) <= Z.of_nat (length l) /\
  (0 <= p -> 0 <= c ->
   Z.of_nat (length (Py.slice_list l p (Some c))) <= Z.max 0 (c - p)).
Proof.
  unfold Py.slice_list. rewrite length_take, length_drop. unfold Py.clamp_index.
  split.
  - lia.
  - intros Hp Hc.
    destruct (Z.ltb_spec p 0); [lia |]. destruct (Z.ltb_spec c 0); lia.
Qed.

Lemma returned_cycles_bound
    (now : Z) (response : agent_response) (msg_id : option string)
    (agent_arg : option agent) (st : engine_state) (summary : pyval)
    (cur : counters) (prev : option counters) (tr : list pyval) (u : ui_record) :
  metrics response = Some (Ok {| get_summary := Ok summary |}) ->
  carries summary cur ->
  previous_counters agent_arg st prev ->
  0 <= c_cycles cur ->
  0 <= match prev with Some p => c_cycles p | None => 0 end ->
  Py.get summary "traces" (VList []) = Ok (VList tr) ->
  fst (extract_strands_trace_data now response msg_id agent_arg st) = Ok (Some u) ->
  Z.of_nat (length (ui_cycles u)) <= c_cycles (spec_delta cur prev) /\
  length (ui_llm_calls u) = length (ui_cycles u) /\
  (length (ui_cycles u) <= length tr)%nat.
Proof.
  intros Hm Hcar Hprev Hcur Hprevc Htr Hret.
  apply extract_returned_inv in Hret as (summary' & data & Hm' & Hcalc & Hconv).
  rewrite Hm in Hm'. inversion Hm'; subst summary'.
  destruct (carries_gets summary cur Hcar)
    as (d0 & u0 & m & -> & _ & Hc & _).
  apply calculate_new_traces in Hcalc as (cc & tr' & Hc' & Htr' & Hslice & _).
  rewrite Hc in Hc'. inversion Hc'; subst cc.
  rewrite Htr in Htr'. inversion Htr'; subst tr'.
  assert (Hidx : match agent_arg with
                 | Some a =>
                     match _agent_snapshots st !! agent_id a with
                     | Some p => cycles p
                     | None => VInt 0
                     end
                 | None => VInt 0
                 end = VInt (match prev with Some p => c_cycles p | None => 0 end)).
  { destruct agent_arg as [a |]; simpl in Hprev.
    - rewrite Hprev. destruct prev; reflexivity.
    - subst prev. reflexivity. }
  rewrite Hidx, slice_new_traces_list in Hslice. inversion Hslice as [Hnt].
  apply convert_structure in Hconv
    as (name & traces & built & counts & _ & Hiter & Hbuilt & _ & Hcyc & Hllm & _).
  destruct (build_cycles_shape _ _ _ _ _ _ Hbuilt) as (Hl1 & Hl2 & _).
  rewrite <- Hcyc in Hl1. rewrite <- Hllm in Hl2.
  simpl in Hiter. rewrite <- Hnt in Hiter. simpl in Hiter. inversion Hiter as [Htraces].
  rewrite Hl2, Hl1, <- Htraces.
  set (p := match prev with Some p => c_cycles p | None => 0 end) in *.
  destruct (slice_list_length tr p (c_cycles cur)) as [Hlen Hbound].
  specialize (Hbound Hprevc Hcur).
  assert (Hdelta : Z.max 0 (c_cycles cur - p) <= c_cycles (spec_delta cur prev)).
  { subst p. destruct prev as [q |]; simpl; lia. }
  destruct (p <? Z.of_nat (length tr)); simpl; repeat split; lia.
Qed.

(** X8. The record returned by the main entry point never shows more
    cycles than the observation attributes to the turn: when the cycle
    counts are non-negative and the summary's traces are a list, the
    number of cycles (and of LLM calls) of the record is at most the
    cycle delta, and at most the length of the trace list. *)
Theorem record_cycles_within_delta
    (now : Z) (response : agent_response) (msg_id : option string)
    (agent_arg : option agent) (st : engine_state) (summary : pyval)
    (cur : counters) (prev : option counters) (tr : list pyval) (u : ui_record) :
  metrics response = Some (Ok {| get_summary := Ok summary |}) ->
  carries summary cur ->
  previous_counters agent_arg st prev ->
  0 <= c_cycles cur ->
  0 <= match prev with Some p => c_cycles p | None => 0 end ->
  Py.get summary "traces" (VList []) = Ok (VList tr) ->
  fst (extract_strands_trace_data now response msg_id agent_arg st) = Ok (Some u) ->
  Z.of_nat (length (ui_cycles u)) <= c_cycles (spec_delta cur prev) /\
  length (ui_llm_calls u) = length (ui_cycles u) /\
  (length (ui_cycles u) <= length tr)%nat.
Proof. apply returned_cycles_bound. Qed.

(** A second turn whose summary lists three traces while the cycle count
    went from 2 to 3: one cycle is shown. *)
Lemma record_cycles_within_delta_witness :
  exists u,
    fst (extract_strands_trace_data 1
           (response_of (summary_of 18 9 27 3 450
                           [cycle_with_tool "t1" ["1"]; cycle_with_tool "t2" ["2"];
                            cycle_with_tool "t3" ["3"]]))
           None (Some sample_agent)
           (tracked_state {| c_input := 10; c_output := 5; c_total := 15;
                             c_cycles := 2; c_latency := 300 |})) = Ok (Some u) /\
    Z.of_nat (length (ui_cycles u)) <= 1 /\
    length (ui_llm_calls u) = length (ui_cycles u) /\
    (length (ui_cycles u) <= 3)%nat.
Proof.
  eexists. split; [vm_compute; reflexivity |].
  apply (record_cycles_within_delta 1
           (response_of (summary_of 18 9 27 3 450
                           [cycle_with_tool "t1" ["1"]; cycle_with_tool "t2" ["2"];
                            cycle_with_tool "t3" ["3"]]))
           None (Some sample_agent)
           (tracked_state {| c_input := 10; c_output := 5; c_total := 15;
                             c_cycles := 2; c_latency := 300 |})
           (summary_of 18 9 27 3 450
              [cycle_with_tool "t1" ["1"]; cycle_with_tool "t2" ["2"];
               cycle_with_tool "t3" ["3"]])
           {| c_input := 18; c_output := 9; c_total := 27; c_cycles := 3; c_latency := 450 |}
           (Some {| c_input := 10; c_output := 5; c_total := 15; c_cycles := 2;
                    c_latency := 300 |})
           [cycle_with_tool "t1" ["1"]; cycle_with_tool "t2" ["2"];
            cycle_with_tool "t3" ["3"]]).
  - reflexivity.
  - unfold carries, summary_of, usage_of. repeat eexists.
  - reflexivity.
  - simpl. lia.
  - simpl. lia.
  - reflexivity.
  - vm_compute. reflexivity.
Defined.

(** ** The walk over the traces *)

Lemma foldM_app {A B : Type} (step : B -> A -> res B) (xs ys : list A) (acc : B) :
  foldM step (xs ++ ys) acc =
  match foldM step xs acc with
  | Ok acc' => foldM step ys acc'
  | Raise e => Raise e
  end.
Proof.
  revert acc. induction xs as [| x rest IH]; intros acc; simpl; [reflexivity |].
  destruct (step acc x); [apply IH | reflexivity].
Qed.

Lemma app_extracted_nil_r (x : extracted) : app_extracted x ([], []) = x.
Proof. destruct x. unfold app_extracted. simpl. rewrite !app_nil_r. reflexivity. Qed.

Lemma app_extracted_assoc (x y z : extracted) :
  app_extracted (app_extracted x y) z = app_extracted x (app_extracted y z).
Proof. unfold app_extracted. simpl. rewrite !app_assoc. reflexivity. Qed.

Lemma foldM_appends_only {A : Type} (step : extracted -> A -> res extracted) :
  appends_only step ->
  forall xs acc,
    foldM step xs acc =
    match foldM step xs ([], []) with
    | Ok r => Ok (app_extracted acc r)
    | Raise e => Raise e
    end.
Proof.
  intros Hstep. induction xs as [| x rest IH]; intros acc; simpl.
  - rewrite app_extracted_nil_r. reflexivity.
  - rewrite (Hstep acc x). destruct (step ([], []) x) as [r | e]; [| reflexivity].
    rewrite (IH (app_extracted acc r)), (IH r).
    destruct (foldM step rest ([], [])) as [q | e]; [| reflexivity].
    rewrite app_extracted_assoc. reflexivity.
Qed.

Lemma extract_item_appends children : appends_only (extract_item children).
Proof.
  intros acc item. unfold extract_item.
  destruct (Py.is_dict_with item "text").
  - destruct (Py.getitem item "text"); simpl; [| reflexivity].
    unfold app_extracted. simpl. rewrite app_nil_r. reflexivity.
  - destruct (Py.is_dict_with item "toolUse").
    + destruct (tool_call_of children item); simpl; [| reflexivity].
      unfold app_extracted. simpl. rewrite app_nil_r. reflexivity.
    + rewrite app_extracted_nil_r. reflexivity.
Qed.

Lemma extract_child_appends children : appends_only (extract_child children).
Proof.
  intros acc child. unfold extract_child.
  destruct (is_assistant_step child) as [[|] | e]; simpl.
  - destruct (assistant_content child) as [content | e]; simpl; [| reflexivity].
    apply foldM_appends_only, extract_item_appends.
  - rewrite app_extracted_nil_r. reflexivity.
  - reflexivity.
Qed.

Lemma extract_trace_appends : appends_only extract_trace.
Proof.
  intros acc trace. unfold extract_trace.
  destruct (Py.get trace "children" (VList [])) as [cv | e]; simpl; [| reflexivity].
  destruct (Py.iter cv) as [children | e]; simpl; [| reflexivity].
  apply foldM_appends_only, extract_child_appends.
Qed.

(** X9. The extraction works trace by trace: what is extracted from a
    list of traces is what is extracted from a first part followed by what
    is extracted from the rest, texts and tool calls in order, and it
    raises exactly when one of the parts does.  In particular a tool call
    is joined with a result of its own trace only. *)
Theorem extraction_distributes_over_traces (ts1 ts2 : list pyval) :
  extract_contents (VList (ts1 ++ ts2)) =
  match extract_contents (VList ts1) with
  | Ok r1 =>
      match extract_contents (VList ts2) with
      | Ok r2 => Ok (app_extracted r1 r2)
      | Raise e => Raise e
      end
  | Raise e => Raise e
  end.
Proof.
  unfold extract_contents. simpl. rewrite foldM_app.
  destruct (foldM extract_trace ts1 ([], [])) as [r1 | e]; [| reflexivity].
  apply (foldM_appends_only extract_trace extract_trace_appends).
Qed.

(** A tool use and its result in two different traces are not joined. *)
Example tool_result_in_another_trace :
  extract_contents
    (VList [VDict [("children", VList [assistant_child [tool_use_block "t1"]])];
            VDict [("children", VList [tool_child "t1" ["42"]])]]) =
  Ok ([], [{| tc_id := VStr "t1"; tc_name := VStr "calculator";
              tc_parameters := VDict [("expression", VStr "6*7")];
              tc_result := VStr "" |}]).
Proof. reflexivity. Qed.

Lemma find_tool_result_no_match children tool_id :
  Forall (fun c => is_tool_sibling c tool_id = Ok false) children ->
  find_tool_result children tool_id = Ok (VStr "").
Proof.
  induction 1 as [| c rest Hc _ IH]; simpl; [reflexivity |].
  rewrite Hc. simpl. exact IH.
Qed.

(** X10. A tool use that no sibling matches is not an error: if none of
    the children of the trace has both a name containing "Tool:" and the
    tool-use id of the block in its metadata, the record is built with
    the id, name and input of the block and the empty string as result. *)
Theorem unmatched_tool_use_has_empty_result
    (children : list pyval) (block tu : list (string * pyval)) :
  Py.lookup "toolUse" block = Some (VDict tu) ->
  Forall (fun c => is_tool_sibling c (default (VStr "") (Py.lookup "toolUseId" tu)) = Ok false)
         children ->
  tool_call_of children (VDict block) =
  Ok {| tc_id := default (VStr "") (Py.lookup "toolUseId" tu);
        tc_name := default (VStr "unknown") (Py.lookup "name" tu);
        tc_parameters := default (VDict []) (Py.lookup "input" tu);
        tc_result := VStr "" |}.
Proof.
  intros Hblock Hnone.
  unfold tool_call_of, Py.getitem. rewrite Hblock.
  unfold mbind at 1, res_bind at 1. rewrite !get_dict.
  unfold mbind at 1, res_bind at 1.
  unfold mbind at 1, res_bind at 1.
  unfold mbind at 1, res_bind at 1.
  rewrite (find_tool_result_no_match _ _ Hnone). reflexivity.
Qed.

(** A tool use without id or name next to the result of another call. *)
Lemma unmatched_tool_use_has_empty_result_witness :
  tool_call_of [assistant_child [VDict [("toolUse", VDict [])]]; tool_child "t2" ["42"]]
    (VDict [("toolUse", VDict [])]) =
  Ok {| tc_id := VStr ""; tc_name := VStr "unknown"; tc_parameters := VDict [];
        tc_result := VStr "" |}.
Proof.
  apply (unmatched_tool_use_has_empty_result
           [assistant_child [VDict [("toolUse", VDict [])]]; tool_child "t2" ["42"]]
           [("toolUse", VDict [])] []).
  - reflexivity.
  - repeat constructor.
Defined.

(** ** The entry points side by side *)

(** X11. [get_trace_data] never uses the snapshot table: it leaves it
    unchanged, and a record it returns for a summary reporting [cur]
    shows [cur] itself as token counts, duration and new cycles, whatever
    is tracked for any agent; the record carries the message as
    [message_text] and the generated message id. *)
Theorem get_trace_data_reports_cumulative
    (message_hash now_ms now : Z) (response : agent_response) (message : string)
    (st : engine_state) (summary : pyval) (cur : counters) (u : ui_record) :
  metrics response = Some (Ok {| get_summary := Ok summary |}) ->
  carries summary cur ->
  fst (get_trace_data message_hash now_ms now response message st) = Ok (Some u) ->
  ui_total_tokens u =
    {| prompt_tokens := VInt (c_input cur); completion_tokens := VInt (c_output cur);
       total_tokens := VInt (c_total cur) |} /\
  total_duration_ms u = VInt (c_latency cur) /\
  debug_new_cycles (ui_debug_info u) = VInt (c_cycles cur) /\
  message_text u = message /\
  message_id u = generated_message_id message_hash now_ms /\
  _agent_snapshots (snd (get_trace_data message_hash now_ms now response message st)) =
    _agent_snapshots st.
Proof.
  intros Hm Hcar. unfold get_trace_data. unfold mbind, M_bind.
  pose proof (no_identity_snapshots_kept now response
                (Some (generated_message_id message_hash now_ms)) st) as Hkeep.
  pose proof (returned_record_fields now response
                (Some (generated_message_id message_hash now_ms)) None st summary cur None)
    as Hshow.
  pose proof (extract_returned_inv now response
                (Some (generated_message_id message_hash now_ms)) None st) as Hinv.
  destruct (extract_strands_trace_data now response
              (Some (generated_message_id message_hash now_ms)) None st)
    as [[[u0 |] | e] st1]; simpl in *; try discriminate.
  intros Hret. inversion Hret; subst u. simpl.
  destruct (Hshow u0 Hm Hcar eq_refl eq_refl) as (Htot & _ & _ & _ & Hdur & Hcyc & _).
  destruct (Hinv u0 eq_refl) as (summary' & data & _ & _ & Hconv).
  apply convert_structure in Hconv
    as (name & traces & built & counts & _ & _ & _ & _ & _ & _ & _ & _ & _ & _ & _ & _
        & _ & _ & Hid & _).
  repeat split; first [assumption | exact Hid].
Qed.

(** A call for a response with cumulative (18, 9, 27, 3, 450) while
    [sample_agent] is tracked at (10, 5, 15, 2, 300). *)
Lemma get_trace_data_reports_cumulative_witness :
  exists u,
    fst (get_trace_data 123456 7 7000 (response_of (summary_of 18 9 27 3 450 [])) "hello"
           (tracked_state {| c_input := 10; c_output := 5; c_total := 15;
                             c_cycles := 2; c_latency := 300 |})) = Ok (Some u) /\
    ui_total_tokens u =
      {| prompt_tokens := VInt 18; completion_tokens := VInt 9; total_tokens := VInt 27 |} /\
    message_text u = "hello" /\
    message_id u = "msg_23456_7".
Proof.
  eexists. split; [vm_compute; reflexivity |].
  match goal with |- ui_total_tokens ?u = _ /\ _ =>
    destruct (get_trace_data_reports_cumulative 123456 7 7000
                (response_of (summary_of 18 9 27 3 450 [])) "hello"
                (tracked_state {| c_input := 10; c_output := 5; c_total := 15;
                                  c_cycles := 2; c_latency := 300 |})
                (summary_of 18 9 27 3 450 [])
                {| c_input := 18; c_output := 9; c_total := 27; c_cycles := 3;
                   c_latency := 450 |} u)
      as (Htot & _ & _ & Htext & Hid & _)
  end.
  - reflexivity.
  - unfold carries, summary_of, usage_of. repeat eexists.
  - vm_compute. reflexivity.
  - split; [exact Htot |]. split; [exact Htext | exact Hid].
Defined.

Lemma direct_result now response msg_id st summary :
  metrics response = Some (Ok {| get_summary := Ok summary |}) ->
  fst (extract_direct_metrics_from_response now response msg_id st) =
  Ok (match direct_metrics_of summary with
      | Ok data =>
          match convert_to_ui_format now response data
                  (message_id_or_default now msg_id) None with
          | Ok ui => Some ui
          | Raise _ => None
          end
      | Raise _ => None
      end).
Proof.
  intros Hm. unfold extract_direct_metrics_from_response. rewrite Hm. unfold_M.
  destruct (direct_metrics_of summary) as [data | e]; [| reflexivity].
  destruct (convert_to_ui_format _ _ _ _ _); reflexivity.
Qed.

(** The outcome of [calculate_per_message_metrics] once the counters are
    read, the agent tracked, the totals updated and the traces sliced: it
    is decided by the walk over the slice. *)
Lemma calculate_result summary agent_obj st cu cc am cl du dc dl prev st1 d tr nt tu :
  Py.get summary "accumulated_usage" (VDict []) = Ok cu ->
  Py.get summary "total_cycles" (VInt 0) = Ok cc ->
  Py.get summary "accumulated_metrics" (VDict []) = Ok am ->
  Py.get am "latencyMs" (VInt 0) = Ok cl ->
  track_agent agent_obj cu cc cl st = (Ok (du, dc, dl, prev), st1) ->
  totals_ready st1 ->
  added_numbers du dc dl = Some d ->
  Py.get summary "traces" (VList []) = Ok tr ->
  slice_new_traces tr (match prev with Some p => cycles p | None => VInt 0 end) cc = Ok nt ->
  Py.get summary "tool_usage" (VDict []) = Ok tu ->
  fst (calculate_per_message_metrics summary agent_obj st) =
  match extract_contents nt with
  | Ok ex =>
      Ok {| token_delta := du; new_cycles := dc; latency_ms := dl;
            message_contents := fst ex; tool_calls := snd ex; tool_usage := tu;
            new_traces := nt; metrics_summary := summary |}
  | Raise e => Raise e
  end.
Proof.
  intros Hu Hc Ham Hl Htrack Hready Hnum Htr Hslice Htu.
  unfold calculate_per_message_metrics.
  unfold mbind at 1, M_bind at 1, lift at 1. rewrite Hu.
  unfold mbind at 1, M_bind at 1, lift at 1. rewrite Hc.
  unfold mbind at 1, M_bind at 1, lift at 1. rewrite Ham.
  unfold mbind at 1, M_bind at 1, lift at 1. rewrite Hl.
  unfold mbind at 1, M_bind at 1. rewrite Htrack.
  unfold mbind at 1, M_bind at 1.
  rewrite (accumulate_session_ok du dc dl d st1 Hready Hnum).
  unfold mbind at 1, M_bind at 1, lift at 1. rewrite Htr.
  unfold mbind at 1, M_bind at 1, lift at 1. rewrite Hslice.
  unfold mbind at 1, M_bind at 1, lift at 1.
  destruct (extract_contents nt) as [ex | e]; [| reflexivity].
  unfold mbind at 1, M_bind at 1, lift at 1. rewrite Htu. reflexivity.
Qed.

(** The view builder reads [token_delta] through its three token keys
    only. *)
Lemma convert_reads_three_tokens now response data td mid agent_arg :
  Py.getitem td "inputTokens" = Py.getitem (token_delta data) "inputTokens" ->
  Py.getitem td "outputTokens" = Py.getitem (token_delta data) "outputTokens" ->
  Py.getitem td "totalTokens" = Py.getitem (token_delta data) "totalTokens" ->
  convert_to_ui_format now response (with_token_delta data td) mid agent_arg =
  convert_to_ui_format now response data mid agent_arg.
Proof.
  intros Hi Ho Ht.
  assert (Hshare : forall k, In k token_keys ->
                             token_share (with_token_delta data td) k = token_share data k).
  { intros k Hk. unfold token_share. simpl.
    unfold token_keys in Hk. simpl in Hk.
    destruct Hk as [<- | [<- | [<- | []]]]; [rewrite Hi | rewrite Ho | rewrite Ht];
      reflexivity. }
  assert (Hcycle : forall text name i trace,
             build_cycle text name (with_token_delta data td) i trace =
             build_cycle text name data i trace).
  { intros. unfold build_cycle.
    rewrite !Hshare by (unfold token_keys; simpl; tauto). reflexivity. }
  assert (Hcycles : forall text name traces i,
             build_cycles text name (with_token_delta data td) i traces =
             build_cycles text name data i traces).
  { intros text name traces. induction traces as [| trace rest IH]; intros i; simpl.
    - reflexivity.
    - rewrite Hcycle, IH. reflexivity. }
  unfold convert_to_ui_format, token_counts_of.
  destruct (derive_model_name agent_arg) as [name | e]; [| reflexivity].
  unfold with_token_delta in *. simpl.
  destruct (Py.iter (new_traces data)) as [traces | e]; [| reflexivity].
  simpl. rewrite Hcycles, Hi, Ho, Ht. reflexivity.
Qed.

Lemma slice_from_zero_all (tr : list pyval) (c : Z) :
  Z.of_nat (length tr) <= c ->
  slice_new_traces (VList tr) (VInt 0) (VInt c) = Ok (VList tr).
Proof.
  intros Hlen. rewrite slice_new_traces_list.
  destruct (Z.ltb_spec 0 (Z.of_nat (length tr))) as [Hpos | Hzero].
  - assert (Hs : Py.slice_list tr 0 (Some c) = tr).
    { replace c with (Z.of_nat (Z.to_nat c)) by lia.
      change (Py.slice_list tr (Z.of_nat 0) (Some (Z.of_nat (Z.to_nat c))) = tr).
      rewrite slice_list_nat, drop_0, take_ge by lia. reflexivity. }
    rewrite Hs. reflexivity.
  - destruct tr; [reflexivity | simpl in Hzero; lia].
Qed.

(** X12. For a call without agent object the two entry points agree: when
    the session totals are in place and the summary, reporting integer
    counters, lists no more traces than its cycle count, the main entry
    point and the companion entry point return the same result, record
    for record and null for null. *)
Theorem no_identity_call_agrees_with_companion
    (now : Z) (response : agent_response) (msg_id : option string)
    (st : engine_state) (summary : pyval) (cur : counters) (tr : list pyval) :
  metrics response = Some (Ok {| get_summary := Ok summary |}) ->
  carries summary cur ->
  totals_ready st ->
  Py.get summary "traces" (VList []) = Ok (VList tr) ->
  Z.of_nat (length tr) <= c_cycles cur ->
  fst (extract_strands_trace_data now response msg_id None st) =
  fst (extract_direct_metrics_from_response now response msg_id st).
Proof.
  intros Hm Hcar Hready Htr Hlen.
  rewrite (extract_result _ _ _ _ _ _ Hm), (direct_result _ _ _ _ _ Hm).
  destruct (carries_gets summary cur Hcar)
    as (d0 & u & m & -> & Hu & Hc & Ham & Hl & Hi & Ho & Ht).
  assert (Hnum : added_numbers (VDict u) (VInt (c_cycles cur)) (VInt (c_latency cur))
                 = Some cur).
  { unfold added_numbers. rewrite Hi, Ho, Ht. simpl. rewrite counters_eta. reflexivity. }
  rewrite (calculate_result _ None st _ _ _ _ _ _ _ _ _ _ _ _ _
             Hu Hc Ham Hl (track_agent_none _ _ _ st) Hready Hnum Htr
             (slice_from_zero_all tr _ Hlen) (get_dict d0 "tool_usage" (VDict []))).
  unfold direct_metrics_of. rewrite Hu, Hc, Ham.
  unfold mbind at 1, res_bind at 1. unfold mbind at 1, res_bind at 1.
  unfold mbind at 1, res_bind at 1. rewrite Hl.
  unfold mbind at 1, res_bind at 1. rewrite Htr.
  unfold mbind at 1, res_bind at 1.
  destruct (extract_contents (VList tr)) as [ex | e]; [| reflexivity].
  unfold mbind at 1, res_bind at 1. rewrite !get_dict, Hi, Ho, Ht.
  unfold mbind, res_bind. simpl default.
  f_equal.
  match goal with
  | |- context [convert_to_ui_format now response (with_summary ?dm ?s) ?mid None] =>
      change (with_summary dm s) with dm
  end.
  match goal with
  | |- match convert_to_ui_format _ _ ?dm _ _ with _ => _ end =
       match convert_to_ui_format _ _ ?dd _ _ with _ => _ end =>
      change dd with (with_token_delta dm (token_delta dd))
  end.
  rewrite convert_reads_three_tokens; [reflexivity | | |]; simpl;
    [rewrite Hi | rewrite Ho | rewrite Ht]; reflexivity.
Qed.

(** One cycle with a tool call, observed without agent object. *)
Lemma no_identity_call_agrees_with_companion_witness :
  fst (extract_strands_trace_data 0
         (response_of (summary_of 5 5 10 1 100 [cycle_with_tool "t1" ["42"]])) None None
         initial_state) =
  fst (extract_direct_metrics_from_response 0
         (response_of (summary_of 5 5 10 1 100 [cycle_with_tool "t1" ["42"]])) None
         initial_state).
Proof.
  apply (no_identity_call_agrees_with_companion 0
           (response_of (summary_of 5 5 10 1 100 [cycle_with_tool "t1" ["42"]])) None
           initial_state (summary_of 5 5 10 1 100 [cycle_with_tool "t1" ["42"]])
           {| c_input := 5; c_output := 5; c_total := 10; c_cycles := 1; c_latency := 100 |}
           [cycle_with_tool "t1" ["42"]]).
  - reflexivity.
  - unfold carries, summary_of, usage_of. repeat eexists.
  - exact initial_totals_ready.
  - reflexivity.
  - simpl. lia.
Defined.

(** With more traces than cycles the two differ: the main entry point
    shows the first [total_cycles] traces, the companion all of them. *)
Example more_traces_than_cycles :
  (exists u, fst (extract_strands_trace_data 0
                    (response_of (summary_of 5 5 10 1 100
                                    [cycle_with_tool "t1" ["1"]; cycle_with_tool "t2" ["2"]]))
                    None None initial_state) = Ok (Some u) /\ length (ui_cycles u) = 1%nat) /\
  (exists u, fst (extract_direct_metrics_from_response 0
                    (response_of (summary_of 5 5 10 1 100
                                    [cycle_with_tool "t1" ["1"]; cycle_with_tool "t2" ["2"]]))
                    None initial_state) = Ok (Some u) /\ length (ui_cycles u) = 2%nat).
Proof.
  split; eexists; (split; [vm_compute; reflexivity | reflexivity]).
Qed.

(** X13. The companion entry point reports the cumulative counters of the
    summary as they are, in every engine state: a record it returns for a
    summary reporting [cur] shows [cur] as token counts, duration and new
    cycles, and, no agent being passed on, the fallback model and the
    agent name "Strands Agent". *)
Theorem direct_record_shows_cumulative
    (now : Z) (response : agent_response) (msg_id : option string)
    (st : engine_state) (summary : pyval) (cur : counters) (u : ui_record) :
  metrics response = Some (Ok {| get_summary := Ok summary |}) ->
  carries summary cur ->
  fst (extract_direct_metrics_from_response now response msg_id st) = Ok (Some u) ->
  ui_total_tokens u =
    {| prompt_tokens := VInt (c_input cur); completion_tokens := VInt (c_output cur);
       total_tokens := VInt (c_total cur) |} /\
  total_duration_ms u = VInt (c_latency cur) /\
  debug_new_cycles (ui_debug_info u) = VInt (c_cycles cur) /\
  gen_ai_request_model (attributes_of_agent u) = fallback_model /\
  attr_agent_name (attributes_of_agent u) = VStr "Strands Agent".
Proof.
  intros Hm Hcar Hret.
  rewrite (direct_result _ _ _ _ _ Hm) in Hret.
  destruct (carries_gets summary cur Hcar)
    as (d0 & u0 & m & -> & Hu & Hc & Ham & Hl & Hi & Ho & Ht).
  unfold direct_metrics_of in Hret. rewrite Hu, Hc, Ham in Hret.
  unfold mbind at 1, res_bind at 1 in Hret. unfold mbind at 1, res_bind at 1 in Hret.
  unfold mbind at 1, res_bind at 1 in Hret. rewrite Hl in Hret.
  unfold mbind at 1, res_bind at 1 in Hret.
  destruct (Py.get (VDict d0) "traces" (VList [])) as [tr | e]; [| discriminate].
  unfold mbind at 1, res_bind at 1 in Hret.
  destruct (extract_contents tr) as [ex | e]; [| discriminate].
  unfold mbind at 1, res_bind at 1 in Hret. rewrite !get_dict, Hi, Ho, Ht in Hret.
  unfold mbind, res_bind in Hret. simpl default in Hret.
  destruct (convert_to_ui_format _ _ _ _ _) as [ui | e] eqn:Hconv; [| discriminate].
  inversion Hret; subst ui.
  unfold convert_to_ui_format in Hconv. simpl derive_model_name in Hconv.
  unfold mbind at 1, res_bind at 1 in Hconv.
  destruct (Py.iter _) as [traces | e]; [| discriminate].
  unfold mbind at 1, res_bind at 1 in Hconv.
  destruct (build_cycles _ _ _ _ _) as [built | e]; [| discriminate].
  simpl in Hconv. inversion Hconv; subst; simpl. repeat split.
Qed.

(** The companion call while another state is tracked. *)
Lemma direct_record_shows_cumulative_witness :
  exists u,
    fst (extract_direct_metrics_from_response 0 (response_of (summary_of 18 9 27 3 450 []))
           None
           (tracked_state {| c_input := 10; c_output := 5; c_total := 15;
                             c_cycles := 2; c_latency := 300 |})) = Ok (Some u) /\
    ui_total_tokens u =
      {| prompt_tokens := VInt 18; completion_tokens := VInt 9; total_tokens := VInt 27 |} /\
    gen_ai_request_model (attributes_of_agent u) = fallback_model.
Proof.
  eexists. split; [vm_compute; reflexivity |].
  match goal with |- ui_total_tokens ?u = _ /\ _ =>
    destruct (direct_record_shows_cumulative 0 (response_of (summary_of 18 9 27 3 450 []))
                None
                (tracked_state {| c_input := 10; c_output := 5; c_total := 15;
                                  c_cycles := 2; c_latency := 300 |})
                (summary_of 18 9 27 3 450 [])
                {| c_input := 18; c_output := 9; c_total := 27; c_cycles := 3;
                   c_latency := 450 |} u)
      as (Htot & _ & _ & Hmodel & _)
  end.
  - reflexivity.
  - unfold carries, summary_of, usage_of. repeat eexists.
  - vm_compute. reflexivity.
  - split; [exact Htot | exact Hmodel].
Defined.

(** ** Token shares and completions of the cycles *)

Lemma token_share_of_deltas data d :
  deltas_of_data data = Some d ->
  token_share data "inputTokens" = Ok (VInt (c_input d / Z.max 1 (c_cycles d))) /\
  token_share data "outputTokens" = Ok (VInt (c_output d / Z.max 1 (c_cycles d))) /\
  token_share data "totalTokens" = Ok (VInt (c_total d / Z.max 1 (c_cycles d))).
Proof.
  intros H. apply deltas_of_data_inv in H as (u & Htd & Hi & Ho & Ht & Hc & _).
  unfold token_share, Py.getitem, Py.max_with, Py.floordiv. rewrite Htd, Hi, Ho, Ht, Hc.
  simpl.
  destruct (Z.ltb_spec 1 (c_cycles d)) as [Hlt | Hge]; simpl.
  - destruct (Z.eqb_spec (c_cycles d) 0); [lia |].
    rewrite (Z.max_r 1 (c_cycles d)) by lia. repeat split.
  - rewrite (Z.max_l 1 (c_cycles d)) by lia. repeat split.
Qed.

Lemma shared_tokens_bound (field : token_counts -> pyval) (calls : list llm_call) (x m : Z) :
  0 <= x -> 0 < m ->
  Forall (fun call => field (tokens call) = VInt (x / m)) calls ->
  Z.of_nat (length calls) <= m ->
  0 <= shared_tokens field calls <= x.
Proof.
  intros Hx Hm Hall Hlen.
  assert (Hsum : shared_tokens field calls = Z.of_nat (length calls) * (x / m)).
  { clear Hlen. induction Hall as [| call rest Hcall _ IH]; simpl shared_tokens.
    - simpl. lia.
    - rewrite Hcall, IH. unfold num_or_zero. simpl Py.num. simpl default.
      rewrite length_cons. lia. }
  rewrite Hsum.
  pose proof (Z.div_pos x m Hx Hm) as Hq.
  pose proof (Z.mul_div_le x m Hm) as Hmul.
  nia.
Qed.

(** X14. The even split never over-reports: in a record returned by the
    main entry point for non-negative integer counters, the prompt,
    completion and total token counts of the LLM calls, each
    [delta // max(1, new_cycles)], add up to at most the corresponding
    token count of the record, and to at least 0. *)
Theorem llm_call_tokens_within_record
    (now : Z) (response : agent_response) (msg_id : option string)
    (agent_arg : option agent) (st : engine_state) (summary : pyval)
    (cur : counters) (prev : option counters) (tr : list pyval) (u : ui_record) :
  metrics response = Some (Ok {| get_summary := Ok summary |}) ->
  carries summary cur ->
  previous_counters agent_arg st prev ->
  nonneg_counters cur ->
  0 <= match prev with Some p => c_cycles p | None => 0 end ->
  Py.get summary "traces" (VList []) = Ok (VList tr) ->
  fst (extract_strands_trace_data now response msg_id agent_arg st) = Ok (Some u) ->
  0 <= shared_tokens prompt_tokens (ui_llm_calls u) <= c_input (spec_delta cur prev) /\
  0 <= shared_tokens completion_tokens (ui_llm_calls u) <= c_output (spec_delta cur prev) /\
  0 <= shared_tokens total_tokens (ui_llm_calls u) <= c_total (spec_delta cur prev).
Proof.
  intros Hm Hcar Hprev Hnn Hprevc Htr Hret.
  destruct Hnn as (Hi0 & Ho0 & Ht0 & Hc0 & _).
  destruct (returned_cycles_bound _ _ _ _ _ _ _ _ _ _ Hm Hcar Hprev Hc0 Hprevc Htr Hret)
    as (Hlen & Hllm & _).
  apply extract_returned_inv in Hret as (summary' & data & Hm' & Hcalc & Hconv).
  rewrite Hm in Hm'. inversion Hm'; subst summary'.
  destruct (calculate_returned _ _ _ _ _ _ _ Hcar Hprev Hcalc) as (Hd & _).
  assert (Hd' : deltas_of_data (with_summary data summary) = Some (spec_delta cur prev))
    by exact Hd.
  destruct (token_share_of_deltas _ _ Hd') as (Hsi & Hso & Hst).
  apply convert_structure in Hconv
    as (name & traces & built & counts & _ & _ & Hbuilt & _ & _ & Hcalls & _).
  destruct (build_cycles_shape _ _ _ _ _ _ Hbuilt) as (_ & _ & _ & Htok).
  rewrite <- Hcalls in Htok.
  set (delta := spec_delta cur prev) in *.
  assert (Hpos : 0 <= c_input delta /\ 0 <= c_output delta /\ 0 <= c_total delta).
  { subst delta. destruct prev; simpl; lia. }
  assert (Hm1 : 0 < Z.max 1 (c_cycles delta)) by lia.
  assert (Hn : Z.of_nat (length (ui_llm_calls u)) <= Z.max 1 (c_cycles delta))
    by (rewrite Hllm; lia).
  destruct Hpos as (Hpi & Hpo & Hpt).
  split; [| split].
  - apply (shared_tokens_bound prompt_tokens _ _ _ Hpi Hm1); [| exact Hn].
    eapply Forall_impl; [exact Htok |]. intros call (H1 & _ & _).
    rewrite Hsi in H1. inversion H1. reflexivity.
  - apply (shared_tokens_bound completion_tokens _ _ _ Hpo Hm1); [| exact Hn].
    eapply Forall_impl; [exact Htok |]. intros call (_ & H2 & _).
    rewrite Hso in H2. inversion H2. reflexivity.
  - apply (shared_tokens_bound total_tokens _ _ _ Hpt Hm1); [| exact Hn].
    eapply Forall_impl; [exact Htok |]. intros call (_ & _ & H3).
    rewrite Hst in H3. inversion H3. reflexivity.
Qed.

(** A first turn of two cycles with 11 prompt, 5 completion and 16 total
    tokens: each call gets (5, 2, 8). *)
Lemma llm_call_tokens_within_record_witness :
  exists u,
    fst (extract_strands_trace_data 0
           (response_of (summary_of 11 5 16 2 300
                           [cycle_with_tool "t1" ["1"]; cycle_with_tool "t2" ["2"]]))
           None (Some sample_agent) initial_state) = Ok (Some u) /\
    0 <= shared_tokens prompt_tokens (ui_llm_calls u) <= 11 /\
    0 <= shared_tokens completion_tokens (ui_llm_calls u) <= 5 /\
    0 <= shared_tokens total_tokens (ui_llm_calls u) <= 16.
Proof.
  eexists. split; [vm_compute; reflexivity |].
  apply (llm_call_tokens_within_record 0
           (response_of (summary_of 11 5 16 2 300
                           [cycle_with_tool "t1" ["1"]; cycle_with_tool "t2" ["2"]]))
           None (Some sample_agent) initial_state
           (summary_of 11 5 16 2 300
              [cycle_with_tool "t1" ["1"]; cycle_with_tool "t2" ["2"]])
           {| c_input := 11; c_output := 5; c_total := 16; c_cycles := 2; c_latency := 300 |}
           None
           [cycle_with_tool "t1" ["1"]; cycle_with_tool "t2" ["2"]]).
  - reflexivity.
  - unfold carries, summary_of, usage_of. repeat eexists.
  - reflexivity.
  - unfold nonneg_counters. simpl. lia.
  - lia.
  - reflexivity.
  - vm_compute. reflexivity.
Defined.

Lemma completion_without_assistant children text :
  Forall (fun child => is_assistant_step child = Ok false) children ->
  foldM completion_child children text = Ok text.
Proof.
  induction 1 as [| child rest Hchild _ IH]; simpl; [reflexivity |].
  unfold completion_child at 1. rewrite Hchild. simpl. exact IH.
Qed.

Lemma build_cycle_without_assistant text name data i trace cyc call :
  without_assistant_step trace ->
  build_cycle text name data i trace = Ok (cyc, call) ->
  completion cyc = text.
Proof.
  intros (cv & children & Hget & Hiter & Hnone). unfold build_cycle. intros H.
  destruct (Py.get trace "id" _) as [cid | e]; [| discriminate].
  unfold mbind at 1, res_bind at 1 in H. rewrite Hget in H.
  unfold mbind at 1, res_bind at 1 in H. rewrite Hiter in H.
  unfold mbind at 1, res_bind at 1 in H.
  rewrite (completion_without_assistant children EmptyString Hnone) in H.
  unfold mbind at 1, res_bind at 1 in H.
  destruct (duration_ms_of trace) as [dur | e]; [| discriminate].
  unfold mbind at 1, res_bind at 1 in H.
  destruct (token_share data "inputTokens") as [p | e]; [| discriminate].
  unfold mbind at 1, res_bind at 1 in H.
  destruct (token_share data "outputTokens") as [c | e]; [| discriminate].
  unfold mbind at 1, res_bind at 1 in H.
  destruct (token_share data "totalTokens") as [t | e]; [| discriminate].
  simpl in H. inversion H; subst; simpl. reflexivity.
Qed.

Lemma build_cycles_without_assistant text name data traces :
  Forall without_assistant_step traces ->
  forall i built,
    build_cycles text name data i traces = Ok built ->
    Forall (fun cyc => completion cyc = text) (fst built).
Proof.
  induction 1 as [| trace rest Htrace _ IH]; intros i built H; simpl in H.
  - inversion H; subst. constructor.
  - destruct (build_cycle text name data i trace) as [[cyc call] | e] eqn:Hone;
      [| discriminate].
    unfold mbind at 1, res_bind at 1 in H.
    destruct (build_cycles text name data (i + 1) rest) as [more | e] eqn:Hmore;
      [| discriminate].
    simpl in H. inversion H; subst; simpl.
    constructor; [| eapply IH; eassumption].
    eapply build_cycle_without_assistant; eassumption.
Qed.

(** X15. A cycle without assistant text falls back to the response text:
    in a record built from traces none of whose children is an assistant
    step, the completion of every cycle is the record's response text
    (the printable form of the turn result, or the empty string for a
    falsy result). *)
Theorem completion_falls_back_to_response_text
    (now : Z) (response : agent_response) (data : per_message_data) (mid : string)
    (agent_arg : option agent) (traces : list pyval) (u : ui_record) :
  Py.iter (new_traces data) = Ok traces ->
  Forall without_assistant_step traces ->
  convert_to_ui_format now response data mid agent_arg = Ok u ->
  response_text u = (if response_truthy response then response_str response else EmptyString) /\
  Forall (fun cyc => completion cyc = response_text u) (ui_cycles u).
Proof.
  intros Hiter Hnone H.
  assert (Htext : response_text u =
                  if response_truthy response then response_str response else EmptyString).
  { unfold convert_to_ui_format in H.
    destruct (derive_model_name agent_arg); [| discriminate].
    unfold mbind at 1, res_bind at 1 in H.
    destruct (Py.iter (new_traces data)); [| discriminate].
    unfold mbind at 1, res_bind at 1 in H.
    destruct (build_cycles _ _ _ _ _); [| discriminate].
    unfold mbind at 1, res_bind at 1 in H.
    destruct (Py.getitem (token_delta data) "totalTokens"); [| discriminate].
    unfold mbind at 1, res_bind at 1 in H.
    destruct (token_counts_of data); [| discriminate].
    simpl in H. inversion H; subst; reflexivity. }
  split; [exact Htext |].
  apply convert_structure in H
    as (name & traces' & built & counts & _ & Hiter' & Hbuilt & _ & Hcyc & _).
  rewrite Hiter in Hiter'. inversion Hiter'; subst traces'.
  rewrite Hcyc, Htext.
  eapply build_cycles_without_assistant; eassumption.
Qed.

(** Two traces, one without children and one with a tool step only. *)
Lemma completion_falls_back_to_response_text_witness :
  exists u,
    convert_to_ui_format 0 (response_of VNone)
      (with_token_delta
         {| token_delta := VNone; new_cycles := VInt 2; latency_ms := VInt 100;
            message_contents := []; tool_calls := []; tool_usage := VDict [];
            new_traces := VList [VDict [("id", VStr "c1")];
                                 VDict [("children", VList [tool_child "t1" ["42"]])]];
            metrics_summary := VNone |}
         (usage_of 5 5 10)) "m1" None = Ok u /\
    response_text u = "done" /\
    Forall (fun cyc => completion cyc = response_text u) (ui_cycles u).
Proof.
  eexists. split; [vm_compute; reflexivity |].
  apply (completion_falls_back_to_response_text 0 (response_of VNone)
           (with_token_delta
              {| token_delta := VNone; new_cycles := VInt 2; latency_ms := VInt 100;
                 message_contents := []; tool_calls := []; tool_usage := VDict [];
                 new_traces := VList [VDict [("id", VStr "c1")];
                                      VDict [("children", VList [tool_child "t1" ["42"]])]];
                 metrics_summary := VNone |}
              (usage_of 5 5 10)) "m1" None
           [VDict [("id", VStr "c1")];
            VDict [("children", VList [tool_child "t1" ["42"]])]]).
  - reflexivity.
  - repeat constructor.
    + exists (VList []), []. repeat split. constructor.
    + exists (VList [tool_child "t1" ["42"]]), [tool_child "t1" ["42"]].
      repeat split. repeat constructor.
  - vm_compute. reflexivity.
Defined.

(** * Response text *)

Lemma text_parts_values (items : list pyval) :
  text_parts (map ItemValue items) = Ok (map shown_part items).
Proof.
  induction items as [|v items IH]; [reflexivity|].
  cbn [map text_parts]. rewrite IH.
  assert (Hpart : text_part (ItemValue v) = Ok (shown_part v)).
  { unfold text_part, shown_part, Py.is_dict_with, Py.getitem.
    destruct v as [| | | |l|d]; try reflexivity.
    destruct (Py.lookup "text" d); reflexivity. }
  rewrite Hpart. reflexivity.
Qed.

Lemma shown_part_string (v : pyval) :
  (forall d t, v = VDict d -> Py.lookup "text" d = Some t -> exists s, t = VStr s) ->
  shown_part v = VStr (Py.str (shown_part v)).
Proof.
  intros Hv. unfold shown_part.
  destruct v as [| | | |l|d]; try reflexivity.
  destruct (Py.lookup "text" d) as [t|] eqn:Ht; [|reflexivity].
  destruct (Hv d t eq_refl Ht) as [s ->]. reflexivity.
Qed.

Lemma all_strings_shown (items : list pyval) :
  string_texts items ->
  all_strings (map shown_part items)
  = Some (map (fun v => Py.str (shown_part v)) items).
Proof.
  induction 1 as [|v items Hv _ IH]; [reflexivity|].
  cbn [map all_strings]. rewrite (shown_part_string v Hv), IH.
  reflexivity.
Qed.

Lemma all_strings_non_string (parts : list pyval) (t : pyval) :
  In t parts -> (forall s, t <> VStr s) -> all_strings parts = None.
Proof.
  induction parts as [|p parts IH]; intros Hin Ht; [destruct Hin|].
  destruct Hin as [->|Hin].
  - destruct t; try reflexivity. exfalso. eapply Ht. reflexivity.
  - cbn [all_strings]. rewrite (IH Hin Ht). destruct p; reflexivity.
Qed.

Lemma content_list_result (response : text_response) (items : list pyval) :
  has_content_list response items ->
  extract_response_text response = join_parts (map shown_part items).
Proof.
  intros [Hm Hc]. unfold extract_response_text.
  rewrite Hm, Hc. cbn. rewrite text_parts_values. reflexivity.
Qed.

(** X16. For a response without a [message] whose [content] is a list of
    JSON-like items in which every [text] entry of a dictionary is a
    string, [extract_response_text] returns the texts of the dictionaries
    that have one and the printable forms of the other items, in order
    and separated by single spaces; a [text] attribute of the response is
    not looked at. *)
Theorem content_list_texts_joined (response : text_response) (items : list pyval) :
  has_content_list response items ->
  string_texts items ->
  extract_response_text response
  = Ok (Py.join " " (map (fun v => Py.str (shown_part v)) items)).
Proof.
  intros Hr Hs. rewrite (content_list_result _ _ Hr).
  unfold join_parts. rewrite (all_strings_shown _ Hs). reflexivity.
Qed.

Lemma content_list_texts_joined_witness :
  extract_response_text
    (content_response [VDict [("text", VStr "Hello")]; VInt 3;
                       VDict [("type", VStr "x"); ("text", VStr "world")]])
  = Ok "Hello 3 world".
Proof.
  apply (content_list_texts_joined
           (content_response [VDict [("text", VStr "Hello")]; VInt 3;
                              VDict [("type", VStr "x"); ("text", VStr "world")]])
           [VDict [("text", VStr "Hello")]; VInt 3;
            VDict [("type", VStr "x"); ("text", VStr "world")]]).
  - split; reflexivity.
  - repeat constructor; intros d t Hd Ht; inversion Hd; subst d;
      vm_compute in Ht; inversion Ht; eexists; reflexivity.
Defined.

Lemma non_string_text_type_error (response : text_response) (items : list pyval)
    (d : list (string * pyval)) (t : pyval) :
  has_content_list response items ->
  In (VDict d) items ->
  Py.lookup "text" d = Some t ->
  (forall s, t <> VStr s) ->
  extract_response_text response = Raise TypeError.
Proof.
  intros Hr Hin Ht Hns. rewrite (content_list_result _ _ Hr).
  unfold join_parts.
  rewrite (all_strings_non_string (map shown_part items) t); [reflexivity| |exact Hns].
  apply in_map_iff. exists (VDict d). split; [|exact Hin].
  unfold shown_part. rewrite Ht. reflexivity.
Qed.

(** X17. When some dictionary of the content list holds under [text] a
    value that is not a string, [extract_response_text] raises
    [TypeError], whatever the other items are. *)
Theorem non_string_text_raises (response : text_response) (items : list pyval)
    (d : list (string * pyval)) (t : pyval) :
  has_content_list response items ->
  In (VDict d) items ->
  Py.lookup "text" d = Some t ->
  (forall s, t <> VStr s) ->
  extract_response_text response = Raise TypeError.
Proof. apply non_string_text_type_error. Qed.

Lemma non_string_text_raises_witness :
  extract_response_text
    (content_response [VDict [("text", VStr "Hello")]; VDict [("text", VNone)]])
  = Raise TypeError.
Proof.
  apply (non_string_text_raises
           (content_response [VDict [("text", VStr "Hello")]; VDict [("text", VNone)]])
           [VDict [("text", VStr "Hello")]; VDict [("text", VNone)]]
           [("text", VNone)] VNone).
  - split; reflexivity.
  - right. left. reflexivity.
  - reflexivity.
  - intros s Hs. discriminate Hs.
Defined.

(** * Chat endpoint *)



Lemma chat_reply_steps now a r st :
  chat_reply now a r st =
  match extract_response_text (text_view r) with
  | Raise e => (Raise e, st)
  | Ok _ =>
      match is_temporary r with
      | Raise e => (Raise e, st)
      | Ok temporary =>
          match chosen_entry_point now a r temporary st with
          | (Raise e, st') => (Raise e, st')
          | (Ok t, st') =>
              match reply_value r with
              | Raise e => (Raise e, st')
              | Ok v => (Ok (v, t), st')
              end
          end
      end
  end.
Proof.
  unfold chat_reply, chosen_entry_point. unfold_M.
  destruct (extract_response_text (text_view r)); [| reflexivity].
  destruct (is_temporary r) as [temporary | e]; [| reflexivity].
  destruct temporary.
  - destruct (extract_direct_metrics_from_response _ _ _ st) as [[t | e] st'];
      [| reflexivity].
    destruct (reply_value r); reflexivity.
  - destruct (extract_strands_trace_data _ _ _ _ st) as [[t | e] st']; [| reflexivity].
    destruct (reply_value r); reflexivity.
Qed.

Lemma chat_endpoint_steps now a called message st :
  chat_endpoint now a called message st =
  if String.eqb message EmptyString then (HTTPException 500, st)
  else
    match called with
    | Raise _ => (HTTPException 500, st)
    | Ok r =>
        match chat_reply now a r st with
        | (Ok (v, t), st') => (Reply v t, st')
        | (Raise _, st') => (HTTPException 500, st')
        end
    end.
Proof.
  unfold chat_endpoint, chat_body.
  destruct (String.eqb message EmptyString); [reflexivity|].
  unfold mbind at 1, M_bind at 1, lift at 1.
  destruct called as [r | e]; [| reflexivity].
  destruct (chat_reply now a r st) as [[[v t] | e] st']; reflexivity.
Qed.


(** X18. The chat endpoint answers every failure with status 500: its
    result is a reply or an [HTTPException] with status code 500, and the
    empty message, for which the handler raises status 400 inside its own
    [try], is answered with 500 as well, before the agent is called. *)
Theorem chat_endpoint_fails_with_500 now a called message st :
  chat_endpoint now a called EmptyString st = (HTTPException 500, st) /\
  match fst (chat_endpoint now a called message st) with
  | Reply _ _ => True
  | HTTPException status => status = 500
  end.
Proof.
  split; [reflexivity|].
  unfold chat_endpoint.
  destruct (chat_body now a called message st) as [[e | [v t]] st']; simpl; trivial.
Qed.


(** A turn result whose [metrics] property raises is answered with status
    500, although its text and its message can be read. *)
Example raising_metrics_fails_request :
  chat_endpoint 0 sample_agent (Ok broken_chat_response) "hi" initial_state =
  (HTTPException 500, initial_state).
Proof. reflexivity. Qed.



(** X21. A request answered from a temporary agent never changes the
    engine: when the turn result carries a truthy [_is_temporary_agent],
    the state after the request is the state before it, whether the
    request is answered or fails. *)
Theorem temporary_request_keeps_state now a r message st :
  is_temporary r = Ok true ->
  snd (chat_endpoint now a (Ok r) message st) = st.
Proof.
  intros Htmp. rewrite chat_endpoint_steps.
  destruct (String.eqb message EmptyString); [reflexivity|].
  rewrite chat_reply_steps, Htmp.
  destruct (extract_response_text (text_view r)); [| reflexivity].
  unfold chosen_entry_point.
  pose proof (direct_keeps_state now (as_result r) None st) as Hst.
  destruct (extract_direct_metrics_from_response now (as_result r) None st)
    as [[t | e] st']; simpl in Hst; subst st'; [| reflexivity].
  destruct (reply_value r); reflexivity.
Qed.

Lemma temporary_request_keeps_state_witness :
  snd (chat_endpoint 0 sample_agent
         (Ok (temporary_response [VDict [("text", VStr "Hello")]]
                (summary_of 10 5 15 2 300 []))) "hi" initial_state) = initial_state.
Proof.
  apply (temporary_request_keeps_state 0 sample_agent
           (temporary_response [VDict [("text", VStr "Hello")]]
              (summary_of 10 5 15 2 300 [])) "hi" initial_state).
  reflexivity.
Defined.

(** X22. The text extracted at the start of the handler is never used,
    yet its failure fails the request: when the content list of the turn
    result holds a dictionary whose [text] is not a string, the endpoint
    answers with status 500 and the engine state is untouched, so the
    turn's counters reach neither the agent's snapshot nor the session
    totals, although the metrics of the result are readable. *)
Theorem unused_text_failure_fails_request now a r message st items d t :
  has_content_list (text_view r) items ->
  In (VDict d) items ->
  Py.lookup "text" d = Some t ->
  (forall s, t <> VStr s) ->
  chat_endpoint now a (Ok r) message st = (HTTPException 500, st).
Proof.
  intros Hr Hin Ht Hns. rewrite chat_endpoint_steps.
  destruct (String.eqb message EmptyString); [reflexivity|].
  rewrite chat_reply_steps.
  rewrite (non_string_text_type_error _ _ _ _ Hr Hin Ht Hns). reflexivity.
Qed.

Lemma unused_text_failure_fails_request_witness :
  chat_endpoint 0 sample_agent
    (Ok (block_response [VDict [("text", VInt 7)]] (summary_of 10 5 15 2 300 [])))
    "hi" initial_state = (HTTPException 500, initial_state).
Proof.
  apply (unused_text_failure_fails_request 0 sample_agent
           (block_response [VDict [("text", VInt 7)]] (summary_of 10 5 15 2 300 []))
           "hi" initial_state [VDict [("text", VInt 7)]] [("text", VInt 7)] (VInt 7)).
  - split; reflexivity.
  - left. reflexivity.
  - reflexivity.
  - intros s Hs. discriminate Hs.
Defined.

(** * Agent info endpoint *)

Lemma convert_names now response data mid agent_arg u :
  convert_to_ui_format now response data mid agent_arg = Ok u ->
  derive_model_name agent_arg = Ok (gen_ai_request_model (attributes_of_agent u)) /\
  attr_agent_name (attributes_of_agent u) = derive_agent_name agent_arg /\
  gen_ai_agent_name (attributes_of_agent u) = derive_agent_name agent_arg.
Proof.
  unfold convert_to_ui_format. intros H.
  destruct (derive_model_name agent_arg) as [name | e]; [| discriminate].
  unfold mbind at 1, res_bind at 1 in H.
  destruct (Py.iter (new_traces data)) as [traces | e]; [| discriminate].
  unfold mbind at 1, res_bind at 1 in H.
  destruct (build_cycles _ _ _ _ _) as [built | e]; [| discriminate].
  unfold mbind at 1, res_bind at 1 in H.
  destruct (Py.getitem (token_delta data) "totalTokens") as [t | e]; [| discriminate].
  unfold mbind at 1, res_bind at 1 in H.
  destruct (token_counts_of data) as [counts | e]; [| discriminate].
  simpl in H. inversion H; subst; simpl. repeat split.
Qed.

(** X23. The [/info] answer and the trace records name the same model and
    the same agent: for a loaded agent with a truthy [model] whose [name]
    is absent or truthy, whenever [convert_to_ui_format] builds a record
    for the agent, [/info] answers, and its [model] and [name] are the
    request model and the agent name of the record. *)
Theorem info_agrees_with_records now response data mid a u :
  has_model a ->
  name_not_falsy a ->
  convert_to_ui_format now response data mid (Some a) = Ok u ->
  exists info,
    agent_info a = Ok info /\
    info_model info = gen_ai_request_model (attributes_of_agent u) /\
    info_name info = attr_agent_name (attributes_of_agent u).
Proof.
  intros (model_obj & Hmodel & Htruthy) Hname Hu.
  destruct (convert_names _ _ _ _ _ _ Hu) as (Hm & Hn & _).
  unfold agent_info. unfold derive_model_name in Hm.
  rewrite Hmodel, Htruthy in *. rewrite Hm.
  eexists. split; [reflexivity|]. simpl. split; [reflexivity|].
  rewrite Hn. unfold derive_agent_name, name_not_falsy in *.
  destruct (agent_name a) as [n|]; [rewrite Hname|]; reflexivity.
Qed.

Lemma info_agrees_with_records_witness :
  exists info,
    agent_info named_agent = Ok info /\
    info_model info = "llama3" /\
    info_name info = VStr "Agent".
Proof.
  destruct (convert_to_ui_format 0 (response_of VNone) sample_data "m1" (Some named_agent))
    as [u | e] eqn:Hu; [| vm_compute in Hu; discriminate Hu].
  destruct (info_agrees_with_records 0 (response_of VNone) sample_data "m1" named_agent u)
    as (info & Hinfo & Hm & Hn).
  - exists named_model. split; reflexivity.
  - exact I.
  - exact Hu.
  - exists info. split; [exact Hinfo|].
    vm_compute in Hu. injection Hu as <-. split; [exact Hm | exact Hn].
Defined.

(** X24. Without a truthy [model] the two disagree: [/info] answers
    "unknown", while every record built for the agent names the fallback
    model id. *)
Theorem info_differs_without_model now response data mid a u :
  match agent_model a with
  | Some model_obj => obj_truthy model_obj = false
  | None => True
  end ->
  convert_to_ui_format now response data mid (Some a) = Ok u ->
  exists info,
    agent_info a = Ok info /\
    info_model info = "unknown" /\
    gen_ai_request_model (attributes_of_agent u) = fallback_model /\
    info_model info <> gen_ai_request_model (attributes_of_agent u).
Proof.
  intros Hmodel Hu.
  destruct (convert_names _ _ _ _ _ _ Hu) as (Hm & _).
  assert (Hderived : derive_model_name (Some a) = Ok fallback_model).
  { unfold derive_model_name.
    destruct (agent_model a) as [model_obj|]; [rewrite Hmodel|]; reflexivity. }
  rewrite Hderived in Hm. injection Hm as Hm.
  assert (Hinfo : agent_info a =
                  Ok {| info_name := match agent_name a with
                                     | Some n => n
                                     | None => VStr (agent_class a)
                                     end;
                        info_model := "unknown" |}).
  { unfold agent_info.
    destruct (agent_model a) as [model_obj|]; [rewrite Hmodel|]; reflexivity. }
  eexists. split; [exact Hinfo|]. simpl. rewrite <- Hm.
  repeat split. discriminate.
Qed.

Lemma info_differs_without_model_witness :
  exists info,
    agent_info sample_agent = Ok info /\
    info_model info = "unknown".
Proof.
  destruct (convert_to_ui_format 0 (response_of VNone) sample_data "m1" (Some sample_agent))
    as [u | e] eqn:Hu; [| vm_compute in Hu; discriminate Hu].
  destruct (info_differs_without_model 0 (response_of VNone) sample_data "m1" sample_agent u)
    as (info & Hinfo & Hm & _).
  - exact I.
  - exact Hu.
  - exists info. split; [exact Hinfo | exact Hm].
Defined.

(** An agent whose [name] is the empty string is shown with that name by
    [/info] and with its class name in the records. *)
Example empty_name_is_shown_differently :
  agent_info nameless_agent =
    Ok {| info_name := VStr EmptyString; info_model := "unknown" |} /\
  derive_agent_name (Some nameless_agent) = VStr "Agent".
Proof. split; reflexivity. Qed.
